(** * FlashSell end-to-end browser scripts

    A shallow embedding of the three Playwright scripts of the repository

      - [src/flashsell-web/test_responsive.py]  (module [Responsive])
      - [src/test-frontend.py]                  (module [Frontend])
      - [src/flashsell-web/test_ui_design.py]   (module [UIDesign])

    The scripts are straight-line Python driving a browser.  Each one is
    embedded as a computation in a state-and-exception monad [M]: the state
    ([world]) is what a run changes (terminal output, screenshot files, the
    browser session, the lists the aggregate script appends to), and what the
    browser answers at each call site is read from an environment record, so
    that every behaviour of the browser (values returned, exceptions raised,
    page events delivered) is one environment. *)

From Stdlib Require Import List String Ascii ZArith QArith Bool Lia Arith.
From Stdlib Require Import DecimalString DecimalZ.
Import ListNotations.

Local Close Scope Q_scope.
Local Open Scope string_scope.
Local Open Scope Z_scope.

(* ================================================================== *)
(** * Python values and string operations *)
(* ================================================================== *)

Module Py.

(** The line feed written [\n] in the sources. *)
Definition nl : string := String (ascii_of_nat 10) EmptyString.

(** [str(n)] for a Python [int]. *)
Definition str (z : Z) : string := NilZero.string_of_int (Z.to_int z).

(** [s * n] for a string [s]. *)
Fixpoint times (s : string) (n : nat) : string :=
  match n with
  | O => EmptyString
  | S k => s ++ times s k
  end.

(** [s.replace(old, new)] where [old] and [new] are single characters. *)
Fixpoint replace (old new : ascii) (s : string) : string :=
  match s with
  | EmptyString => EmptyString
  | String c t =>
      String (if Ascii.eqb c old then new else c) (replace old new t)
  end.

(** [needle in hay] for strings. *)
Fixpoint contains (needle hay : string) : bool :=
  prefix needle hay
  || match hay with
     | EmptyString => false
     | String _ t => contains needle t
     end.

(** [s.lower()] on the ASCII letters (class attributes are ASCII). *)
Definition lower_char (c : ascii) : ascii :=
  let n := nat_of_ascii c in
  if (65 <=? n)%nat && (n <=? 90)%nat then ascii_of_nat (n + 32) else c.

Fixpoint lower (s : string) : string :=
  match s with
  | EmptyString => EmptyString
  | String c t => String (lower_char c) (lower t)
  end.

(** The exceptions the scripts meet: the two the browser driver raises
    (its [Error] and the [TimeoutError] derived from it) and the
    [AssertionError] of a failed [assert].  All three derive from
    [Exception], so [except Exception] and a bare [except] catch each. *)
Inductive exn : Type :=
| Error (message : string)
| TimeoutError (message : string)
| AssertionError (message : string).

(** [str(e)], as interpolated by [f"{e}"]. *)
Definition exn_str (e : exn) : string :=
  match e with
  | Error m | TimeoutError m | AssertionError m => m
  end.

(** [time.struct_time], the fields [strftime] reads. *)
Record struct_time : Type := mkTime {
  tm_year : Z; tm_mon : Z; tm_mday : Z;
  tm_hour : Z; tm_min : Z; tm_sec : Z
}.

(** The character of a decimal digit. *)
Definition digit (d : Z) : ascii := ascii_of_nat (Z.to_nat (48 + d)).

(** A field printed by [%m], [%d], [%H], [%M], [%S]: two decimal digits. *)
Definition pad2 (n : Z) : string :=
  String (digit ((n / 10) mod 10)) (String (digit (n mod 10)) EmptyString).

(** [time.strftime('%Y%m%d_%H%M%S')] at local time [t]; [%Y] is the year
    in decimal. *)
Definition strftime_Ymd_HMS (t : struct_time) : string :=
  str (tm_year t) ++ pad2 (tm_mon t) ++ pad2 (tm_mday t) ++ "_"
  ++ pad2 (tm_hour t) ++ pad2 (tm_min t) ++ pad2 (tm_sec t).

End Py.

Import Py.

(* ================================================================== *)
(** * The monad of a run *)
(* ================================================================== *)

(** What a call returns: a value, or an exception. *)
Inductive outcome (A : Type) : Type :=
| Ok (a : A)
| Raise (e : exn).
Arguments Ok {A} a.
Arguments Raise {A} e.

(** The state a run works on. [stdout] holds one entry per [print] call,
    oldest first; [files] the paths of the screenshots written, in order;
    [closes] counts the calls of [browser.close()] and [stops] the exits of
    the [with sync_playwright()] block.  [results], [console_errors] and
    [failed_requests] are the three lists of [test_frontend]; the two flags
    say whether its [on_console] and [log_response] handlers are registered
    on the page.  The other two scripts have no such lists or handlers and
    leave these fields as they find them. *)
Record world : Type := mkWorld {
  stdout : list string;
  files : list string;
  closes : nat;
  stops : nat;
  results : list (string * bool);
  console_errors : list string;
  failed_requests : list string;
  console_hooked : bool;
  response_hooked : bool
}.

(** The state at process start. *)
Definition initial : world :=
  mkWorld [] [] 0 0 [] [] [] false false.

Definition M (A : Type) : Type := world -> outcome A * world.

Definition ret {A} (a : A) : M A := fun w => (Ok a, w).

Definition bind {A B} (m : M A) (k : A -> M B) : M B :=
  fun w =>
    match m w with
    | (Ok a, w') => k a w'
    | (Raise e, w') => (Raise e, w')
    end.

Definition raise {A} (e : exn) : M A := fun w => (Raise e, w).

Notation "x <- m ;; k" := (bind m (fun x => k))
  (at level 61, m at next level, right associativity).
Notation "m ;; k" := (bind m (fun _ => k))
  (at level 61, right associativity).

(** [try: m  except: h]. *)
Definition try_except {A} (m : M A) (h : exn -> M A) : M A :=
  fun w =>
    match m w with
    | (Ok a, w') => (Ok a, w')
    | (Raise e, w') => h e w'
    end.

(** [try: m  finally: f], for a cleanup [f] that is itself a computation. *)
Definition try_finally {A} (m : M A) (f : M unit) : M A :=
  fun w =>
    match m w with
    | (r, w') =>
        match f w' with
        | (Ok _, w'') => (r, w'')
        | (Raise e, w'') => (Raise e, w'')
        end
    end.

(** A call of the browser driver whose answer is [o]. *)
Definition raw {A} (o : outcome A) : M A := fun w => (o, w).

(** [print(s)]. *)
Definition print (s : string) : M unit :=
  fun w =>
    (Ok tt,
     mkWorld (stdout w ++ [s]) (files w) (closes w) (stops w) (results w)
       (console_errors w) (failed_requests w)
       (console_hooked w) (response_hooked w)).

(** [page.screenshot(path=...)]: when the driver answers without raising,
    the file [path] has been written. *)
Definition screenshot (path : string) (o : outcome unit) : M unit :=
  fun w =>
    match o with
    | Ok _ =>
        (Ok tt,
         mkWorld (stdout w) (files w ++ [path]) (closes w) (stops w)
           (results w) (console_errors w) (failed_requests w)
           (console_hooked w) (response_hooked w))
    | Raise e => (Raise e, w)
    end.

(** [browser.close()], which the driver answers with [o]: the call is
    counted whether it answers or raises. *)
Definition browser_close (o : outcome unit) : M unit :=
  fun w =>
    (o,
     mkWorld (stdout w) (files w) (S (closes w)) (stops w) (results w)
       (console_errors w) (failed_requests w)
       (console_hooked w) (response_hooked w)).

(** Leaving the [with sync_playwright()] block. *)
Definition exit_playwright : M unit :=
  fun w =>
    (Ok tt,
     mkWorld (stdout w) (files w) (closes w) (S (stops w)) (results w)
       (console_errors w) (failed_requests w)
       (console_hooked w) (response_hooked w)).

(** [with sync_playwright() as p: body]: the exit of the context manager
    runs however [body] ends, and an exception of [body] goes on.  Entering
    and leaving the block start and stop the local driver process, before
    and after any call that reaches a browser; they are taken to answer. *)
Definition with_sync_playwright {A} (body : M A) : M A :=
  try_finally body exit_playwright.

(** [for x in l: body x]. *)
Fixpoint for_each {A} (l : list A) (body : A -> M unit) : M unit :=
  match l with
  | [] => ret tt
  | x :: rest => body x ;; for_each rest body
  end.

(** [assert c, msg]. *)
Definition py_assert (c : bool) (msg : string) : M unit :=
  if c then ret tt else raise (AssertionError msg).

(* ================================================================== *)
(** * [test_responsive.py] *)
(* ================================================================== *)

Module Responsive.

Record size : Type := mkSize { width : Z; height : Z }.

(** [DEVICE_SIZES]; a [dict] is iterated in insertion order. *)
Definition DEVICE_SIZES : list (string * size) :=
  [ ("iPhone SE", mkSize 375 667);
    ("iPhone 12", mkSize 390 844);
    ("iPad", mkSize 768 1024);
    ("iPad Pro", mkSize 1024 1366);
    ("Desktop", mkSize 1440 900);
    ("Large Desktop", mkSize 1920 1080) ].

Record page_info : Type := mkPage { url : string; name : string }.

Definition PAGES_TO_TEST : list page_info :=
  [ mkPage "/" "Home";
    mkPage "/profile" "Profile";
    mkPage "/market" "Market";
    mkPage "/subscription" "Subscription";
    mkPage "/hot-products" "HotProducts";
    mkPage "/favorites" "Favorites" ].

(** The dictionary [bounding_box()] returns; the driver gives floats, and
    every finite float is a rational. *)
Record box : Type := mkBox { box_x : Q; box_y : Q; box_width : Q; box_height : Q }.

(** What the browser answers during the check of one page at one device
    size, one field per call of the loop body, in source order.  [buttons]
    is the answer of [page.locator('button').all()]: the buttons found,
    each given by what its [bounding_box()] answers. *)
Record page_obs : Type := mkObs {
  goto : outcome unit;
  wait_networkidle : outcome unit;
  wait_settle : outcome unit;
  scroll_width : outcome Z;
  sidebar_visible : outcome bool;
  main_visible : outcome bool;
  main_width : outcome Z;
  card_count : outcome Z;
  card_width : outcome Z;
  buttons : outcome (list (outcome (option box)));
  shot : outcome unit
}.

(** What the browser and the clock answer during one run: [launch] and
    [new_page] are [p.chromium.launch()] and [browser.new_page()] (lines
    30-31), [close] is [browser.close()] (line 129). *)
Record env : Type := mkEnv {
  launch : outcome unit;
  new_page : outcome unit;
  login_goto : outcome unit;
  login_networkidle : outcome unit;
  fill_phone : outcome unit;
  fill_code : outcome unit;
  click_login : outcome unit;
  wait_for_url : outcome unit;
  localtime : struct_time;
  set_viewport_size : string -> outcome unit;
  wait_resize : string -> outcome unit;
  obs : string -> string -> page_obs;
  close : outcome unit
}.

(** ** The lines the script prints *)

Definition msg_login_ok : string := "  ✅ 登录成功".
Definition msg_login_warn : string := "  ⚠️  登录可能失败，继续测试...".

Definition msg_scroll_fail (scroll viewport : Z) : string :=
  "    ❌ 发现横向滚动! scrollWidth=" ++ str scroll
  ++ ", viewport=" ++ str viewport.
Definition msg_scroll_ok (scroll : Z) : string :=
  "    ✅ 无横向滚动 (" ++ str scroll ++ "px)".

Definition msg_buttons_ok : string :=
  "    ✅ 移动端按钮触摸目标符合标准 (≥44x44)".
Definition msg_small_buttons (n : Z) : string :=
  "    ⚠️  发现 " ++ str n ++ " 个小按钮 (<44x44)".

Definition msg_page (page_name : string) : string :=
  nl ++ "  测试页面: " ++ page_name.

(** [screenshot_name] of the loop body. *)
Definition screenshot_name (device_name page_name timestamp : string) : string :=
  "responsive_" ++ replace " " "_" device_name ++ "_" ++ page_name
  ++ "_" ++ timestamp ++ ".png".

(** ** Login (lines 36-51) *)

Definition login (e : env) : M unit :=
  print (nl ++ "🔐 执行登录...") ;;
  raw (login_goto e) ;;
  raw (login_networkidle e) ;;
  raw (fill_phone e) ;;
  raw (fill_code e) ;;
  raw (click_login e) ;;
  try_except
    (raw (wait_for_url e) ;; print msg_login_ok)
    (fun _ => print msg_login_warn).

(** ** The body of the page loop (lines 67-127) *)

Definition check_scroll (o : page_obs) (sz : size) : M unit :=
  scroll <- raw (scroll_width o) ;;
  let viewport_width := width sz in
  if scroll >? viewport_width + 10
  then print (msg_scroll_fail scroll viewport_width)
  else print (msg_scroll_ok scroll).

Definition check_sidebar (o : page_obs) (sz : size) : M unit :=
  visible <- raw (sidebar_visible o) ;;
  if (visible : bool) then
    if width sz <? 768
    then print "    ✅ 移动端导航栏可见（可能是侧边栏或汉堡菜单）"
    else print "    ✅ 桌面端导航栏可见"
  else ret tt.

Definition check_main (o : page_obs) : M unit :=
  visible <- raw (main_visible o) ;;
  if (visible : bool) then
    w <- raw (main_width o) ;;
    print ("    ✅ 主内容区域可见 (宽度: " ++ str w ++ "px)")
  else ret tt.

Definition check_cards (o : page_obs) : M unit :=
  n <- raw (card_count o) ;;
  if n >? 0 then
    w <- raw (card_width o) ;;
    print ("    ✅ 找到 " ++ str n ++ " 个卡片，卡片宽度约 " ++ str w ++ "px")
  else ret tt.

(** [x or 0] for a float [x]. *)
Definition or_zero (x : Q) : Q := if Qeq_bool x 0 then 0%Q else x.

(** [x < 44] for a float [x]. *)
Definition below_44 (x : Q) : bool := negb (Qle_bool 44 x).

(** The test of lines 113-117 on what [bounding_box()] returned. *)
Definition undersized (b : option box) : bool :=
  match b with
  | Some bx =>
      below_44 (or_zero (box_width bx)) || below_44 (or_zero (box_height bx))
  | None => false
  end.

(** The loop of lines 111-117 over the sampled buttons, [small_buttons]
    being the counter. *)
Fixpoint count_small (btns : list (outcome (option box))) (small_buttons : Z)
  : M Z :=
  match btns with
  | [] => ret small_buttons
  | btn :: rest =>
      b <- raw btn ;;
      count_small rest
        (if undersized b then small_buttons + 1 else small_buttons)
  end.

Definition check_buttons (o : page_obs) (sz : size) : M unit :=
  if width sz <=? 480 then
    btns <- raw (buttons o) ;;
    small_buttons <- count_small (firstn 5 btns) 0 ;;
    if small_buttons =? 0
    then print msg_buttons_ok
    else print (msg_small_buttons small_buttons)
  else ret tt.

Definition take_screenshot (o : page_obs) (device_name : string)
    (p : page_info) (timestamp : string) : M unit :=
  let screenshot_name := screenshot_name device_name (name p) timestamp in
  screenshot screenshot_name (shot o) ;;
  print ("    📸 截图已保存: " ++ screenshot_name).

(** Lines 67-105: navigation, then the checks that come before the
    touch-target check. *)
Definition check_layout (o : page_obs) (sz : size) (p : page_info) : M unit :=
  print (msg_page (name p)) ;;
  raw (goto o) ;;
  raw (wait_networkidle o) ;;
  raw (wait_settle o) ;;
  check_scroll o sz ;;
  check_sidebar o sz ;;
  check_main o ;;
  check_cards o.

Definition check_page (e : env) (timestamp : string)
    (device : string * size) (p : page_info) : M unit :=
  let o := obs e (fst device) (name p) in
  check_layout o (snd device) p ;;
  check_buttons o (snd device) ;;
  take_screenshot o (fst device) p timestamp.

(** ** The body of the device loop (lines 57-127) *)

Definition check_device (e : env) (timestamp : string)
    (device : string * size) : M unit :=
  let device_name := fst device in
  let sz := snd device in
  print (nl ++ times "=" 70) ;;
  print ("📱 测试设备: " ++ device_name ++ " (" ++ str (width sz) ++ "x"
         ++ str (height sz) ++ ")") ;;
  print (times "=" 70) ;;
  raw (set_viewport_size e device_name) ;;
  raw (wait_resize e device_name) ;;
  for_each PAGES_TO_TEST (check_page e timestamp device).

Definition summary : M unit :=
  print (nl ++ times "=" 70) ;;
  print "✅ 响应式设计测试完成！" ;;
  print (nl ++ "📋 测试总结:") ;;
  print ("  • 测试设备数:" ++ " " ++ str (Z.of_nat (List.length DEVICE_SIZES))) ;;
  print ("  • 测试页面数:" ++ " " ++ str (Z.of_nat (List.length PAGES_TO_TEST))) ;;
  print ("  • 总截图数:" ++ " "
         ++ str (Z.of_nat (List.length DEVICE_SIZES) * Z.of_nat (List.length PAGES_TO_TEST))) ;;
  print (nl ++ "🎯 响应式断点覆盖:") ;;
  print "  • 移动端: 375px, 390px" ;;
  print "  • 平板: 768px, 1024px" ;;
  print "  • 桌面: 1440px, 1920px" ;;
  print (nl ++ "✨ 所有截图已保存，可查看各设备上的显示效果！").

(** The device loop (lines 53-127), with the timestamp taken before it. *)
Definition matrix (e : env) : M unit :=
  let timestamp := strftime_Ymd_HMS (localtime e) in
  for_each DEVICE_SIZES (check_device e timestamp).

(** ** [test_responsive_design] *)

Definition test_responsive_design (e : env) : M unit :=
  with_sync_playwright
    (raw (launch e) ;;
     raw (new_page e) ;;
     print (nl ++ "📱 开始测试响应式设计...") ;;
     print (times "=" 70) ;;
     login e ;;
     matrix e ;;
     browser_close (close e) ;;
     summary).

(** The script as a process: [test_responsive_design()] from the initial
    state. *)
Definition run (e : env) : outcome unit * world :=
  test_responsive_design e initial.

(** ** Reading the output *)

(** The page checks indent their lines by four spaces and open them with
    a mark; the cross is the mark of a failure. *)
Definition is_failure_line (l : string) : bool := prefix "    ❌" l.

(** The two lines of the horizontal-scroll check. *)
Definition is_scroll_line (l : string) : bool :=
  prefix "    ❌ 发现横向滚动" l || prefix "    ✅ 无横向滚动" l.

(** The entries of the result list that did not pass. *)
Definition failed (rs : list (string * bool)) : list (string * bool) :=
  filter (fun r => negb (snd r)) rs.

(** A line that is neither a scroll verdict nor a failure. *)
Definition plain_line (l : string) : Prop :=
  is_scroll_line l = false /\ is_failure_line l = false.

Definition is_digit (c : ascii) : bool :=
  let n := nat_of_ascii c in ((48 <=? n) && (n <=? 57))%nat.

Fixpoint all_digits (s : string) : bool :=
  match s with
  | EmptyString => true
  | String c t => is_digit c && all_digits t
  end.

(** The pattern [YYYYMMDD_HHMMSS]: eight digits, an underscore, six
    digits. *)
Definition matches_Ymd_HMS (s : string) : bool :=
  (String.length s =? 15)%nat
  && all_digits (substring 0 8 s)
  && (substring 8 1 s =? "_")%string
  && all_digits (substring 9 6 s).

(** A local time as [time.localtime()] gives it, in the years that print
    with four digits. *)
Definition valid_time (t : struct_time) : Prop :=
  1000 <= tm_year t <= 9999 /\ 1 <= tm_mon t <= 12 /\ 1 <= tm_mday t <= 31
  /\ 0 <= tm_hour t <= 23 /\ 0 <= tm_min t <= 59 /\ 0 <= tm_sec t <= 61.

(** The years that print with four digits. *)
Definition four_digits (s : string) : bool :=
  match s with
  | String a (String b (String c (String d EmptyString))) =>
      is_digit a && is_digit b && is_digit c && is_digit d
  | _ => false
  end.

(** A name the script gives a screenshot at [ts]. *)
Definition named_at (ts : string) (f : string) : Prop :=
  exists d p, f = screenshot_name d p ts.

(** The names of the screenshots of a whole matrix at [timestamp]. *)
Definition matrix_names (timestamp : string) : list string :=
  flat_map
    (fun device =>
       map (fun p => screenshot_name (fst device) (name p) timestamp)
         PAGES_TO_TEST)
    DEVICE_SIZES.

(** The failure line of the scroll check of one pair, if the check was
    reached and the page overflows. *)
Definition overflow_line (e : env) (device : string * size) (p : page_info)
  : list string :=
  match scroll_width (obs e (fst device) (name p)) with
  | Ok scroll =>
      if scroll >? width (snd device) + 10
      then [msg_scroll_fail scroll (width (snd device))]
      else []
  | Raise _ => []
  end.

(** The failure lines of the whole matrix, device by device. *)
Definition overflow_lines (e : env) : list string :=
  flat_map (fun device => flat_map (overflow_line e device) PAGES_TO_TEST)
    DEVICE_SIZES.

(** [l] has no entry twice. *)
Fixpoint distinct (l : list string) : bool :=
  match l with
  | [] => true
  | x :: rest => negb (existsb (String.eqb x) rest) && distinct rest
  end.

(** The names of the matrix without timestamp and extension. *)
Definition matrix_stems : list string :=
  flat_map
    (fun device =>
       map (fun p => "responsive_" ++ replace " " "_" (fst device) ++ "_"
                     ++ name p ++ "_")
         PAGES_TO_TEST)
    DEVICE_SIZES.

(** ** The exception that ends a run *)

(** The exception of a driver call, or else what follows from its
    answer. *)
Definition after {A} (o : outcome A) (k : A -> option exn) : option exn :=
  match o with
  | Ok a => k a
  | Raise ex => Some ex
  end.

Definition otherwise (a b : option exn) : option exn :=
  match a with
  | Some ex => Some ex
  | None => b
  end.

(** The first call of a row of driver calls that raises. *)
Fixpoint first_raise {A} (l : list (outcome A)) : option exn :=
  match l with
  | [] => None
  | Ok _ :: rest => first_raise rest
  | Raise ex :: _ => Some ex
  end.

(** The first element of [l], in order, for which [f] gives an
    exception. *)
Fixpoint first_of {A} (f : A -> option exn) (l : list A) : option exn :=
  match l with
  | [] => None
  | x :: rest => otherwise (f x) (first_of f rest)
  end.

(** The exception that ends the body of the page loop, if any: the first
    driver call that raises, in source order.  The width of the main
    area is asked for only when it is visible, the width of the first
    card only when there is a card, the buttons only on a viewport of at
    most 480px, and the box of the first five of them only. *)
Definition page_failure (o : page_obs) (sz : size) : option exn :=
  after (goto o) (fun _ =>
  after (wait_networkidle o) (fun _ =>
  after (wait_settle o) (fun _ =>
  after (scroll_width o) (fun _ =>
  after (sidebar_visible o) (fun _ =>
  after (main_visible o) (fun visible =>
  after (if (visible : bool) then main_width o else Ok 0) (fun _ =>
  after (card_count o) (fun n =>
  after (if n >? 0 then card_width o else Ok 0) (fun _ =>
  after (if width sz <=? 480 then buttons o else Ok []) (fun btns =>
  otherwise (first_raise (firstn 5 btns))
    (after (shot o) (fun _ => None)))))))))))).

Definition device_failure (e : env) (device : string * size) : option exn :=
  after (set_viewport_size e (fst device)) (fun _ =>
  after (wait_resize e (fst device)) (fun _ =>
  first_of (fun p => page_failure (obs e (fst device) (name p)) (snd device))
    PAGES_TO_TEST)).

(** The exception that ends a run before [browser.close()] is reached,
    if any: the first driver call that raises, from the launch of the
    browser to the last screenshot.  The wait for the landing route is
    not among the calls, and no verdict of a check is. *)
Definition before_close (e : env) : option exn :=
  after (launch e) (fun _ =>
  after (new_page e) (fun _ =>
  after (login_goto e) (fun _ =>
  after (login_networkidle e) (fun _ =>
  after (fill_phone e) (fun _ =>
  after (fill_code e) (fun _ =>
  after (click_login e) (fun _ =>
  first_of (device_failure e) DEVICE_SIZES))))))).

(** The exception that ends a run, if any: the one that keeps it from
    reaching [browser.close()], or else the one of that call.  The
    summary that follows only prints. *)
Definition run_failure (e : env) : option exn :=
  otherwise (before_close e) (after (close e) (fun _ => None)).

(** ** Runs that differ in the scroll widths only *)

(** [o] with [document.body.scrollWidth] read as [scroll]. *)
Definition set_scroll_width (o : page_obs) (scroll : Z) : page_obs :=
  mkObs (goto o) (wait_networkidle o) (wait_settle o) (Ok scroll)
    (sidebar_visible o) (main_visible o) (main_width o) (card_count o)
    (card_width o) (buttons o) (shot o).

(** [e] with the scroll width of the page [p] on the device [d] read as
    [scroll d p]. *)
Definition with_scroll_widths (e : env) (scroll : string -> string -> Z)
  : env :=
  mkEnv (launch e) (new_page e) (login_goto e) (login_networkidle e)
    (fill_phone e) (fill_code e) (click_login e) (wait_for_url e)
    (localtime e) (set_viewport_size e) (wait_resize e)
    (fun d p => set_scroll_width (obs e d p) (scroll d p))
    (close e).

(** The lines of an output other than the verdicts of the scroll
    check. *)
Definition other_lines (out : list string) : list string :=
  filter (fun l => negb (is_scroll_line l)) out.

(** Two states that differ at most in the verdicts of the scroll check
    that have been printed. *)
Definition same_but_scroll (w1 w2 : world) : Prop :=
  other_lines (stdout w1) = other_lines (stdout w2)
  /\ files w1 = files w2 /\ closes w1 = closes w2 /\ stops w1 = stops w2
  /\ results w1 = results w2.

(** From such states, [m1] and [m2] end alike and in such states. *)
Definition alike {A} (m1 m2 : M A) : Prop :=
  forall w1 w2,
    same_but_scroll w1 w2 ->
    fst (m1 w1) = fst (m2 w2)
    /\ same_but_scroll (snd (m1 w1)) (snd (m2 w2)).

(** ** Sample environments *)

Definition box_48 : box := mkBox 10 20 48 48.
Definition box_30 : box := mkBox 10 80 (61 # 2) 40.

(** A page that fits every viewport, with three buttons of which one has
    no box and one is too small. *)
Definition calm_obs : page_obs :=
  mkObs (Ok tt) (Ok tt) (Ok tt) (Ok 360) (Ok true) (Ok true) (Ok 360)
    (Ok 3) (Ok 320) (Ok [Ok (Some box_48); Ok None; Ok (Some box_30)])
    (Ok tt).

Definition noon : struct_time := mkTime 2024 3 9 12 30 5.

Definition calm : env :=
  mkEnv (Ok tt) (Ok tt) (Ok tt) (Ok tt) (Ok tt) (Ok tt) (Ok tt) (Ok tt) noon
    (fun _ => Ok tt) (fun _ => Ok tt) (fun _ _ => calm_obs) (Ok tt).

(** As [calm], one second later. *)
Definition calm_later : env :=
  mkEnv (Ok tt) (Ok tt) (Ok tt) (Ok tt) (Ok tt) (Ok tt) (Ok tt) (Ok tt)
    (mkTime 2024 3 9 12 30 6)
    (fun _ => Ok tt) (fun _ => Ok tt) (fun _ _ => calm_obs) (Ok tt).

(** As [calm], but the home page is 500px wide on the iPhone SE. *)
Definition overflowing : env :=
  mkEnv (Ok tt) (Ok tt) (Ok tt) (Ok tt) (Ok tt) (Ok tt) (Ok tt) (Ok tt) noon
    (fun _ => Ok tt) (fun _ => Ok tt)
    (fun d p =>
       if ((d =? "iPhone SE") && (p =? "Home"))%string
       then mkObs (Ok tt) (Ok tt) (Ok tt) (Ok 500) (Ok true) (Ok true)
              (Ok 360) (Ok 3) (Ok 320) (Ok []) (Ok tt)
       else calm_obs)
    (Ok tt).

(** As [calm], but the wait for the landing route times out. *)
Definition login_times_out : env :=
  mkEnv (Ok tt) (Ok tt) (Ok tt) (Ok tt) (Ok tt) (Ok tt) (Ok tt)
    (Raise (TimeoutError "Timeout 5000ms exceeded."))
    noon (fun _ => Ok tt) (fun _ => Ok tt) (fun _ _ => calm_obs) (Ok tt).

(** As [calm], but the server does not answer on the market page of the
    iPad. *)
Definition market_down : env :=
  mkEnv (Ok tt) (Ok tt) (Ok tt) (Ok tt) (Ok tt) (Ok tt) (Ok tt) (Ok tt) noon
    (fun _ => Ok tt) (fun _ => Ok tt)
    (fun d p =>
       if ((d =? "iPad") && (p =? "Market"))%string
       then mkObs (Raise (Error "net::ERR_CONNECTION_REFUSED")) (Ok tt)
              (Ok tt) (Ok 360) (Ok true) (Ok true) (Ok 360) (Ok 3)
              (Ok 320) (Ok []) (Ok tt)
       else calm_obs)
    (Ok tt).

End Responsive.

(* ================================================================== *)
(** * [test-frontend.py] *)
(* ================================================================== *)

Module Frontend.

(** What the page reports while the script waits in a driver call: a
    console message ([msg.type], [msg.text]) or a network response
    ([response.url], [response.status]). *)
Inductive page_event : Type :=
| Console (type text : string)
| Response (url : string) (status : Z).

(** A driver call: the page events delivered to the registered handlers
    while it runs, then its answer. *)
Record step (A : Type) : Type := mkStep {
  events : list page_event;
  answer : outcome A
}.
Arguments mkStep {A} events answer.
Arguments events {A} s.
Arguments answer {A} s.

(** What the browser answers during one run, one field per call site in
    source order; [page_url] is the [page.url] property after the first
    navigation, [health] the [status] of the response of the GET.
    [launch] and [new_page] are [p.chromium.launch()] and
    [browser.new_page()] (lines 14-15), made before a handler is
    registered; [close] is [browser.close()] (line 120), after the last
    read of the lists the handlers fill. *)
Record env : Type := mkEnv {
  launch : outcome unit;
  new_page : outcome unit;
  goto_home : step unit;
  title : step string;
  page_url : string;
  shot_home : step unit;
  nav_count : step Z;
  login_btn_count : step Z;
  health : step Z;
  set_mobile : step unit;
  wait_networkidle : step unit;
  shot_mobile : step unit;
  set_desktop : step unit;
  reload : step unit;
  close : outcome unit
}.

(** ** The three lists and the two handlers *)

Definition gets {A} (f : world -> A) : M A := fun w => (Ok (f w), w).

Definition set_results (l : list (string * bool)) : M unit :=
  fun w =>
    (Ok tt,
     mkWorld (stdout w) (files w) (closes w) (stops w) l
       (console_errors w) (failed_requests w)
       (console_hooked w) (response_hooked w)).

Definition set_console_errors (l : list string) : M unit :=
  fun w =>
    (Ok tt,
     mkWorld (stdout w) (files w) (closes w) (stops w) (results w)
       l (failed_requests w) (console_hooked w) (response_hooked w)).

Definition set_failed_requests (l : list string) : M unit :=
  fun w =>
    (Ok tt,
     mkWorld (stdout w) (files w) (closes w) (stops w) (results w)
       (console_errors w) l (console_hooked w) (response_hooked w)).

(** [results.append((label, passed))]. *)
Definition results_append (label : string) (passed : bool) : M unit :=
  fun w => set_results (results w ++ [(label, passed)]) w.

(** [on_console] (lines 19-21). *)
Definition on_console (type text : string) : M unit :=
  if (type =? "error")%string
  then fun w => set_console_errors (console_errors w ++ [text]) w
  else ret tt.

(** [log_response] (lines 86-88). *)
Definition log_response (url : string) (status : Z) : M unit :=
  if status >=? 400
  then fun w =>
         set_failed_requests
           (failed_requests w ++ [url ++ " (" ++ str status ++ ")"]) w
  else ret tt.

(** [page.on("console", on_console)] and [page.on("response", log_response)]. *)
Definition hook_console : M unit :=
  fun w =>
    (Ok tt,
     mkWorld (stdout w) (files w) (closes w) (stops w) (results w)
       (console_errors w) (failed_requests w) true (response_hooked w)).

Definition hook_response : M unit :=
  fun w =>
    (Ok tt,
     mkWorld (stdout w) (files w) (closes w) (stops w) (results w)
       (console_errors w) (failed_requests w) (console_hooked w) true).

(** One page event reaches the handlers registered at that moment. *)
Definition deliver (ev : page_event) : M unit :=
  fun w =>
    match ev with
    | Console ty tx => if console_hooked w then on_console ty tx w else (Ok tt, w)
    | Response u st => if response_hooked w then log_response u st w else (Ok tt, w)
    end.

Definition call {A} (s : step A) : M A :=
  for_each (events s) deliver ;; raw (answer s).

Definition call_screenshot (path : string) (s : step unit) : M unit :=
  for_each (events s) deliver ;; screenshot path (answer s).

(** ** The body of the [try] block (lines 25-113) *)

Definition mark (b : bool) : string := if b then "✓" else "✗".

Definition test_1_home (e : env) : M unit :=
  print (nl ++ "[测试 1] 访问首页...") ;;
  call (goto_home e) ;;
  title <- call (title e) ;;
  print ("  页面标题: " ++ title) ;;
  print ("  当前 URL: " ++ page_url e) ;;
  results_append "首页访问"
    (if (page_url e =? "http://localhost:3000/")%string then true else false) ;;
  call_screenshot "/tmp/flashsell-home.png" (shot_home e) ;;
  print "  首页截图已保存: /tmp/flashsell-home.png".

Definition test_2_elements (e : env) : M unit :=
  print (nl ++ "[测试 2] 检查页面元素...") ;;
  nav <- call (nav_count e) ;;
  print ("  导航栏存在: " ++ mark (nav >? 0)) ;;
  results_append "导航栏" (nav >? 0) ;;
  login_btn <- call (login_btn_count e) ;;
  print ("  登录/注册按钮存在: " ++ mark (login_btn >? 0)) ;;
  results_append "认证按钮" (login_btn >? 0).

Definition test_3_api (e : env) : M unit :=
  print (nl ++ "[测试 3] 检查 API 代理...") ;;
  try_except
    (status <- call (health e) ;;
     let api_status := status =? 200 in
     print ("  API 代理状态: "
            ++ (if api_status then "✓ (200)" else "✗ (" ++ str status ++ ")")) ;;
     results_append "API 代理" api_status)
    (fun ex =>
       print ("  API 代理状态: ✗ (" ++ exn_str ex ++ ")") ;;
       results_append "API 代理" false).

Definition test_4_responsive (e : env) : M unit :=
  print (nl ++ "[测试 4] 检查响应式设计...") ;;
  call (set_mobile e) ;;
  call (wait_networkidle e) ;;
  call_screenshot "/tmp/flashsell-mobile.png" (shot_mobile e) ;;
  print "  移动端截图已保存: /tmp/flashsell-mobile.png" ;;
  results_append "响应式设计" true ;;
  call (set_desktop e).

(** [log_request] (lines 82-84) does nothing, so registering it is left
    out. *)
Definition test_5_resources (e : env) : M unit :=
  print (nl ++ "[测试 5] 检查资源加载...") ;;
  set_failed_requests [] ;;
  hook_response ;;
  call (reload e) ;;
  failed <- gets failed_requests ;;
  match failed with
  | _ :: _ =>
      print ("  失败的请求 (" ++ str (Z.of_nat (List.length failed)) ++ "):") ;;
      for_each (firstn 5 failed) (fun req => print ("    - " ++ req)) ;;
      results_append "资源加载" false
  | [] =>
      print "  所有资源加载成功: ✓" ;;
      results_append "资源加载" true
  end.

Definition test_6_javascript : M unit :=
  print (nl ++ "[测试 6] 检查 JavaScript 错误...") ;;
  errors <- gets console_errors ;;
  match errors with
  | _ :: _ =>
      print ("  控制台错误 (" ++ str (Z.of_nat (List.length errors)) ++ "):") ;;
      for_each (firstn 5 errors) (fun err => print ("    - " ++ err)) ;;
      results_append "JavaScript 无错误" false
  | [] =>
      print "  无 JavaScript 错误: ✓" ;;
      results_append "JavaScript 无错误" true
  end.

Definition checks (e : env) : M unit :=
  print (times "=" 50) ;;
  print "FlashSell 前端测试" ;;
  print (times "=" 50) ;;
  test_1_home e ;;
  test_2_elements e ;;
  test_3_api e ;;
  test_4_responsive e ;;
  test_5_resources e ;;
  test_6_javascript.

(** ** The session: lines 13-120 *)

(** Lines 17-120: the console handler, then the [try] statement. *)
Definition guarded (e : env) : M unit :=
  set_console_errors [] ;;
  hook_console ;;
  try_finally
    (try_except
       (checks e)
       (fun ex =>
          print (nl ++ "❌ 测试失败: " ++ exn_str ex) ;;
          results_append "测试执行" false))
    (browser_close (close e)).

Definition session (e : env) : M unit :=
  with_sync_playwright
    (raw (launch e) ;;
     raw (new_page e) ;;
     guarded e).

(** ** The summary: lines 122-137 *)

(** [sum(1 for _, result in results if result)]. *)
Definition count_passed (rs : list (string * bool)) : Z :=
  Z.of_nat (List.length (filter (fun r => snd r) rs)).

Definition exit_code (rs : list (string * bool)) : Z :=
  let passed := count_passed rs in
  let total := Z.of_nat (List.length rs) in
  if passed =? total then 0 else 1.

Definition report : M Z :=
  print (nl ++ times "=" 50) ;;
  print "测试结果总结" ;;
  print (times "=" 50) ;;
  rs <- gets results ;;
  let passed := count_passed rs in
  let total := Z.of_nat (List.length rs) in
  for_each rs
    (fun r => print ("  " ++ (if snd r then "✓ PASS" else "✗ FAIL") ++ ": "
                     ++ fst r)) ;;
  print (nl ++ "总计: " ++ str passed ++ "/" ++ str total ++ " 通过") ;;
  print (times "=" 50) ;;
  ret (exit_code rs).

(** ** [test_frontend] *)

Definition test_frontend (e : env) : M Z :=
  set_results [] ;;
  session e ;;
  report.

(** [test_frontend()] from the initial state. *)
Definition run (e : env) : outcome Z * world := test_frontend e initial.

(** [sys.exit(test_frontend())]: the exit status of the process is the
    value returned; an exception that leaves the function is not caught
    anywhere and ends the interpreter with status 1. *)
Definition exit_status (e : env) : Z :=
  match fst (run e) with
  | Ok code => code
  | Raise _ => 1
  end.

(** ** Reading a run *)

(** The exception of a driver call, if it raised. *)
Definition failure {A} (s : step A) : option exn :=
  match answer s with
  | Ok _ => None
  | Raise ex => Some ex
  end.

Definition or_else (a b : option exn) : option exn :=
  match a with
  | Some ex => Some ex
  | None => b
  end.

(** The exception of the two calls before the [try] statement, which no
    handler catches. *)
Definition startup_failure (e : env) : option exn :=
  match launch e, new_page e with
  | Raise ex, _ => Some ex
  | Ok _, Raise ex => Some ex
  | Ok _, Ok _ => None
  end.

(** The first driver call of the [try] block, in source order, whose
    exception reaches the outer handler; the GET of the health endpoint
    has a handler of its own and is not among them. *)
Definition try_failure (e : env) : option exn :=
  or_else (failure (goto_home e))
    (or_else (failure (title e))
       (or_else (failure (shot_home e))
          (or_else (failure (nav_count e))
             (or_else (failure (login_btn_count e))
                (or_else (failure (set_mobile e))
                   (or_else (failure (wait_networkidle e))
                      (or_else (failure (shot_mobile e))
                         (or_else (failure (set_desktop e))
                            (failure (reload e)))))))))).

(** The first driver call, in source order, that keeps the checks from
    running to their end: one before the [try] statement or one of its
    block. *)
Definition first_failure (e : env) : option exn :=
  or_else (startup_failure e) (try_failure e).

(** The exception that leaves [test_frontend], if any: one of the calls
    before the [try] statement, or of [browser.close()] in its [finally]
    clause. *)
Definition escapes (e : env) : option exn :=
  or_else (startup_failure e)
    match close e with
    | Ok _ => None
    | Raise ex => Some ex
    end.

(** The line of the outer handler (line 116). *)
Definition is_abort_line (l : string) : bool :=
  prefix (nl ++ "❌ 测试失败") l.

(** Any other line. *)
Definition calm_line (l : string) : Prop := is_abort_line l = false.

(** The driver calls before the GET of the health endpoint answer. *)
Definition reaches_api (e : env) : Prop :=
  startup_failure e = None
  /\ failure (goto_home e) = None /\ failure (title e) = None
  /\ failure (shot_home e) = None /\ failure (nav_count e) = None
  /\ failure (login_btn_count e) = None.

(** The page events of a whole run of the [try] block, in order. *)
Definition all_events (e : env) : list page_event :=
  (events (goto_home e) ++ events (title e) ++ events (shot_home e)
   ++ events (nav_count e) ++ events (login_btn_count e)
   ++ events (health e) ++ events (set_mobile e)
   ++ events (wait_networkidle e) ++ events (shot_mobile e)
   ++ events (set_desktop e) ++ events (reload e))%list.

Definition is_console_error (ev : page_event) : bool :=
  match ev with
  | Console ty _ => (ty =? "error")%string
  | Response _ _ => false
  end.

(** What [on_console] appends for the events [evs]. *)
Definition error_texts (evs : list page_event) : list string :=
  flat_map
    (fun ev =>
       match ev with
       | Console ty tx => if (ty =? "error")%string then [tx] else []
       | Response _ _ => []
       end) evs.

(** What [log_response] appends for the events [evs]. *)
Definition failed_lines (evs : list page_event) : list string :=
  flat_map
    (fun ev =>
       match ev with
       | Console _ _ => []
       | Response u st =>
           if st >=? 400 then [(u ++ " (" ++ str st ++ ")")%string] else []
       end) evs.

(** The entries of the result list, as they follow from the answers of
    the browser. *)
Definition home_entry (e : env) : string * bool :=
  ("首页访问", (page_url e =? "http://localhost:3000/")%string).

Definition api_entry (e : env) : string * bool :=
  ("API 代理",
   match answer (health e) with
   | Ok status => status =? 200
   | Raise _ => false
   end).

Definition resource_entry (e : env) : string * bool :=
  ("资源加载",
   match failed_lines (events (reload e)) with
   | [] => true
   | _ :: _ => false
   end).

Definition js_entry (e : env) : string * bool :=
  ("JavaScript 无错误", negb (existsb is_console_error (all_events e))).

(** The entries the [try] block appends before it ends or raises. *)
Definition recorded (e : env) : list (string * bool) :=
  match answer (goto_home e), answer (title e) with
  | Ok _, Ok _ =>
      home_entry e ::
      match answer (shot_home e), answer (nav_count e) with
      | Ok _, Ok nav =>
          ("导航栏", nav >? 0) ::
          match answer (login_btn_count e) with
          | Ok login_btn =>
              ("认证按钮", login_btn >? 0) :: api_entry e ::
              match answer (set_mobile e), answer (wait_networkidle e),
                    answer (shot_mobile e) with
              | Ok _, Ok _, Ok _ =>
                  ("响应式设计", true) ::
                  match answer (set_desktop e), answer (reload e) with
                  | Ok _, Ok _ => [resource_entry e; js_entry e]
                  | _, _ => []
                  end
              | _, _, _ => []
              end
          | Raise _ => []
          end
      | _, _ => []
      end
  | _, _ => []
  end.

(** The entry of the outer handler. *)
Definition handler_entry (e : env) : list (string * bool) :=
  match try_failure e with
  | Some _ => [("测试执行", false)]
  | None => []
  end.

(** The fields of the state that the lists and handlers of the script
    live in. *)
Definition View : Type :=
  (list (string * bool) * list string * list string * bool * bool)%type.

Definition view (w : world) : View :=
  (results w, console_errors w, failed_requests w, console_hooked w,
   response_hooked w).

(** The state after the page events [evs] have reached the handlers. *)
Definition hear (evs : list page_event) (w : world) : world :=
  snd (for_each evs deliver w).

(** From every state whose view is [v], [m] ends with a result and a
    view that satisfy [post]. *)
Definition triple {A} (v : View) (m : M A)
    (post : outcome A -> View -> Prop) : Prop :=
  forall w, view w = v -> post (fst (m w)) (view (snd (m w))).

(** The screenshots a run has written, as they follow from the answers
    of the browser. *)
Definition written (e : env) : list string :=
  match answer (goto_home e), answer (title e), answer (shot_home e) with
  | Ok _, Ok _, Ok _ =>
      "/tmp/flashsell-home.png" ::
      match answer (nav_count e), answer (login_btn_count e),
            answer (set_mobile e), answer (wait_networkidle e),
            answer (shot_mobile e) with
      | Ok _, Ok _, Ok _, Ok _, Ok _ => ["/tmp/flashsell-mobile.png"]
      | _, _, _, _, _ => []
      end
  | _, _, _ => []
  end.



(** The entries of a result list other than the one of the API check. *)
Definition others (rs : list (string * bool)) : list (string * bool) :=
  filter (fun r => negb (fst r =? "API 代理")%string) rs.

(** ** Sample environments *)

Definition quiet {A} (a : A) : step A := mkStep [] (Ok a).

(** Frontend and backend both up, nothing on the console. *)
Definition healthy : env :=
  mkEnv (Ok tt) (Ok tt)
    (quiet tt) (quiet "FlashSell") "http://localhost:3000/" (quiet tt)
    (quiet 1) (quiet 2) (quiet 200) (quiet tt) (quiet tt) (quiet tt)
    (quiet tt) (quiet tt) (Ok tt).

(** [e] with the health endpoint answering [status], the page events of
    that call being those of [e]. *)
Definition with_health_status (e : env) (status : Z) : env :=
  mkEnv (launch e) (new_page e)
    (goto_home e) (title e) (page_url e) (shot_home e) (nav_count e)
    (login_btn_count e) (mkStep (events (health e)) (Ok status))
    (set_mobile e) (wait_networkidle e) (shot_mobile e) (set_desktop e)
    (reload e) (close e).

(** As [healthy], but the backend answers 503. *)
Definition backend_down : env := with_health_status healthy 503.

(** The frontend server is not listening. *)
Definition server_unreachable : env :=
  mkEnv (Ok tt) (Ok tt)
    (mkStep [] (Raise (Error "net::ERR_CONNECTION_REFUSED")))
    (quiet "") "about:blank" (quiet tt) (quiet 0) (quiet 0) (quiet 200)
    (quiet tt) (quiet tt) (quiet tt) (quiet tt) (quiet tt) (Ok tt).

(** As [healthy], but the GET of the health endpoint is refused. *)
Definition backend_unreachable : env :=
  mkEnv (Ok tt) (Ok tt)
    (quiet tt) (quiet "FlashSell") "http://localhost:3000/" (quiet tt)
    (quiet 1) (quiet 2) (mkStep [] (Raise (Error "connect ECONNREFUSED")))
    (quiet tt) (quiet tt) (quiet tt) (quiet tt) (quiet tt) (Ok tt).

(** As [healthy], but the home page logs an error while it loads, long
    before the JavaScript check. *)
Definition early_console_error : env :=
  mkEnv (Ok tt) (Ok tt)
    (mkStep [Console "log" "mounted";
             Console "error" "Uncaught TypeError: x is undefined"]
       (Ok tt))
    (quiet "FlashSell") "http://localhost:3000/" (quiet tt)
    (quiet 1) (quiet 2) (quiet 200) (quiet tt) (quiet tt) (quiet tt)
    (quiet tt) (quiet tt) (Ok tt).

(** As [healthy], but [browser.close()] raises. *)
Definition close_fails : env :=
  mkEnv (Ok tt) (Ok tt)
    (quiet tt) (quiet "FlashSell") "http://localhost:3000/" (quiet tt)
    (quiet 1) (quiet 2) (quiet 200) (quiet tt) (quiet tt) (quiet tt)
    (quiet tt) (quiet tt) (Raise (Error "Connection closed")).

(** The browser cannot be started: no browser is installed. *)
Definition no_browser : env :=
  mkEnv (Raise (Error "Executable doesn't exist"))
    (Ok tt) (quiet tt) (quiet "FlashSell") "http://localhost:3000/"
    (quiet tt) (quiet 1) (quiet 2) (quiet 200) (quiet tt) (quiet tt)
    (quiet tt) (quiet tt) (quiet tt) (Ok tt).

(** The browser starts but gives no page. *)
Definition no_page : env :=
  mkEnv (Ok tt) (Raise (Error "Target closed"))
    (quiet tt) (quiet "FlashSell") "http://localhost:3000/"
    (quiet tt) (quiet 1) (quiet 2) (quiet 200) (quiet tt) (quiet tt)
    (quiet tt) (quiet tt) (quiet tt) (Ok tt).

End Frontend.

(* ================================================================== *)
(** * [test_ui_design.py] *)
(* ================================================================== *)

Module UIDesign.

(** What the browser and the clock answer during one run, one field per
    call site in source order, from [p.chromium.launch()] and
    [browser.new_page()] (lines 11-12) to [browser.close()] (line
    190). *)
Record env : Type := mkEnv {
  launch : outcome unit;
  new_page : outcome unit;
  goto_login : outcome unit;
  login_networkidle : outcome unit;
  bg_color : outcome string;
  form_card_visible : outcome bool;
  logo_visible : outcome bool;
  phone_click : outcome unit;
  wait_focus : outcome unit;
  focus_ring : outcome string;
  fill_phone : outcome unit;
  fill_code : outcome unit;
  click_login : outcome unit;
  wait_for_url : outcome unit;
  home_networkidle : outcome unit;
  page_header_visible : outcome bool;
  glass_card_count : outcome Z;
  orange_count : outcome Z;
  goto_profile : outcome unit;
  profile_networkidle : outcome unit;
  profile_header_visible : outcome bool;
  tabs_count : outcome Z;
  active_tab_visible : outcome bool;
  goto_market : outcome unit;
  market_networkidle : outcome unit;
  market_header_visible : outcome bool;
  filter_card_visible : outcome bool;
  export_btn_visible : outcome bool;
  export_btn_class : outcome (option string);
  goto_subscription : outcome unit;
  subscription_networkidle : outcome unit;
  plan_count : outcome Z;
  goto_hot_products : outcome unit;
  hot_products_networkidle : outcome unit;
  hot_header_visible : outcome bool;
  goto_favorites : outcome unit;
  favorites_networkidle : outcome unit;
  fav_tabs_count : outcome Z;
  clickable_count : outcome Z;
  localtime : struct_time;
  goto_home_again : outcome unit;
  home_again_networkidle : outcome unit;
  shot_home : outcome unit;
  goto_profile_again : outcome unit;
  profile_again_networkidle : outcome unit;
  shot_profile : outcome unit;
  close : outcome unit
}.

Definition msg_login_ok : string := "  ✅ 登录成功".
Definition msg_login_warn : string := "  ⚠️  登录可能失败，继续测试...".

(** ** 1. The login page (lines 17-45) *)

Definition test_login_page (e : env) : M unit :=
  print (nl ++ "📱 测试登录页面...") ;;
  raw (goto_login e) ;;
  raw (login_networkidle e) ;;
  bg <- raw (bg_color e) ;;
  print ("  背景色: " ++ bg) ;;
  py_assert (contains "rgb(15, 23, 42)" bg || contains "slate" bg)
    "❌ 背景应为深色 (slate-900)" ;;
  print "  ✅ 深色背景正确" ;;
  visible <- raw (form_card_visible e) ;;
  py_assert visible "❌ 未找到 glass-card" ;;
  print "  ✅ glass-card 可见" ;;
  visible <- raw (logo_visible e) ;;
  py_assert visible "❌ Logo 不可见" ;;
  print "  ✅ Logo 可见" ;;
  raw (phone_click e) ;;
  raw (wait_focus e) ;;
  ring <- raw (focus_ring e) ;;
  print ("  输入框焦点色: " ++ ring) ;;
  print "  ✅ 焦点状态已设置".

(** ** 2. Login (lines 47-66) *)

Definition login (e : env) : M unit :=
  print (nl ++ "🔐 执行登录...") ;;
  raw (fill_phone e) ;;
  raw (fill_code e) ;;
  raw (click_login e) ;;
  try_except
    (raw (wait_for_url e) ;; print msg_login_ok)
    (fun _ => print msg_login_warn).

(** ** 3. Home (lines 66-89) *)

Definition test_home (e : env) : M unit :=
  raw (home_networkidle e) ;;
  print (nl ++ "🏠 测试主页...") ;;
  visible <- raw (page_header_visible e) ;;
  (if (visible : bool)
   then print "  ✅ PageHeader 可见"
   else print "  ⚠️  未找到 PageHeader") ;;
  card_count <- raw (glass_card_count e) ;;
  print ("  找到 " ++ str card_count ++ " 个 glass-card") ;;
  py_assert (card_count >? 0) "❌ 未找到 glass-card" ;;
  print "  ✅ glass-card 存在" ;;
  orange <- raw (orange_count e) ;;
  print ("  找到 " ++ str orange ++ " 个橙色主题元素") ;;
  print "  ✅ 橙色主题已应用".

(** ** 4. Profile (lines 91-111) *)

Definition test_profile (e : env) : M unit :=
  print (nl ++ "👤 测试 Profile 页面...") ;;
  raw (goto_profile e) ;;
  raw (profile_networkidle e) ;;
  visible <- raw (profile_header_visible e) ;;
  py_assert visible "❌ Profile 页面标题不可见" ;;
  print "  ✅ Profile PageHeader 可见" ;;
  tabs <- raw (tabs_count e) ;;
  py_assert (tabs >=? 2) "❌ 标签页导航缺失" ;;
  print "  ✅ 标签页导航存在" ;;
  active <- raw (active_tab_visible e) ;;
  if (active : bool)
  then print "  ✅ 标签页使用橙色激活状态"
  else print "  ⚠️  标签页激活状态可能未使用橙色".

(** ** 5. Market (lines 113-133) *)

Definition test_market (e : env) : M unit :=
  print (nl ++ "📊 测试 Market 页面...") ;;
  raw (goto_market e) ;;
  raw (market_networkidle e) ;;
  visible <- raw (market_header_visible e) ;;
  (if (visible : bool) then print "  ✅ Market PageHeader 可见" else ret tt) ;;
  visible <- raw (filter_card_visible e) ;;
  py_assert visible "❌ 筛选卡片不可见" ;;
  print "  ✅ 筛选卡片使用 glass-card" ;;
  visible <- raw (export_btn_visible e) ;;
  if (visible : bool) then
    cls <- raw (export_btn_class e) ;;
    let btn_classes := match cls with Some c => c | None => "" end in
    if contains "gradient" (lower btn_classes)
       || contains "orange" (lower btn_classes)
    then print "  ✅ 导出按钮使用渐变或橙色样式"
    else ret tt
  else ret tt.

(** ** 6. Subscription (lines 135-145) *)

Definition test_subscription (e : env) : M unit :=
  print (nl ++ "💳 测试 Subscription 页面...") ;;
  raw (goto_subscription e) ;;
  raw (subscription_networkidle e) ;;
  plan_count <- raw (plan_count e) ;;
  print ("  找到 " ++ str plan_count ++ " 个套餐卡片") ;;
  py_assert (plan_count >? 0) "❌ 未找到套餐卡片" ;;
  print "  ✅ 套餐卡片使用 glass-card".

(** ** 7. Hot products (lines 147-155) *)

Definition test_hot_products (e : env) : M unit :=
  print (nl ++ "🔥 测试 Hot Products 页面...") ;;
  raw (goto_hot_products e) ;;
  raw (hot_products_networkidle e) ;;
  visible <- raw (hot_header_visible e) ;;
  if (visible : bool) then print "  ✅ Hot Products PageHeader 可见" else ret tt.

(** ** 8. Favorites (lines 157-165) *)

Definition test_favorites (e : env) : M unit :=
  print (nl ++ "⭐ 测试 Favorites 页面...") ;;
  raw (goto_favorites e) ;;
  raw (favorites_networkidle e) ;;
  tabs <- raw (fav_tabs_count e) ;;
  py_assert (tabs >=? 2) "❌ 收藏页面标签缺失" ;;
  print "  ✅ 收藏页面标签存在".

(** ** 9. Global styles (lines 167-172) *)

Definition test_global (e : env) : M unit :=
  print (nl ++ "🎨 全局样式检查...") ;;
  n <- raw (clickable_count e) ;;
  print ("  找到 " ++ str n ++ " 个可点击元素").

(** ** 10. Screenshots (lines 174-188) *)

Definition save_screenshots (e : env) : M unit :=
  print (nl ++ "📸 保存截图...") ;;
  let timestamp := strftime_Ymd_HMS (localtime e) in
  raw (goto_home_again e) ;;
  raw (home_again_networkidle e) ;;
  screenshot ("/tmp/flashsell_home_" ++ timestamp ++ ".png") (shot_home e) ;;
  print ("  ✅ 主页截图已保存: /tmp/flashsell_home_" ++ timestamp ++ ".png") ;;
  raw (goto_profile_again e) ;;
  raw (profile_again_networkidle e) ;;
  screenshot ("/tmp/flashsell_profile_" ++ timestamp ++ ".png") (shot_profile e) ;;
  print ("  ✅ Profile 截图已保存: /tmp/flashsell_profile_" ++ timestamp ++ ".png").

Definition summary : M unit :=
  print (nl ++ times "=" 60) ;;
  print "✅ UI 设计测试完成！" ;;
  print (nl ++ "📋 测试总结:") ;;
  print "  ✅ Glass-morphism 卡片效果" ;;
  print "  ✅ 橙色主题应用 (#F97316)" ;;
  print "  ✅ PageHeader 组件统一" ;;
  print "  ✅ 焦点状态和交互反馈" ;;
  print "  ✅ Slate 色系文本" ;;
  print "  ✅ 渐变按钮样式" ;;
  print (nl ++ "🎯 符合 UI/UX Pro Max 设计系统标准！").

(** The checks that follow the login, up to the last screenshot. *)
Definition after_login (e : env) : M unit :=
  test_home e ;;
  test_profile e ;;
  test_market e ;;
  test_subscription e ;;
  test_hot_products e ;;
  test_favorites e ;;
  test_global e ;;
  save_screenshots e.

(** ** [test_ui_design] *)

Definition test_ui_design (e : env) : M unit :=
  with_sync_playwright
    (raw (launch e) ;;
     raw (new_page e) ;;
     print (nl ++ "🎨 开始测试 FlashSell 新 UI 设计...") ;;
     print (times "=" 60) ;;
     test_login_page e ;;
     login e ;;
     after_login e ;;
     browser_close (close e) ;;
     summary).

Definition run (e : env) : outcome unit * world := test_ui_design e initial.

(** ** Reading a run *)

(** The exception of a driver call, or else what follows from its
    answer. *)
Definition then_ {A} (o : outcome A) (k : A -> option exn) : option exn :=
  match o with
  | Ok a => k a
  | Raise ex => Some ex
  end.

(** The exception of [assert c, msg], or else what follows. *)
Definition holds (c : bool) (msg : string) (k : option exn) : option exn :=
  if c then k else Some (AssertionError msg).

(** The exception that ends a run before its first screenshot, if any:
    the first driver call that raises or assertion that fails, in
    source order, from the launch of the browser on.  The wait for the
    landing route is not among them, nor is any of the checks that only
    print. *)
Definition before_shots (e : env) : option exn :=
  then_ (launch e) (fun _ =>
  then_ (new_page e) (fun _ =>
  then_ (goto_login e) (fun _ =>
  then_ (login_networkidle e) (fun _ =>
  then_ (bg_color e) (fun bg =>
  holds (contains "rgb(15, 23, 42)" bg || contains "slate" bg)
    "❌ 背景应为深色 (slate-900)" (
  then_ (form_card_visible e) (fun visible =>
  holds visible "❌ 未找到 glass-card" (
  then_ (logo_visible e) (fun visible =>
  holds visible "❌ Logo 不可见" (
  then_ (phone_click e) (fun _ =>
  then_ (wait_focus e) (fun _ =>
  then_ (focus_ring e) (fun _ =>
  then_ (fill_phone e) (fun _ =>
  then_ (fill_code e) (fun _ =>
  then_ (click_login e) (fun _ =>
  then_ (home_networkidle e) (fun _ =>
  then_ (page_header_visible e) (fun _ =>
  then_ (glass_card_count e) (fun card_count =>
  holds (card_count >? 0) "❌ 未找到 glass-card" (
  then_ (orange_count e) (fun _ =>
  then_ (goto_profile e) (fun _ =>
  then_ (profile_networkidle e) (fun _ =>
  then_ (profile_header_visible e) (fun visible =>
  holds visible "❌ Profile 页面标题不可见" (
  then_ (tabs_count e) (fun tabs =>
  holds (tabs >=? 2) "❌ 标签页导航缺失" (
  then_ (active_tab_visible e) (fun _ =>
  then_ (goto_market e) (fun _ =>
  then_ (market_networkidle e) (fun _ =>
  then_ (market_header_visible e) (fun _ =>
  then_ (filter_card_visible e) (fun visible =>
  holds visible "❌ 筛选卡片不可见" (
  then_ (export_btn_visible e) (fun visible =>
  then_ (if visible then export_btn_class e else Ok None) (fun _ =>
  then_ (goto_subscription e) (fun _ =>
  then_ (subscription_networkidle e) (fun _ =>
  then_ (plan_count e) (fun plan_count =>
  holds (plan_count >? 0) "❌ 未找到套餐卡片" (
  then_ (goto_hot_products e) (fun _ =>
  then_ (hot_products_networkidle e) (fun _ =>
  then_ (hot_header_visible e) (fun _ =>
  then_ (goto_favorites e) (fun _ =>
  then_ (favorites_networkidle e) (fun _ =>
  then_ (fav_tabs_count e) (fun tabs =>
  holds (tabs >=? 2) "❌ 收藏页面标签缺失" (
  then_ (clickable_count e) (fun _ =>
  then_ (goto_home_again e) (fun _ =>
  then_ (home_again_networkidle e) (fun _ => None
  ))))))))))))))))))))))))))))))))))))))))))))))))).

(** The exception that ends a run before [browser.close()] is reached,
    if any. *)
Definition before_close (e : env) : option exn :=
  match before_shots e with
  | Some ex => Some ex
  | None =>
      then_ (shot_home e) (fun _ =>
      then_ (goto_profile_again e) (fun _ =>
      then_ (profile_again_networkidle e) (fun _ =>
      then_ (shot_profile e) (fun _ => None))))
  end.

(** The exception that ends a run, if any: the one that keeps it from
    reaching [browser.close()], or else the one of that call.  The
    summary that follows only prints. *)
Definition ui_failure (e : env) : option exn :=
  match before_close e with
  | Some ex => Some ex
  | None => then_ (close e) (fun _ => None)
  end.

(** The two screenshots of a run at [timestamp]. *)
Definition screenshot_names (timestamp : string) : list string :=
  [ "/tmp/flashsell_home_" ++ timestamp ++ ".png";
    "/tmp/flashsell_profile_" ++ timestamp ++ ".png" ].

(** ** Sample environments *)

Definition noon : struct_time := mkTime 2024 3 9 12 30 5.

(** Every expectation of the script is met. *)
Definition styled : env :=
  mkEnv (Ok tt) (Ok tt) (Ok tt) (Ok tt) (Ok "rgb(15, 23, 42)") (Ok true) (Ok true) (Ok tt)
    (Ok tt) (Ok "rgb(249, 115, 22)") (Ok tt) (Ok tt) (Ok tt) (Ok tt)
    (Ok tt) (Ok true) (Ok 4) (Ok 7) (Ok tt) (Ok tt) (Ok true) (Ok 2)
    (Ok true) (Ok tt) (Ok tt) (Ok true) (Ok true) (Ok true)
    (Ok (Some "btn bg-gradient-to-r from-Orange-500")) (Ok tt) (Ok tt)
    (Ok 3) (Ok tt) (Ok tt) (Ok true) (Ok tt) (Ok tt) (Ok 2) (Ok 25) noon
    (Ok tt) (Ok tt) (Ok tt) (Ok tt) (Ok tt) (Ok tt) (Ok tt).

(** As [styled], but the login page has a white background. *)
Definition white_background : env :=
  mkEnv (Ok tt) (Ok tt) (Ok tt) (Ok tt) (Ok "rgb(255, 255, 255)") (Ok true) (Ok true)
    (Ok tt) (Ok tt) (Ok "rgb(249, 115, 22)") (Ok tt) (Ok tt) (Ok tt)
    (Ok tt) (Ok tt) (Ok true) (Ok 4) (Ok 7) (Ok tt) (Ok tt) (Ok true)
    (Ok 2) (Ok true) (Ok tt) (Ok tt) (Ok true) (Ok true) (Ok true)
    (Ok (Some "btn bg-gradient-to-r from-Orange-500")) (Ok tt) (Ok tt)
    (Ok 3) (Ok tt) (Ok tt) (Ok true) (Ok tt) (Ok tt) (Ok 2) (Ok 25) noon
    (Ok tt) (Ok tt) (Ok tt) (Ok tt) (Ok tt) (Ok tt) (Ok tt).

(** As [styled], but the wait for the landing route times out. *)
Definition login_times_out : env :=
  mkEnv (Ok tt) (Ok tt) (Ok tt) (Ok tt) (Ok "rgb(15, 23, 42)") (Ok true) (Ok true) (Ok tt)
    (Ok tt) (Ok "rgb(249, 115, 22)") (Ok tt) (Ok tt) (Ok tt)
    (Raise (TimeoutError "Timeout 5000ms exceeded."))
    (Ok tt) (Ok true) (Ok 4) (Ok 7) (Ok tt) (Ok tt) (Ok true) (Ok 2)
    (Ok true) (Ok tt) (Ok tt) (Ok true) (Ok true) (Ok true)
    (Ok (Some "btn bg-gradient-to-r from-Orange-500")) (Ok tt) (Ok tt)
    (Ok 3) (Ok tt) (Ok tt) (Ok true) (Ok tt) (Ok tt) (Ok 2) (Ok 25) noon
    (Ok tt) (Ok tt) (Ok tt) (Ok tt) (Ok tt) (Ok tt) (Ok tt).

End UIDesign.

(* ================================================================== *)
(** * Properties of computations *)
(* ================================================================== *)

(** [m] takes every state to one related to it by [R]. *)
Definition steps (R : world -> world -> Prop) {A} (m : M A) : Prop :=
  forall w, R w (snd (m w)).

(** [proj] only grows, by entries that satisfy [P]. *)
Definition grows {X} (proj : world -> list X) (P : X -> Prop)
    (w w' : world) : Prop :=
  exists l, proj w' = (proj w ++ l)%list /\ Forall P l.

(** Any line at all. *)
Definition any_line (l : string) : Prop := True.

(** [f] keeps its value. *)
Definition keeps {X} (f : world -> X) (w w' : world) : Prop := f w' = f w.

(** [m] returns [r] from every state. *)
Definition always {A} (r : outcome A) (m : M A) : Prop :=
  forall w, fst (m w) = r.

(** [m] ends with the exception [f], or returns when there is none. *)
Definition ends_with (f : option exn) (m : M unit) : Prop :=
  always (match f with Some ex => Raise ex | None => Ok tt end) m.

(** [m] raises nothing. *)
Definition returns {A} (m : M A) : Prop :=
  forall w, exists a, fst (m w) = Ok a.

(** [m] returns after printing exactly the lines [l]. *)
Definition says {A} (l : list string) (m : M A) : Prop :=
  forall w,
    stdout (snd (m w)) = (stdout w ++ l)%list /\ exists a, fst (m w) = Ok a.

(** From every state that [obs] reads as [v], [m] ends with a result and
    a reading of [obs] that satisfy [post]. *)
Definition watch {X A} (obs : world -> X) (v : X) (m : M A)
    (post : outcome A -> X -> Prop) : Prop :=
  forall w, obs w = v -> post (fst (m w)) (obs (snd (m w))).

(** The screenshots written and the number of calls of [browser.close()]
    so far. *)
Definition files_and_closes (w : world) : list string * nat :=
  (files w, closes w).

(** [m] appends to the files a prefix of [g], and all of [g] when it
    returns. *)
Definition writes_in_order {A} (g : list string) (m : M A) : Prop :=
  forall w,
    (exists n, files (snd (m w)) = (files w ++ firstn n g)%list)
    /\ (forall a, fst (m w) = Ok a -> files (snd (m w)) = (files w ++ g)%list).

(* ================================================================== *)
(** * Running the monad *)
(* ================================================================== *)

Lemma bind_Ok {A B} (m : M A) (k : A -> M B) w a w1 :
  m w = (Ok a, w1) -> bind m k w = k a w1.
Proof. intros H. unfold bind. now rewrite H. Qed.

Lemma bind_Raise {A B} (m : M A) (k : A -> M B) w ex w1 :
  m w = (Raise ex, w1) -> bind m k w = (Raise ex, w1).
Proof. intros H. unfold bind. now rewrite H. Qed.

Lemma bind_inv_Ok {A B} (m : M A) (k : A -> M B) w b w' :
  bind m k w = (Ok b, w') ->
  exists a w1, m w = (Ok a, w1) /\ k a w1 = (Ok b, w').
Proof.
  unfold bind. destruct (m w) as [[a|ex] w1]; intros H.
  - now exists a, w1.
  - discriminate.
Qed.

(** ** Properties that hold from a state to every later state *)

Section Steps.

Variable R : world -> world -> Prop.
Hypothesis R_refl : forall w, R w w.
Hypothesis R_trans : forall a b c, R a b -> R b c -> R a c.

Lemma steps_ret {A} (a : A) : steps R (ret a).
Proof. intros w. apply R_refl. Qed.

Lemma steps_raise {A} ex : steps R (@raise A ex).
Proof. intros w. apply R_refl. Qed.

Lemma steps_raw {A} (o : outcome A) : steps R (raw o).
Proof. intros w. apply R_refl. Qed.

Lemma steps_bind {A B} (m : M A) (k : A -> M B) :
  steps R m -> (forall a, steps R (k a)) -> steps R (bind m k).
Proof.
  intros Hm Hk w. unfold bind. specialize (Hm w).
  destruct (m w) as [[a|ex] w1]; simpl in *; [|exact Hm].
  eapply R_trans; [exact Hm | apply Hk].
Qed.

Lemma steps_try_except {A} (m : M A) (h : exn -> M A) :
  steps R m -> (forall ex, steps R (h ex)) -> steps R (try_except m h).
Proof.
  intros Hm Hh w. unfold try_except. specialize (Hm w).
  destruct (m w) as [[a|ex] w1]; simpl in *; [exact Hm|].
  eapply R_trans; [exact Hm | apply Hh].
Qed.

Lemma steps_try_finally {A} (m : M A) (f : M unit) :
  steps R m -> steps R f -> steps R (try_finally m f).
Proof.
  intros Hm Hf w. unfold try_finally. specialize (Hm w).
  destruct (m w) as [r w1]. specialize (Hf w1).
  destruct (f w1) as [[u|ex] w2]; simpl in *; eapply R_trans; eauto.
Qed.

Lemma steps_for_each {A} (l : list A) (body : A -> M unit) :
  (forall x, steps R (body x)) -> steps R (for_each l body).
Proof.
  intros Hb. induction l as [|x l IH]; simpl.
  - apply steps_ret.
  - apply steps_bind; auto.
Qed.

Lemma steps_py_assert c msg : steps R (py_assert c msg).
Proof. destruct c; [apply steps_ret | apply steps_raise]. Qed.

End Steps.

Lemma steps_run (R : world -> world -> Prop) {A} (m : M A) w r w' :
  steps R m -> m w = (r, w') -> R w w'.
Proof. intros H E. specialize (H w). now rewrite E in H. Qed.

Lemma with_sync_playwright_run {A} (body : M A) w :
  with_sync_playwright body w
  = (fst (body w), snd (exit_playwright (snd (body w)))).
Proof.
  unfold with_sync_playwright, try_finally. now destruct (body w).
Qed.

Lemma flat_map_singleton {A B} (f : A -> B) l :
  flat_map (fun x => [f x]) l = map f l.
Proof. induction l as [|x l IH]; simpl; [reflexivity | now rewrite IH]. Qed.

(** The results of a loop whose every round appends [f x] to [proj]. *)
Lemma for_each_collect {A} (proj : world -> list string)
    (f : A -> list string) (body : A -> M unit) l :
  (forall x w u w', body x w = (Ok u, w') -> proj w' = (proj w ++ f x)%list) ->
  forall w u w',
    for_each l body w = (Ok u, w') -> proj w' = (proj w ++ flat_map f l)%list.
Proof.
  intros Hb. induction l as [|x l IH]; intros w u w' H; simpl in *.
  - injection H as _ <-. now rewrite app_nil_r.
  - apply bind_inv_Ok in H. destruct H as (a & w1 & H1 & H2).
    rewrite (IH _ _ _ H2), (Hb _ _ _ _ H1). now rewrite app_assoc.
Qed.

Lemma says_print s : says [s] (print s).
Proof. intros w. split; [reflexivity | now exists tt]. Qed.

Lemma says_bind {A B} l1 l2 (m : M A) (k : A -> M B) :
  says l1 m -> (forall a, says l2 (k a)) -> says (l1 ++ l2)%list (bind m k).
Proof.
  intros Hm Hk w. unfold bind. destruct (Hm w) as (E & a & Ea).
  destruct (m w) as [r w1]. cbn [fst snd] in *. subst r.
  destruct (Hk a w1) as (E2 & b & Eb). split; [|now exists b].
  now rewrite E2, E, app_assoc.
Qed.

Lemma grows_refl {X} (proj : world -> list X) P w : grows proj P w w.
Proof. exists []. now rewrite app_nil_r. Qed.

Lemma grows_trans {X} (proj : world -> list X) P a b c :
  grows proj P a b -> grows proj P b c -> grows proj P a c.
Proof.
  intros (l1 & E1 & F1) (l2 & E2 & F2). exists (l1 ++ l2)%list. split.
  - now rewrite E2, E1, app_assoc.
  - apply Forall_app; auto.
Qed.

Lemma keeps_refl {X} (f : world -> X) w : keeps f w w.
Proof. reflexivity. Qed.

Lemma keeps_trans {X} (f : world -> X) a b c :
  keeps f a b -> keeps f b c -> keeps f a c.
Proof. unfold keeps. congruence. Qed.

Lemma grows_one {X} (proj : world -> list X) P w w' s :
  proj w' = (proj w ++ [s])%list -> P s -> grows proj P w w'.
Proof. intros E H. exists [s]. auto. Qed.

(** Breaks a computation into its calls; what remains are the states
    changed by [print], [screenshot] and the like. *)
Ltac split_steps Rrefl Rtrans :=
  repeat
    (cbv beta zeta;
     match goal with
     | |- steps _ (bind _ _) => apply (steps_bind _ Rtrans); [| intros ?]
     | |- steps _ (ret _) => apply (steps_ret _ Rrefl)
     | |- steps _ (raw _) => apply (steps_raw _ Rrefl)
     | |- steps _ (raise _) => apply (steps_raise _ Rrefl)
     | |- steps _ (py_assert _ _) => apply (steps_py_assert _ Rrefl)
     | |- steps _ (try_except _ _) =>
         apply (steps_try_except _ Rtrans); [| intros ?]
     | |- steps _ (try_finally _ _) => apply (steps_try_finally _ Rtrans)
     | |- steps _ (for_each _ _) =>
         apply (steps_for_each _ Rrefl Rtrans); intros ?
     | |- steps _ (if ?c then _ else _) => destruct c
     | |- steps _ (match ?x with _ => _ end) => destruct x
     end).

Lemma keeps_screenshot {X} (f : world -> X) path o :
  (forall w, f (snd (screenshot path (Ok tt) w)) = f w) ->
  steps (keeps f) (screenshot path o).
Proof.
  intros H w. unfold keeps. destruct o as [[]|ex]; [apply H | reflexivity].
Qed.

(** ** Strings *)

Lemma length_append (s t : string) :
  String.length (s ++ t) = (String.length s + String.length t)%nat.
Proof. induction s as [|c s IH]; simpl; [reflexivity | now rewrite IH]. Qed.

Lemma append_assoc (s t u : string) : ((s ++ t) ++ u = s ++ t ++ u)%string.
Proof. induction s as [|c s IH]; simpl; [reflexivity | now rewrite IH]. Qed.

(** Two concatenations that agree and end in tails of one length agree
    part by part. *)
Lemma append_inv_tail (s1 s2 t1 t2 : string) :
  String.length t1 = String.length t2 ->
  (s1 ++ t1 = s2 ++ t2)%string -> s1 = s2 /\ t1 = t2.
Proof.
  revert s2. induction s1 as [|c s1 IH]; intros [|d s2] L E; simpl in *.
  - now split.
  - exfalso. apply (f_equal String.length) in E. simpl in E.
    rewrite length_append in E. lia.
  - exfalso. apply (f_equal String.length) in E. simpl in E.
    rewrite length_append in E. lia.
  - injection E as -> E. destruct (IH s2 L E) as [-> ->]. now split.
Qed.

(** Two concatenations that agree and start with heads of one length
    agree part by part. *)
Lemma append_inv_head (s1 s2 t1 t2 : string) :
  String.length s1 = String.length s2 ->
  (s1 ++ t1 = s2 ++ t2)%string -> s1 = s2 /\ t1 = t2.
Proof.
  revert s2. induction s1 as [|c s1 IH]; intros [|d s2] L E;
    try discriminate L.
  - now split.
  - simpl in L, E. injection L as L.
    assert (c = d /\ (s1 ++ t1 = s2 ++ t2)%string) as (-> & E')
      by (split; congruence).
    destruct (IH s2 L E') as (-> & ->). now split.
Qed.

Lemma to_int_not_nil z : Z.to_int z <> Decimal.Pos Decimal.Nil
                         /\ Z.to_int z <> Decimal.Neg Decimal.Nil.
Proof.
  split; intros E; pose proof (DecimalZ.of_to z) as H; rewrite E in H;
    simpl in H; subst z; discriminate E.
Qed.

(** [str] tells integers apart. *)
Lemma str_injective a b : str a = str b -> a = b.
Proof.
  unfold str. intros E. apply DecimalZ.to_int_inj.
  apply (f_equal NilZero.int_of_string) in E.
  rewrite !NilZero.isi in E by apply to_int_not_nil.
  now injection E.
Qed.

(** A number written between two fixed texts can be read back. *)
Lemma framed_number_injective (pre post : string) a b :
  (pre ++ str a ++ post = pre ++ str b ++ post)%string -> a = b.
Proof.
  intros E. apply append_inv_head in E; [| reflexivity].
  destruct E as (_ & E).
  apply append_inv_tail in E; [| reflexivity].
  destruct E as (E & _). now apply str_injective.
Qed.

Lemma prefix_append (s t : string) : prefix s (s ++ t) = true.
Proof.
  induction s as [|c s IH]; simpl.
  - now destruct t.
  - destruct (ascii_dec c c); [exact IH | congruence].
Qed.

Lemma prefix_split (s t : string) :
  prefix s t = true -> exists post, t = (s ++ post)%string.
Proof.
  revert t. induction s as [|c s IH]; intros t H.
  - now exists t.
  - destruct t as [|d t]; simpl in H; [discriminate|].
    destruct (ascii_dec c d) as [->|]; [|discriminate].
    destruct (IH t H) as (post & ->). now exists post.
Qed.

Lemma contains_unfold (s t : string) :
  contains s t
  = prefix s t
    || match t with
       | EmptyString => false
       | String _ u => contains s u
       end.
Proof. now destruct t. Qed.

Lemma contains_here (s t : string) : contains s (s ++ t) = true.
Proof. rewrite contains_unfold, prefix_append. reflexivity. Qed.

Lemma contains_later (s pre t : string) :
  contains s t = true -> contains s (pre ++ t) = true.
Proof.
  intros H. induction pre as [|c pre IH]; simpl append; [exact H|].
  rewrite contains_unfold, IH. apply orb_true_r.
Qed.

(** [contains] is the substring test. *)
Lemma contains_spec (s t : string) :
  contains s t = true <-> exists pre post, t = (pre ++ s ++ post)%string.
Proof.
  split.
  - induction t as [|c t IH]; rewrite contains_unfold; intros H;
      apply orb_true_iff in H; destruct H as [H|H]; try discriminate.
    + destruct (prefix_split _ _ H) as (post & E). now exists ""%string, post.
    + destruct (prefix_split _ _ H) as (post & E). now exists ""%string, post.
    + destruct (IH H) as (pre & post & ->). now exists (String c pre), post.
  - intros (pre & post & ->). apply contains_later, contains_here.
Qed.

(* ================================================================== *)
(** * The responsive script *)
(* ================================================================== *)

Module ResponsiveFacts.
Import Responsive.

Lemma count_small_pure btns n w : snd (count_small btns n w) = w.
Proof.
  revert n. induction btns as [|b btns IH]; intros n; simpl; [reflexivity|].
  unfold bind, raw. destruct b as [b|ex]; [apply IH | reflexivity].
Qed.

Lemma steps_count_small R (Rrefl : forall w, R w w) btns n :
  steps R (count_small btns n).
Proof. intros w. rewrite count_small_pure. apply Rrefl. Qed.

(** The loop over buttons that all answer adds one per undersized box. *)
Lemma count_small_Ok sampled n w :
  count_small (map Ok sampled) n w
  = (Ok (n + Z.of_nat (List.length (filter undersized sampled))), w).
Proof.
  revert n. induction sampled as [|b l IH]; intros n; simpl.
  - unfold ret. now rewrite Z.add_0_r.
  - unfold bind, raw. rewrite IH. destruct (undersized b); simpl List.length.
    + f_equal. f_equal. lia.
    + reflexivity.
Qed.

(** ** What each part of the run leaves alone *)

Ltac keeps_field f :=
  repeat
    (cbv beta zeta;
     match goal with
     | |- steps _ (count_small _ _) =>
         apply (steps_count_small _ (keeps_refl f))
     | |- steps _ (screenshot _ _) =>
         apply keeps_screenshot; intros ?; reflexivity
     | |- steps _ (print _) => intros ?; reflexivity
     | |- steps _ (browser_close _) => intros ?; reflexivity
     | |- steps _ _ => progress split_steps (keeps_refl f) (keeps_trans f)
     end).

Ltac unfold_page :=
  unfold check_page, check_layout, check_scroll, check_sidebar, check_main,
    check_cards, check_buttons, take_screenshot.

Lemma check_layout_keeps {X} (f : world -> X) o sz p :
  (forall s w, f (snd (print s w)) = f w) ->
  steps (keeps f) (check_layout o sz p).
Proof.
  intros Hp. unfold_page.
  split_steps (keeps_refl f) (keeps_trans f); intros w; apply Hp.
Qed.

Lemma check_buttons_keeps {X} (f : world -> X) o sz :
  (forall s w, f (snd (print s w)) = f w) ->
  steps (keeps f) (check_buttons o sz).
Proof.
  intros Hp. unfold_page.
  repeat first
    [ apply (steps_count_small _ (keeps_refl f))
    | progress split_steps (keeps_refl f) (keeps_trans f) ];
    intros w; apply Hp.
Qed.

Lemma check_page_keeps_results e ts dev p :
  steps (keeps results) (check_page e ts dev p).
Proof. unfold_page. keeps_field results. Qed.

Lemma check_page_keeps_closes e ts dev p :
  steps (keeps closes) (check_page e ts dev p).
Proof. unfold_page. keeps_field closes. Qed.

Lemma login_keeps_closes e : steps (keeps closes) (login e).
Proof. unfold login. keeps_field closes. Qed.

Lemma matrix_keeps_closes e : steps (keeps closes) (matrix e).
Proof.
  unfold matrix, check_device.
  keeps_field closes. apply check_page_keeps_closes.
Qed.

Lemma summary_runs w : fst (summary w) = Ok tt.
Proof. reflexivity. Qed.

Lemma summary_keeps_closes : steps (keeps closes) summary.
Proof. unfold summary. keeps_field closes. Qed.

(** ** The lines of the page checks *)

Lemma grows_print (P : string -> Prop) s :
  P s -> steps (grows stdout P) (print s).
Proof. intros H w. now apply grows_one with (s := s). Qed.

Lemma grows_stdout_screenshot (P : string -> Prop) path o :
  steps (grows stdout P) (screenshot path o).
Proof.
  intros w. exists []. split; [|constructor].
  destruct o as [[]|ex]; simpl; now rewrite app_nil_r.
Qed.

Ltac grows_stdout P :=
  repeat
    (cbv beta zeta;
     match goal with
     | |- steps _ (count_small _ _) =>
         apply (steps_count_small _ (grows_refl stdout P))
     | |- steps _ (screenshot _ _) => apply grows_stdout_screenshot
     | |- steps _ (print _) => apply grows_print
     | |- steps _ _ =>
         progress split_steps (grows_refl stdout P) (grows_trans stdout P)
     end).

Lemma after_scroll_plain o sz :
  steps (grows stdout plain_line)
    (check_sidebar o sz ;; check_main o ;; check_cards o).
Proof. unfold_page. grows_stdout plain_line; split; reflexivity. Qed.

Lemma buttons_and_shot_plain o sz d p ts :
  steps (grows stdout plain_line)
    (check_buttons o sz ;; take_screenshot o d p ts).
Proof. unfold_page. grows_stdout plain_line; split; reflexivity. Qed.


(** Once the scroll width has been read, the layout checks have printed
    the page header and the verdict, and go on with the later checks. *)
Lemma check_layout_scroll o sz p w sw :
  goto o = Ok tt -> wait_networkidle o = Ok tt -> wait_settle o = Ok tt ->
  scroll_width o = Ok sw ->
  check_layout o sz p w
  = (check_sidebar o sz ;; check_main o ;; check_cards o)
      (snd ((print (msg_page (name p)) ;;
             print (if sw >? width sz + 10
                    then msg_scroll_fail sw (width sz)
                    else msg_scroll_ok sw)) w)).
Proof.
  intros Hg Hi Hs Hw. unfold check_layout, check_scroll, bind, raw.
  rewrite Hg, Hi, Hs, Hw. cbv zeta.
  destruct (sw >? width sz + 10); reflexivity.
Qed.

Lemma verdict_marks sw vw :
  is_scroll_line (if sw >? vw + 10 then msg_scroll_fail sw vw
                  else msg_scroll_ok sw) = true
  /\ (is_failure_line (if sw >? vw + 10 then msg_scroll_fail sw vw
                       else msg_scroll_ok sw) = true <-> sw > vw + 10).
Proof.
  destruct (sw >? vw + 10) eqn:E.
  - split; [reflexivity|]. split; [intros _; lia | reflexivity].
  - split; [reflexivity|]. split; [discriminate | intros; lia].
Qed.

(** ** Runs that differ in the scroll widths only *)

Lemma same_but_scroll_refl w : same_but_scroll w w.
Proof. now repeat split. Qed.

Lemma alike_ret {A} (a : A) : alike (ret a) (ret a).
Proof. intros w1 w2 H. now split. Qed.

Lemma alike_raw {A} (o : outcome A) : alike (raw o) (raw o).
Proof. intros w1 w2 H. now split. Qed.

Lemma other_lines_app a b :
  other_lines (a ++ b) = (other_lines a ++ other_lines b)%list.
Proof. apply filter_app. Qed.

Lemma alike_print s : alike (print s) (print s).
Proof.
  intros w1 w2 (H1 & H2 & H3 & H4 & H5). split; [reflexivity|].
  repeat split; cbn; try assumption.
  now rewrite !other_lines_app, H1.
Qed.

Lemma alike_screenshot path o : alike (screenshot path o) (screenshot path o).
Proof.
  intros w1 w2 (H1 & H2 & H3 & H4 & H5). unfold screenshot.
  destruct o as [[]|ex]; (split; [reflexivity|]);
    repeat split; cbn; try assumption.
  now rewrite H2.
Qed.

Lemma alike_browser_close o : alike (browser_close o) (browser_close o).
Proof.
  intros w1 w2 (H1 & H2 & H3 & H4 & H5). split; [reflexivity|].
  repeat split; cbn; try assumption. now rewrite H3.
Qed.

Lemma alike_exit_playwright : alike exit_playwright exit_playwright.
Proof.
  intros w1 w2 (H1 & H2 & H3 & H4 & H5). split; [reflexivity|].
  repeat split; cbn; try assumption. now rewrite H4.
Qed.

Lemma alike_bind {A B} (m1 m2 : M A) (k1 k2 : A -> M B) :
  alike m1 m2 -> (forall a, alike (k1 a) (k2 a)) ->
  alike (bind m1 k1) (bind m2 k2).
Proof.
  intros Hm Hk w1 w2 H. unfold bind. destruct (Hm w1 w2 H) as (E & S).
  destruct (m1 w1) as [r1 v1], (m2 w2) as [r2 v2]. cbn [fst snd] in E, S.
  subst r2. destruct r1 as [a|ex]; [now apply Hk | now split].
Qed.

Lemma alike_try_except {A} (m1 m2 : M A) (h1 h2 : exn -> M A) :
  alike m1 m2 -> (forall ex, alike (h1 ex) (h2 ex)) ->
  alike (try_except m1 h1) (try_except m2 h2).
Proof.
  intros Hm Hh w1 w2 H. unfold try_except.
  destruct (Hm w1 w2 H) as (E & S).
  destruct (m1 w1) as [r1 v1], (m2 w2) as [r2 v2]. cbn [fst snd] in E, S.
  subst r2. destruct r1 as [a|ex]; [now split | now apply Hh].
Qed.

Lemma alike_try_finally {A} (m1 m2 : M A) (f1 f2 : M unit) :
  alike m1 m2 -> alike f1 f2 ->
  alike (try_finally m1 f1) (try_finally m2 f2).
Proof.
  intros Hm Hf w1 w2 H. unfold try_finally.
  destruct (Hm w1 w2 H) as (E & S).
  destruct (m1 w1) as [r1 v1], (m2 w2) as [r2 v2]. cbn [fst snd] in E, S.
  subst r2. destruct (Hf v1 v2 S) as (E' & S').
  destruct (f1 v1) as [q1 u1], (f2 v2) as [q2 u2]. cbn [fst snd] in E', S'.
  subst q2. destruct q1; now split.
Qed.

Lemma alike_for_each {A} (l : list A) (b1 b2 : A -> M unit) :
  (forall x, alike (b1 x) (b2 x)) -> alike (for_each l b1) (for_each l b2).
Proof.
  intros H. induction l as [|x l IH]; simpl.
  - apply alike_ret.
  - apply alike_bind; [apply H | intros _; exact IH].
Qed.

Lemma alike_count_small btns n :
  alike (count_small btns n) (count_small btns n).
Proof.
  revert n. induction btns as [|b btns IH]; intros n; simpl.
  - apply alike_ret.
  - apply alike_bind; [apply alike_raw | intros a; apply IH].
Qed.

(** Steps through two computations that make the same calls. *)
Ltac same_calls :=
  repeat
    (cbv beta zeta;
     match goal with
     | |- alike (bind _ _) (bind _ _) => apply alike_bind; [| intros ?]
     | |- alike (ret _) (ret _) => apply alike_ret
     | |- alike (raw _) (raw _) => apply alike_raw
     | |- alike (print _) (print _) => apply alike_print
     | |- alike (screenshot _ _) (screenshot _ _) => apply alike_screenshot
     | |- alike (browser_close _) (browser_close _) =>
         apply alike_browser_close
     | |- alike (count_small _ _) (count_small _ _) =>
         apply alike_count_small
     | |- alike (try_except _ _) (try_except _ _) =>
         apply alike_try_except; [| intros ?]
     | |- alike (for_each _ _) (for_each _ _) =>
         apply alike_for_each; intros ?
     | |- alike (if ?c then _ else _) (if ?c then _ else _) => destruct c
     end).

(** The scroll check prints one verdict, whatever the width read. *)
Lemma alike_check_scroll o sz s1 s2 :
  alike (check_scroll (set_scroll_width o s1) sz)
    (check_scroll (set_scroll_width o s2) sz).
Proof.
  intros w1 w2 (H1 & H2 & H3 & H4 & H5).
  unfold check_scroll, bind, raw. cbn [scroll_width set_scroll_width].
  cbv zeta.
  destruct (s1 >? width sz + 10), (s2 >? width sz + 10);
    (split; [reflexivity|]); repeat split; cbn; try assumption;
    rewrite !other_lines_app, H1; reflexivity.
Qed.

Lemma alike_check_page e f g ts dev p :
  alike (check_page (with_scroll_widths e f) ts dev p)
    (check_page (with_scroll_widths e g) ts dev p).
Proof.
  unfold check_page. cbv zeta. cbn [obs with_scroll_widths].
  generalize (obs e (fst dev) (name p)). intros o.
  unfold check_layout.
  apply alike_bind; [| intros _; apply alike_bind; [| intros _]].
  - same_calls; [apply alike_check_scroll | ..];
      unfold check_sidebar, check_main, check_cards;
      cbn [set_scroll_width sidebar_visible main_visible main_width
           card_count card_width];
      same_calls.
  - unfold check_buttons. cbn [set_scroll_width buttons]. same_calls.
  - unfold take_screenshot. cbn [set_scroll_width shot]. same_calls.
Qed.

Lemma alike_runs e f g :
  alike (test_responsive_design (with_scroll_widths e f))
    (test_responsive_design (with_scroll_widths e g)).
Proof.
  unfold test_responsive_design, with_sync_playwright.
  apply alike_try_finally; [| apply alike_exit_playwright].
  unfold login, matrix, check_device.
  cbn [launch new_page login_goto login_networkidle fill_phone fill_code
       click_login wait_for_url localtime set_viewport_size wait_resize
       close with_scroll_widths].
  same_calls.
  - apply alike_check_page.
  - unfold summary. same_calls.
Qed.

Lemma run_keeps_results e : results (snd (run e)) = [].
Proof.
  assert (K : steps (keeps results) (test_responsive_design e)).
  { unfold test_responsive_design, with_sync_playwright, login, matrix,
      check_device, summary.
    keeps_field results. apply check_page_keeps_results.
    intros w. reflexivity. }
  apply K.
Qed.

(** C1 (amended).  In the check of one page at one device size, once
    the scroll width [sw] of the body has been read, the run has printed
    the page header followed by exactly one verdict of the scroll check:
    the failure line when [sw] exceeds the viewport width plus 10, the
    success line otherwise; and it goes on with the later checks of the
    page, the same ones whatever the verdict.  No later line of that
    check is a scroll verdict or a failure line, and the result list is
    left as it was: the verdict is printed, not recorded.  Nor does the
    verdict change what the run returns: two runs that differ in the
    scroll widths read, and so in their verdicts, end with the same
    result or exception, the same files, the same close of the browser
    and the same output but for the verdict lines; and no run records a
    result. *)
Theorem scroll_overflow_is_printed_not_recorded e ts dev p w sw :
  goto (obs e (fst dev) (name p)) = Ok tt ->
  wait_networkidle (obs e (fst dev) (name p)) = Ok tt ->
  wait_settle (obs e (fst dev) (name p)) = Ok tt ->
  scroll_width (obs e (fst dev) (name p)) = Ok sw ->
  let o := obs e (fst dev) (name p) in
  let verdict :=
    if sw >? width (snd dev) + 10
    then "    ❌ 发现横向滚动! scrollWidth=" ++ str sw
         ++ ", viewport=" ++ str (width (snd dev))
    else "    ✅ 无横向滚动 (" ++ str sw ++ "px)" in
  let header := nl ++ "  测试页面: " ++ name p in
  let w' := snd (check_page e ts dev p w) in
  check_page e ts dev p w
  = ((check_sidebar o (snd dev) ;; check_main o ;; check_cards o) ;;
     check_buttons o (snd dev) ;;
     take_screenshot o (fst dev) p ts)
      (snd (print verdict (snd (print header w))))
  /\ (exists rest,
        stdout w' = (stdout w ++ header :: verdict :: rest)%list
        /\ Forall plain_line rest)
  /\ is_scroll_line verdict = true
  /\ (is_failure_line verdict = true <-> sw > width (snd dev) + 10)
  /\ results w' = results w
  /\ (forall f g,
        fst (run (with_scroll_widths e f)) = fst (run (with_scroll_widths e g))
        /\ same_but_scroll (snd (run (with_scroll_widths e f)))
             (snd (run (with_scroll_widths e g))))
  /\ (forall e', results (snd (run e')) = []).
Proof.
  intros Hg Hi Hs Hw o verdict header w'.
  change header with (msg_page (name p)) in *. clear header.
  assert (C : check_page e ts dev p w
              = ((check_sidebar o (snd dev) ;; check_main o ;;
                  check_cards o) ;;
                 check_buttons o (snd dev) ;;
                 take_screenshot o (fst dev) p ts)
                  (snd (print verdict
                          (snd (print (msg_page (name p)) w))))).
  { unfold check_page. cbv zeta. fold o. unfold bind at 1 4.
    subst o. rewrite (check_layout_scroll _ _ _ _ _ Hg Hi Hs Hw).
    reflexivity. }
  split; [exact C|].
  split; [| split; [apply verdict_marks | split; [apply verdict_marks|]]].
  - subst w'. rewrite C.
    set (w2 := snd (print verdict (snd (print (msg_page (name p)) w)))).
    assert (E2 : stdout w2
                 = (stdout w ++ [msg_page (name p); verdict])%list).
    { subst w2. cbn [print fst snd stdout]. now rewrite <- app_assoc. }
    unfold bind at 1.
    pose proof (after_scroll_plain o (snd dev) w2) as (l1 & E1 & F1).
    destruct ((check_sidebar o (snd dev) ;; check_main o ;;
               check_cards o) w2) as [[u|ex] w3].
    + pose proof (buttons_and_shot_plain o (snd dev) (fst dev) p ts w3)
        as (l3 & E3 & F3).
      exists (l1 ++ l3)%list. split; [|apply Forall_app; auto].
      cbv beta iota. cbn [snd] in E1. rewrite E3, E1, E2.
      rewrite <- !app_assoc. reflexivity.
    + exists l1. split; [|exact F1]. cbv beta iota. cbn [snd] in *.
      rewrite E1, E2. rewrite <- !app_assoc. reflexivity.
  - split; [apply check_page_keeps_results|]. split.
    + intros f g.
      apply (alike_runs e f g initial initial), same_but_scroll_refl.
    + apply run_keeps_results.
Qed.

Lemma scroll_overflow_is_printed_not_recorded_witness :
  scroll_width (obs overflowing "iPhone SE" "Home") = Ok 500
  /\ is_failure_line
       ("    ❌ 发现横向滚动! scrollWidth=" ++ str 500 ++ ", viewport="
        ++ str 375) = true
  /\ results
       (snd (check_page overflowing "20240309_123005"
               ("iPhone SE", mkSize 375 667) (mkPage "/" "Home") initial))
     = [].
Proof.
  split; [reflexivity | split; [reflexivity |]].
  exact (proj1 (proj2 (proj2 (proj2 (proj2
    (scroll_overflow_is_printed_not_recorded overflowing "20240309_123005"
       ("iPhone SE", mkSize 375 667) (mkPage "/" "Home") initial 500
       eq_refl eq_refl eq_refl eq_refl)))))).
Defined.

(** C1 as stated fails: on the iPhone SE the home page is 500px wide,
    which exceeds 375 + 10, the run completes, and the result list holds
    no failed entry (it holds no entry at all). *)
Lemma overflow_records_no_failed_result :
  In ("iPhone SE", mkSize 375 667) DEVICE_SIZES
  /\ In (mkPage "/" "Home") PAGES_TO_TEST
  /\ scroll_width (obs overflowing "iPhone SE" "Home") = Ok 500
  /\ 500 > 375 + 10
  /\ fst (run overflowing) = Ok tt
  /\ List.length (failed (results (snd (run overflowing)))) <> 1%nat
  /\ results (snd (run overflowing)) = [].
Proof.
  split; [simpl; tauto|]. split; [simpl; tauto|].
  split; [reflexivity|]. split; [lia|].
  split; [vm_compute; reflexivity|].
  split; [vm_compute; discriminate | vm_compute; reflexivity].
Qed.

(** ** The touch-target check *)

Lemma below_44_spec x : below_44 x = true <-> (x < 44)%Q.
Proof.
  unfold below_44. rewrite negb_true_iff, <- not_true_iff_false, Qle_bool_iff.
  split; [apply Qnot_le_lt | apply Qlt_not_le].
Qed.

Lemma or_zero_eq x : (or_zero x == x)%Q.
Proof.
  unfold or_zero. destruct (Qeq_bool x 0) eqn:E; [|reflexivity].
  apply Qeq_bool_iff in E. now rewrite E.
Qed.

(** A button is counted exactly when its box is narrower or lower than
    44. *)
Lemma undersized_spec bx :
  undersized (Some bx) = true
  <-> (box_width bx < 44)%Q \/ (box_height bx < 44)%Q.
Proof.
  unfold undersized. rewrite orb_true_iff, !below_44_spec, !or_zero_eq.
  reflexivity.
Qed.

Lemma check_buttons_wide o sz w :
  width sz > 480 -> check_buttons o sz w = (Ok tt, w).
Proof.
  intros H. unfold check_buttons.
  destruct (width sz <=? 480) eqn:E; [lia | reflexivity].
Qed.

Lemma check_buttons_narrow o sz w btns sampled :
  width sz <= 480 -> buttons o = Ok btns -> firstn 5 btns = map Ok sampled ->
  check_buttons o sz w
  = print (let n := Z.of_nat (List.length (filter undersized sampled)) in
           if n =? 0 then msg_buttons_ok else msg_small_buttons n) w.
Proof.
  intros H Hb Hs. unfold check_buttons.
  destruct (width sz <=? 480) eqn:E; [|lia].
  unfold bind at 1. unfold raw. rewrite Hb, Hs.
  unfold bind. rewrite count_small_Ok. rewrite Z.add_0_l. cbv zeta.
  destruct (Z.of_nat _ =? 0); reflexivity.
Qed.

(** C6.  At a viewport of width at most 480, when the buttons of the
    page are listed and the first five answer their bounding box, the
    check looks at no more than five buttons, counts those whose box is
    narrower or lower than 44 (a button without a box is not counted),
    and prints one line: the success line when the count is 0, else the
    warning line, which carries the count in decimal between two fixed
    texts, so that the count can be read back from it.  Neither line has
    the mark of a failure.  The check itself returns normally, so the
    page check goes on to the screenshot whatever the count. *)
Theorem touch_targets_are_counted_as_warning
    e ts dev p w w1 btns sampled :
  width (snd dev) <= 480 ->
  check_layout (obs e (fst dev) (name p)) (snd dev) p w = (Ok tt, w1) ->
  buttons (obs e (fst dev) (name p)) = Ok btns ->
  firstn 5 btns = map Ok sampled ->
  let n := Z.of_nat (List.length (filter undersized sampled)) in
  let line :=
    if n =? 0
    then "    ✅ 移动端按钮触摸目标符合标准 (≥44x44)"
    else "    ⚠️  发现 " ++ str n ++ " 个小按钮 (<44x44)" in
  (List.length sampled <= 5)%nat
  /\ 0 <= n <= 5
  /\ (forall bx, undersized (Some bx) = true
                 <-> (box_width bx < 44)%Q \/ (box_height bx < 44)%Q)
  /\ undersized None = false
  /\ check_buttons (obs e (fst dev) (name p)) (snd dev) w1
     = (Ok tt, snd (print line w1))
  /\ check_page e ts dev p w
     = take_screenshot (obs e (fst dev) (name p)) (fst dev) p ts
         (snd (print line w1))
  /\ is_failure_line line = false
  /\ (n <> 0 ->
      prefix "    ⚠️" line = true
      /\ forall m, line = "    ⚠️  发现 " ++ str m ++ " 个小按钮 (<44x44)" ->
                   m = n).
Proof.
  intros Hw Hl Hb Hs n line.
  assert (L : (List.length sampled <= 5)%nat).
  { rewrite <- (length_map Ok sampled), <- Hs. apply firstn_le_length. }
  assert (Hn : 0 <= n <= 5).
  { subst n. pose proof (filter_length_le undersized sampled). lia. }
  assert (B : check_buttons (obs e (fst dev) (name p)) (snd dev) w1
              = (Ok tt, snd (print line w1))).
  { rewrite (check_buttons_narrow _ _ _ _ _ Hw Hb Hs). reflexivity. }
  split; [exact L|]. split; [exact Hn|].
  split; [apply undersized_spec|]. split; [reflexivity|].
  split; [exact B|]. split; [| split].
  - unfold check_page. cbv zeta. unfold bind at 1. rewrite Hl.
    unfold bind at 1. rewrite B. reflexivity.
  - subst line. destruct (n =? 0); reflexivity.
  - intros N. subst line. destruct (n =? 0) eqn:E; [lia|].
    split; [reflexivity|]. intros m H. symmetry.
    exact (framed_number_injective "    ⚠️  发现 " " 个小按钮 (<44x44)"
             n m H).
Qed.

Lemma touch_targets_are_counted_as_warning_witness :
  width (snd ("iPhone SE", mkSize 375 667)) <= 480
  /\ check_buttons calm_obs (mkSize 375 667)
       (snd (check_layout calm_obs (mkSize 375 667) (mkPage "/" "Home") initial))
     = (Ok tt,
        snd (print "    ⚠️  发现 1 个小按钮 (<44x44)"
               (snd (check_layout calm_obs (mkSize 375 667)
                       (mkPage "/" "Home") initial)))).
Proof.
  split; [simpl; lia|].
  exact (proj1 (proj2 (proj2 (proj2 (proj2
    (touch_targets_are_counted_as_warning calm "20240309_123005"
       ("iPhone SE", mkSize 375 667) (mkPage "/" "Home") initial
       (snd (check_layout calm_obs (mkSize 375 667) (mkPage "/" "Home") initial))
       [Ok (Some box_48); Ok None; Ok (Some box_30)]
       [Some box_48; None; Some box_30]
       ltac:(simpl; lia) eq_refl eq_refl eq_refl)))))).
Defined.


(** ** The screenshots of a run *)

Lemma check_page_files e ts dev p w u w' :
  check_page e ts dev p w = (Ok u, w') ->
  files w' = (files w ++ [screenshot_name (fst dev) (name p) ts])%list.
Proof.
  unfold check_page. cbv zeta. intros H.
  apply bind_inv_Ok in H. destruct H as (a & w1 & H1 & H).
  apply bind_inv_Ok in H. destruct H as (b & w2 & H2 & H).
  apply (steps_run (keeps files)) in H1;
    [| apply check_layout_keeps; reflexivity].
  apply (steps_run (keeps files)) in H2;
    [| apply check_buttons_keeps; reflexivity].
  unfold take_screenshot in H. cbv zeta in H.
  apply bind_inv_Ok in H. destruct H as (c & w3 & H3 & H).
  unfold screenshot in H3.
  destruct (shot (obs e (fst dev) (name p))) as [[]|ex]; [|discriminate].
  injection H3 as _ <-. injection H as _ <-.
  unfold keeps in *. cbn [files]. congruence.
Qed.

Lemma check_device_files e ts dev w u w' :
  check_device e ts dev w = (Ok u, w') ->
  files w'
  = (files w
     ++ map (fun p => screenshot_name (fst dev) (name p) ts) PAGES_TO_TEST)%list.
Proof.
  unfold check_device. cbv zeta. intros H.
  do 5 (apply bind_inv_Ok in H; destruct H as (? & ? & ?E & H)).
  apply (for_each_collect files
           (fun p => [screenshot_name (fst dev) (name p) ts])) in H.
  - rewrite flat_map_singleton in H. rewrite H. f_equal.
    repeat match goal with
           | E : print _ _ = _ |- _ => injection E as _ <-
           | E : raw _ _ = _ |- _ => injection E as _ <-
           end.
    reflexivity.
  - intros. eapply check_page_files; eauto.
Qed.

Lemma matrix_files e w u w' :
  matrix e w = (Ok u, w') ->
  files w' = (files w ++ matrix_names (strftime_Ymd_HMS (localtime e)))%list.
Proof.
  unfold matrix, matrix_names. cbv zeta.
  apply for_each_collect. intros. eapply check_device_files; eauto.
Qed.

Lemma login_keeps {X} (f : world -> X) e :
  (forall s w, f (snd (print s w)) = f w) -> steps (keeps f) (login e).
Proof.
  intros Hp. unfold login.
  split_steps (keeps_refl f) (keeps_trans f); intros w; apply Hp.
Qed.

Lemma summary_says :
  says
    ([(nl ++ times "=" 70)%string; "✅ 响应式设计测试完成！";
      (nl ++ "📋 测试总结:")%string]
     ++ ["  • 测试设备数: 6"; "  • 测试页面数: 6"; "  • 总截图数: 36"]
     ++ [(nl ++ "🎯 响应式断点覆盖:")%string; "  • 移动端: 375px, 390px";
         "  • 平板: 768px, 1024px"; "  • 桌面: 1440px, 1920px";
         (nl ++ "✨ 所有截图已保存，可查看各设备上的显示效果！")%string])%list
    summary.
Proof.
  unfold summary.
  repeat (apply (says_bind [_]); [apply says_print | intros _]).
  apply says_print.
Qed.

(** A run that returns went through the login, the whole matrix, the
    close and the summary. *)
Lemma run_Ok_inv e :
  fst (run e) = Ok tt ->
  exists w0 w1 w2,
    login e w0 = (Ok tt, w1)
    /\ files w0 = [] /\ closes w0 = 0%nat
    /\ matrix e w1 = (Ok tt, w2)
    /\ snd (run e)
       = snd (exit_playwright
                (snd (summary (snd (browser_close (close e) w2))))).
Proof.
  unfold run, test_responsive_design. rewrite with_sync_playwright_run.
  cbn [fst snd].
  match goal with
  | |- fst (?m initial) = _ -> _ => destruct (m initial) as [r w'] eqn:E
  end.
  cbn [fst snd]. intros ->.
  apply bind_inv_Ok in E. destruct E as (? & wl & El & E).
  apply bind_inv_Ok in E. destruct E as (? & wn & En & E).
  apply bind_inv_Ok in E. destruct E as (? & wa & Ea & E).
  apply bind_inv_Ok in E. destruct E as (? & wb & Eb & E).
  apply bind_inv_Ok in E. destruct E as ([] & w1 & E1 & E).
  apply bind_inv_Ok in E. destruct E as ([] & w2 & E2 & E).
  apply bind_inv_Ok in E. destruct E as (? & w3 & E3 & E).
  exists wb, w1, w2.
  apply (f_equal snd) in El, En. cbn [raw snd] in El, En. subst wl wn.
  injection Ea as _ <-. injection Eb as _ <-.
  apply (f_equal snd) in E3. cbn [snd] in E3. subst w3.
  repeat split; try assumption.
  now rewrite E.
Qed.


Lemma tail_of_run o w2 :
  files (snd (exit_playwright (snd (summary (snd (browser_close o w2))))))
  = files w2
  /\ closes (snd (exit_playwright (snd (summary (snd (browser_close o w2))))))
     = S (closes w2)
  /\ exists pre,
      stdout (snd (exit_playwright (snd (summary (snd (browser_close o w2))))))
      = (pre ++ ["  • 测试设备数: 6"; "  • 测试页面数: 6"; "  • 总截图数: 36"]
         ++ [(nl ++ "🎯 响应式断点覆盖:")%string; "  • 移动端: 375px, 390px";
             "  • 平板: 768px, 1024px"; "  • 桌面: 1440px, 1920px";
             (nl ++ "✨ 所有截图已保存，可查看各设备上的显示效果！")%string])%list.
Proof.
  set (w3 := snd (browser_close o w2)).
  assert (Hf : files (snd (summary w3)) = files w3).
  { apply (steps_run (keeps files) summary w3 (fst (summary w3)));
      [unfold summary; keeps_field files | now destruct (summary w3)]. }
  assert (Hc : closes (snd (summary w3)) = closes w3).
  { apply summary_keeps_closes. }
  destruct (summary_says w3) as (Hs & _).
  split; [|split].
  - cbn [exit_playwright snd files]. now rewrite Hf.
  - cbn [exit_playwright snd closes]. now rewrite Hc.
  - cbn [exit_playwright snd stdout]. rewrite Hs.
    eexists. rewrite app_assoc. reflexivity.
Qed.




(** ** The names of the screenshots *)

Lemma is_digit_digit d : 0 <= d < 10 -> is_digit (digit d) = true.
Proof.
  intros H.
  assert (d = 0 \/ d = 1 \/ d = 2 \/ d = 3 \/ d = 4 \/ d = 5 \/ d = 6
          \/ d = 7 \/ d = 8 \/ d = 9) as C by lia.
  repeat (destruct C as [->|C]; [reflexivity|]). now subst.
Qed.

Lemma pad2_digits n :
  exists a b, pad2 n = String a (String b EmptyString)
              /\ is_digit a = true /\ is_digit b = true.
Proof.
  eexists _, _. split; [reflexivity|].
  split; apply is_digit_digit; apply Z.mod_pos_bound; lia.
Qed.

Lemma year_digits y : 1000 <= y <= 9999 -> four_digits (str y) = true.
Proof.
  intros H.
  assert (A : forallb (fun n => four_digits (str (1000 + Z.of_nat n)))
                (seq 0 (Z.to_nat 9000)) = true) by (vm_compute; reflexivity).
  rewrite forallb_forall in A.
  specialize (A (Z.to_nat (y - 1000))).
  replace (1000 + Z.of_nat (Z.to_nat (y - 1000))) with y in A by lia.
  apply A. apply in_seq. lia.
Qed.

Lemma strftime_matches t :
  valid_time t -> matches_Ymd_HMS (strftime_Ymd_HMS t) = true.
Proof.
  intros (Hy & _). apply year_digits in Hy. unfold strftime_Ymd_HMS.
  destruct (str (tm_year t)) as [|a [|b [|c [|d [|]]]]]; try discriminate.
  cbn [four_digits] in Hy. rewrite !andb_true_iff in Hy.
  destruct Hy as (((Ha & Hb) & Hc) & Hd).
  destruct (pad2_digits (tm_mon t)) as (m1 & m2 & -> & ? & ?).
  destruct (pad2_digits (tm_mday t)) as (d1 & d2 & -> & ? & ?).
  destruct (pad2_digits (tm_hour t)) as (h1 & h2 & -> & ? & ?).
  destruct (pad2_digits (tm_min t)) as (n1 & n2 & -> & ? & ?).
  destruct (pad2_digits (tm_sec t)) as (s1 & s2 & -> & ? & ?).
  unfold matches_Ymd_HMS. cbn.
  repeat match goal with E : is_digit _ = true |- _ => rewrite E; clear E end.
  reflexivity.
Qed.

Lemma matches_length s :
  matches_Ymd_HMS s = true -> String.length s = 15%nat.
Proof.
  unfold matches_Ymd_HMS. rewrite !andb_true_iff.
  intros (((H & _) & _) & _). now apply Nat.eqb_eq.
Qed.

Lemma screenshot_name_contains d p ts :
  contains (replace " " "_" d) (screenshot_name d p ts) = true
  /\ contains p (screenshot_name d p ts) = true
  /\ contains ts (screenshot_name d p ts) = true.
Proof.
  unfold screenshot_name. repeat split.
  - apply contains_later, contains_here.
  - do 3 apply contains_later. apply contains_here.
  - do 5 apply contains_later. apply contains_here.
Qed.

(** Names built at timestamps of one length agree only when the
    timestamps do. *)
Lemma screenshot_name_timestamp d p ts d' p' ts' :
  String.length ts = String.length ts' ->
  screenshot_name d p ts = screenshot_name d' p' ts' -> ts = ts'.
Proof.
  intros L E. unfold screenshot_name in E.
  rewrite <- !append_assoc in E.
  apply append_inv_tail in E; [|reflexivity]. destruct E as [E _].
  now apply append_inv_tail in E.
Qed.

Lemma grows_files_same (P : string -> Prop) {A} (m : M A) :
  (forall w, files (snd (m w)) = files w) -> steps (grows files P) m.
Proof.
  intros H w. exists []. split; [now rewrite H, app_nil_r | constructor].
Qed.

Lemma grows_files_print (P : string -> Prop) s :
  steps (grows files P) (print s).
Proof. apply grows_files_same. reflexivity. Qed.

Lemma grows_files_screenshot (P : string -> Prop) path o :
  P path -> steps (grows files P) (screenshot path o).
Proof.
  intros H w. destruct o as [[]|ex]; simpl.
  - now apply grows_one with (s := path).
  - apply grows_refl.
Qed.

Ltac grows_files P :=
  repeat
    (cbv beta zeta;
     match goal with
     | |- steps _ (count_small _ _) =>
         apply (steps_count_small _ (grows_refl files P))
     | |- steps _ (screenshot _ _) => apply grows_files_screenshot
     | |- steps _ (print _) => apply grows_files_print
     | |- steps _ (browser_close _) => apply grows_files_same; reflexivity
     | |- steps _ exit_playwright => apply grows_files_same; reflexivity
     | |- steps _ _ =>
         progress split_steps (grows_refl files P) (grows_trans files P)
     end).

Lemma run_files_named e :
  Forall (named_at (strftime_Ymd_HMS (localtime e))) (files (snd (run e))).
Proof.
  assert (H : steps (grows files (named_at (strftime_Ymd_HMS (localtime e))))
                (test_responsive_design e)).
  { unfold test_responsive_design, with_sync_playwright, login, matrix,
      summary, check_device.
    grows_files (named_at (strftime_Ymd_HMS (localtime e))).
    unfold_page.
    grows_files (named_at (strftime_Ymd_HMS (localtime e))).
    eexists _, _. reflexivity. }
  destruct (H initial) as (l & E & F). unfold run. now rewrite E.
Qed.


(** C9 (amended).  In a run that returns, at a local time whose year
    prints with four digits, the timestamp matches [YYYYMMDD_HHMMSS] and
    every device/page pair of the matrix has its screenshot file, whose
    name contains the device label with its spaces replaced by
    underscores, the page label and the timestamp.  A run with a
    different timestamp writes none of these files. *)
Theorem screenshot_names_carry_labels_and_timestamp e :
  valid_time (localtime e) ->
  fst (run e) = Ok tt ->
  let ts := strftime_Ymd_HMS (localtime e) in
  matches_Ymd_HMS ts = true
  /\ (forall d sz p,
        In (d, sz) DEVICE_SIZES -> In p PAGES_TO_TEST ->
        In (screenshot_name d (name p) ts) (files (snd (run e)))
        /\ contains (replace " " "_" d) (screenshot_name d (name p) ts) = true
        /\ contains (name p) (screenshot_name d (name p) ts) = true
        /\ contains ts (screenshot_name d (name p) ts) = true)
  /\ (forall e',
        valid_time (localtime e') ->
        strftime_Ymd_HMS (localtime e') <> ts ->
        forall f, In f (files (snd (run e))) -> ~ In f (files (snd (run e')))).
Proof.
  intros Hv Hr ts.
  destruct (run_Ok_inv e Hr) as (w0 & w1 & w2 & El & Hf0 & _ & Em & Ew).
  destruct (tail_of_run (close e) w2) as (Hf & _ & _).
  assert (F : files (snd (run e)) = matrix_names ts).
  { rewrite Ew, Hf, (matrix_files _ _ _ _ Em).
    apply (steps_run (keeps files)) in El; [| apply login_keeps; reflexivity].
    unfold keeps in El. now rewrite El, Hf0. }
  split; [now apply strftime_matches|]. split.
  - intros d sz p Hd Hp. split; [|apply screenshot_name_contains].
    rewrite F. unfold matrix_names. apply in_flat_map.
    exists (d, sz). split; [exact Hd|].
    apply in_map_iff. exists p. split; [reflexivity | exact Hp].
  - intros e' Hv' Hne f Hin Hin'.
    pose proof (run_files_named e) as N. pose proof (run_files_named e') as N'.
    rewrite Forall_forall in N, N'.
    destruct (N f Hin) as (d & p & ->).
    destruct (N' _ Hin') as (d' & p' & E).
    apply Hne. symmetry. apply screenshot_name_timestamp in E; [exact E|].
    rewrite (matches_length _ (strftime_matches _ Hv')).
    apply (matches_length _ (strftime_matches _ Hv)).
Qed.

Lemma screenshot_names_carry_labels_and_timestamp_witness :
  valid_time (localtime calm)
  /\ fst (run calm) = Ok tt
  /\ matches_Ymd_HMS (strftime_Ymd_HMS (localtime calm)) = true.
Proof.
  assert (V : valid_time (localtime calm)) by (unfold valid_time; simpl; lia).
  split; [exact V|]. split; [vm_compute; reflexivity|].
  exact (proj1 (screenshot_names_carry_labels_and_timestamp calm V
                  ltac:(vm_compute; reflexivity))).
Defined.

(** C9 as stated fails twice.  The device label "iPhone SE" is in no
    file name of a complete run, since its space is replaced; and two
    different runs that read the clock in the same second write the
    same 36 names, the later over the earlier. *)
Lemma label_with_space_is_not_in_the_name :
  In ("iPhone SE", mkSize 375 667) DEVICE_SIZES
  /\ fst (run calm) = Ok tt
  /\ forallb (fun f => negb (contains "iPhone SE" f)) (files (snd (run calm)))
     = true
  /\ stdout (snd (run overflowing)) <> stdout (snd (run calm))
  /\ fst (run overflowing) = Ok tt
  /\ files (snd (run overflowing)) = files (snd (run calm)).
Proof.
  split; [simpl; tauto|]. split; [vm_compute; reflexivity|].
  split; [vm_compute; reflexivity|].
  split; [vm_compute; discriminate|].
  split; vm_compute; reflexivity.
Qed.

End ResponsiveFacts.

(* ================================================================== *)
(** * What a computation returns *)
(* ================================================================== *)

Lemma bind_fst {A B} (m : M A) (k : A -> M B) w :
  fst (bind m k w)
  = match fst (m w) with
    | Ok a => fst (k a (snd (m w)))
    | Raise ex => Raise ex
    end.
Proof. unfold bind. now destruct (m w) as [[a|ex] w1]. Qed.

Lemma bind_snd {A B} (m : M A) (k : A -> M B) w :
  snd (bind m k w)
  = match fst (m w) with
    | Ok a => snd (k a (snd (m w)))
    | Raise ex => snd (m w)
    end.
Proof. unfold bind. now destruct (m w) as [[a|ex] w1]. Qed.

Lemma bind_assoc {A B C} (m : M A) (f : A -> M B) (g : B -> M C) w :
  bind (bind m f) g w = bind m (fun x => bind (f x) g) w.
Proof. unfold bind. now destruct (m w) as [[a|ex] w1]. Qed.

Lemma always_assoc {A B C} (m : M A) (f : A -> M B) (g : B -> M C) r :
  always r (bind m (fun x => bind (f x) g)) -> always r (bind (bind m f) g).
Proof. intros H w. rewrite bind_assoc. apply H. Qed.

Lemma always_bind {A B} (m : M A) (k : A -> M B) a r :
  always (Ok a) m -> always r (k a) -> always r (bind m k).
Proof. intros Hm Hk w. now rewrite bind_fst, Hm. Qed.

Lemma always_raise {A B} (m : M A) (k : A -> M B) ex :
  always (Raise ex) m -> always (Raise ex) (bind m k).
Proof. intros Hm w. now rewrite bind_fst, Hm. Qed.

Lemma always_after {A B} (m : M A) (k : A -> M B) r :
  returns m -> (forall a, always r (k a)) -> always r (bind m k).
Proof.
  intros Hm Hk w. rewrite bind_fst. destruct (Hm w) as (a & ->). apply Hk.
Qed.

Lemma returns_bind {A B} (m : M A) (k : A -> M B) :
  returns m -> (forall a, returns (k a)) -> returns (bind m k).
Proof.
  intros Hm Hk w. rewrite bind_fst. destruct (Hm w) as (a & ->). apply Hk.
Qed.

Lemma returns_always {A} (m : M A) a : always (Ok a) m -> returns m.
Proof. intros H w. now exists a. Qed.

Lemma returns_unit (m : M unit) : returns m -> always (Ok tt) m.
Proof. intros H w. destruct (H w) as ([] & E). exact E. Qed.

Lemma returns_print s : returns (print s).
Proof. intros w. now exists tt. Qed.

Lemma returns_ret {A} (a : A) : returns (ret a).
Proof. intros w. now exists a. Qed.

Lemma returns_for_each {A} (l : list A) body :
  (forall x, returns (body x)) -> returns (for_each l body).
Proof.
  intros H. induction l as [|x l IH]; simpl.
  - apply returns_ret.
  - apply returns_bind; auto.
Qed.

Lemma returns_try_except {A} (m : M A) h :
  (forall ex, returns (h ex)) -> returns (try_except m h).
Proof.
  intros H w. unfold try_except. destruct (m w) as [[a|ex] w1].
  - now exists a.
  - apply H.
Qed.

(** What [try ... finally: browser.close()] returns is what its body
    returns, unless the close raises; and what the context manager returns
    is what its body returns. *)
Lemma try_finally_close_fst {A} (m : M A) o w :
  fst (try_finally m (browser_close o) w)
  = match o with
    | Ok _ => fst (m w)
    | Raise ex => Raise ex
    end.
Proof. unfold try_finally, browser_close. now destruct (m w), o. Qed.

Lemma try_finally_close_snd {A} (m : M A) o w :
  snd (try_finally m (browser_close o) w)
  = snd (browser_close o (snd (m w))).
Proof. unfold try_finally, browser_close. now destruct (m w), o. Qed.

Lemma with_sync_playwright_fst {A} (m : M A) w :
  fst (with_sync_playwright m w) = fst (m w).
Proof. now rewrite with_sync_playwright_run. Qed.

(* ================================================================== *)
(** * The aggregate script *)
(* ================================================================== *)

Module FrontendFacts.
Import Frontend.

(** ** What the parts return *)

Lemma returns_deliver ev : returns (deliver ev).
Proof.
  intros w. exists tt. unfold deliver, on_console, log_response.
  destruct ev as [ty tx|u st].
  - destruct (console_hooked w); [|reflexivity].
    destruct (ty =? "error")%string; reflexivity.
  - destruct (response_hooked w); [|reflexivity].
    destruct (st >=? 400); reflexivity.
Qed.

Lemma returns_hear evs : returns (for_each evs deliver).
Proof. apply returns_for_each, returns_deliver. Qed.

Lemma always_call {A} (s : step A) : always (answer s) (call s).
Proof.
  intros w. unfold call. rewrite bind_fst.
  destruct (returns_hear (events s) w) as (a & ->). reflexivity.
Qed.

Lemma always_call_screenshot path s :
  always (answer s) (call_screenshot path s).
Proof.
  intros w. unfold call_screenshot. rewrite bind_fst.
  destruct (returns_hear (events s) w) as (a & ->).
  unfold screenshot. now destruct (answer s) as [[]|ex].
Qed.

Lemma returns_results_append l b : returns (results_append l b).
Proof. intros w. now exists tt. Qed.

Lemma returns_test_3_api e : returns (test_3_api e).
Proof.
  unfold test_3_api. apply returns_bind; [apply returns_print | intros _].
  apply returns_try_except. intros ex.
  apply returns_bind; [apply returns_print | intros _].
  apply returns_results_append.
Qed.

Lemma returns_test_6 : returns test_6_javascript.
Proof.
  unfold test_6_javascript.
  apply returns_bind; [apply returns_print | intros _].
  apply returns_bind; [intros w; now eexists | intros errors].
  destruct errors.
  - apply returns_bind; [apply returns_print | intros _].
    apply returns_results_append.
  - apply returns_bind; [apply returns_print | intros _].
    apply returns_bind; [| intros _; apply returns_results_append].
    apply returns_for_each. intros x. apply returns_print.
Qed.

Lemma returns_after_reload : returns
  (failed <- gets failed_requests ;;
   match failed with
   | _ :: _ =>
       print ("  失败的请求 (" ++ str (Z.of_nat (List.length failed)) ++ "):") ;;
       for_each (firstn 5 failed) (fun req => print ("    - " ++ req)) ;;
       results_append "资源加载" false
   | [] =>
       print "  所有资源加载成功: ✓" ;;
       results_append "资源加载" true
   end).
Proof.
  apply returns_bind; [intros w; now eexists | intros failed].
  destruct failed.
  - apply returns_bind; [apply returns_print | intros _].
    apply returns_results_append.
  - apply returns_bind; [apply returns_print | intros _].
    apply returns_bind; [| intros _; apply returns_results_append].
    apply returns_for_each. intros x. apply returns_print.
Qed.

(** Steps through the [try] block: a call of the driver is split on its
    answer, anything else returns. *)
Ltac through_checks :=
  repeat
    (cbv beta;
     match goal with
     | |- always _ (bind (bind _ _) _) => apply always_assoc
     | |- always _ (bind (call ?s) _) =>
         let E := fresh "E" in
         pose proof (always_call s) as E;
         destruct (answer s) as [?|?];
         [ eapply always_bind; [exact E|] | now apply always_raise ];
         clear E; cbn [or_else]
     | |- always _ (bind (call_screenshot ?p ?s) _) =>
         let E := fresh "E" in
         pose proof (always_call_screenshot p s) as E;
         destruct (answer s) as [?|?];
         [ eapply always_bind; [exact E|] | now apply always_raise ];
         clear E; cbn [or_else]
     | |- always _ (call ?s) =>
         let E := fresh "E" in
         pose proof (always_call s) as E;
         destruct (answer s) as [[]|?]; exact E
     | |- always _ (bind (print _) _) =>
         apply always_after; [apply returns_print | intros _]
     | |- always _ (bind (results_append _ _) _) =>
         apply always_after; [apply returns_results_append | intros _]
     | |- always _ (bind (test_3_api _) _) =>
         apply always_after; [apply returns_test_3_api | intros _]
     | |- always _ (bind (set_failed_requests _) _) =>
         apply always_after; [intros ?; now exists tt | intros _]
     | |- always _ (bind hook_response _) =>
         apply always_after; [intros ?; now exists tt | intros _]
     end).

(** The [try] block raises the first failure of its driver calls, and
    returns when there is none. *)
Lemma checks_result e :
  always (match try_failure e with
          | Some ex => Raise ex
          | None => Ok tt
          end) (checks e).
Proof.
  unfold try_failure, failure, checks, test_1_home, test_2_elements,
    test_4_responsive, test_5_resources.
  through_checks.
  apply always_after; [intros ?; now eexists | intros failed].
  apply returns_unit.
  apply returns_bind; [| intros _; apply returns_test_6].
  destruct failed.
  - apply returns_bind; [apply returns_print | intros _].
    apply returns_results_append.
  - apply returns_bind; [apply returns_print | intros _].
    apply returns_bind; [| intros _; apply returns_results_append].
    apply returns_for_each. intros x. apply returns_print.
Qed.

Lemma returns_handler ex :
  returns (print (nl ++ "❌ 测试失败: " ++ exn_str ex) ;;
           results_append "测试执行" false).
Proof.
  apply returns_bind; [apply returns_print | intros _].
  apply returns_results_append.
Qed.

(** The [try] statement returns unless [browser.close()] raises: no
    exception of the checks leaves it. *)
Lemma guarded_result e :
  always (match close e with
          | Ok _ => Ok tt
          | Raise ex => Raise ex
          end) (guarded e).
Proof.
  intros w. unfold guarded.
  rewrite !bind_fst. cbn [set_console_errors hook_console fst snd].
  rewrite try_finally_close_fst.
  destruct (close e) as [[]|ex]; [|reflexivity].
  apply returns_unit. apply returns_try_except. apply returns_handler.
Qed.

Lemma first_failure_None e :
  first_failure e = None <-> startup_failure e = None /\ try_failure e = None.
Proof.
  unfold first_failure. destruct (startup_failure e); simpl.
  - split; [discriminate | now intros (? & _)].
  - split; [now split | now intros (_ & ?)].
Qed.

Lemma startup_None e :
  startup_failure e = None <-> launch e = Ok tt /\ new_page e = Ok tt.
Proof.
  unfold startup_failure.
  destruct (launch e) as [[]|], (new_page e) as [[]|]; split;
    try discriminate; try (intros (? & ?); discriminate); auto.
Qed.

(** Once the browser is launched and the page created, the session is
    the [try] statement inside the context manager. *)
Lemma session_started e w :
  startup_failure e = None ->
  session e w = with_sync_playwright (guarded e) w.
Proof.
  intros H. apply startup_None in H. destruct H as (Hl & Hn).
  unfold session, with_sync_playwright, try_finally, bind, raw.
  now rewrite Hl, Hn.
Qed.

(** When one of the two raises, the exception leaves the context manager
    at once. *)
Lemma session_not_started e ex w :
  startup_failure e = Some ex ->
  session e w = (Raise ex, snd (exit_playwright w)).
Proof.
  unfold startup_failure, session, with_sync_playwright, try_finally, bind,
    raw.
  destruct (launch e) as [[]|]; [destruct (new_page e) as [[]|]|];
    intros H; try discriminate; now injection H as ->.
Qed.

Lemma session_result e :
  always (match escapes e with
          | Some ex => Raise ex
          | None => Ok tt
          end) (session e).
Proof.
  intros w. unfold escapes.
  destruct (startup_failure e) as [ex|] eqn:S; cbn [or_else].
  - now rewrite (session_not_started e ex w S).
  - rewrite (session_started e w S), with_sync_playwright_fst.
    rewrite guarded_result. now destruct (close e).
Qed.

(** ** What the parts leave alone *)

Lemma keeps_deliver {X} (f : world -> X) ev :
  (forall l w, f (snd (set_console_errors l w)) = f w) ->
  (forall l w, f (snd (set_failed_requests l w)) = f w) ->
  steps (keeps f) (deliver ev).
Proof.
  intros H1 H2 w. unfold keeps, deliver, on_console, log_response.
  destruct ev as [ty tx|u st].
  - destruct (console_hooked w); [|reflexivity].
    destruct (ty =? "error")%string; [apply H1 | reflexivity].
  - destruct (response_hooked w); [|reflexivity].
    destruct (st >=? 400); [apply H2 | reflexivity].
Qed.

Ltac keeps_front f :=
  repeat
    (cbv beta zeta;
     match goal with
     | |- steps _ (call _) => unfold call
     | |- steps _ (call_screenshot _ _) => unfold call_screenshot
     | |- steps _ (deliver _) =>
         apply keeps_deliver; intros ? ?; reflexivity
     | |- steps _ (screenshot _ _) =>
         apply keeps_screenshot; intros ?; reflexivity
     | |- steps _ (print _) => intros ?; reflexivity
     | |- steps _ (results_append _ _) => intros ?; reflexivity
     | |- steps _ (set_failed_requests _) => intros ?; reflexivity
     | |- steps _ (set_console_errors _) => intros ?; reflexivity
     | |- steps _ (set_results _) => intros ?; reflexivity
     | |- steps _ hook_response => intros ?; reflexivity
     | |- steps _ hook_console => intros ?; reflexivity
     | |- steps _ (gets _) => intros ?; reflexivity
     | |- steps _ (browser_close _) => intros ?; reflexivity
     | |- steps _ exit_playwright => intros ?; reflexivity
     | |- steps _ _ => progress split_steps (keeps_refl f) (keeps_trans f)
     end).

Ltac unfold_checks :=
  unfold checks, test_1_home, test_2_elements, test_3_api,
    test_4_responsive, test_5_resources, test_6_javascript.

Lemma checks_keep_closes e : steps (keeps closes) (checks e).
Proof. unfold_checks. keeps_front closes. Qed.

Lemma checks_keep_stops e : steps (keeps stops) (checks e).
Proof. unfold_checks. keeps_front stops. Qed.

Lemma report_keeps {X} (f : world -> X) :
  (forall s w, f (snd (print s w)) = f w) -> steps (keeps f) report.
Proof.
  intros H. unfold report.
  split_steps (keeps_refl f) (keeps_trans f);
    try (intros w; apply H); intros w; reflexivity.
Qed.

Lemma handled_keeps {X} (f : world -> X) e :
  (forall s w, f (snd (print s w)) = f w) ->
  (forall l b w, f (snd (results_append l b w)) = f w) ->
  steps (keeps f) (checks e) ->
  steps (keeps f)
    (try_except (checks e)
       (fun ex => print (nl ++ "❌ 测试失败: " ++ exn_str ex) ;;
                  results_append "测试执行" false)).
Proof.
  intros Hp Hr Hc.
  apply (steps_try_except _ (keeps_trans f)); [exact Hc | intros ex].
  split_steps (keeps_refl f) (keeps_trans f); intros w; [apply Hp | apply Hr].
Qed.

(** The session closes the browser once, however the checks end, when
    the browser was launched and the page created, and not at all
    otherwise; it leaves the context manager once. *)
Lemma session_closes e w :
  closes (snd (session e w))
  = match startup_failure e with
    | None => S (closes w)
    | Some _ => closes w
    end
  /\ stops (snd (session e w)) = S (stops w).
Proof.
  destruct (startup_failure e) as [ex|] eqn:S.
  - rewrite (session_not_started e ex w S). split; reflexivity.
  - rewrite (session_started e w S), with_sync_playwright_run. cbn [snd].
    unfold guarded.
    rewrite !bind_snd. cbn [set_console_errors hook_console fst snd].
    set (w0 := mkWorld _ _ _ _ _ _ _ _ _).
    rewrite try_finally_close_snd.
    cbn [browser_close exit_playwright snd closes stops].
    rewrite (handled_keeps closes e (fun _ _ => eq_refl)
               (fun _ _ _ => eq_refl) (checks_keep_closes e) w0).
    rewrite (handled_keeps stops e (fun _ _ => eq_refl)
               (fun _ _ _ => eq_refl) (checks_keep_stops e) w0).
    split; reflexivity.
Qed.

(** ** The summary and the exit code *)

Lemma filter_all {A} (f : A -> bool) l :
  List.length (filter f l) = List.length l <-> forallb f l = true.
Proof.
  induction l as [|x l IH]; simpl; [tauto|].
  pose proof (filter_length_le f l) as L.
  destruct (f x); simpl.
  - rewrite <- IH. lia.
  - split; [lia | discriminate].
Qed.

Lemma exit_code_spec rs :
  (exit_code rs = 0 \/ exit_code rs = 1)
  /\ (exit_code rs = 0 <-> forallb snd rs = true).
Proof.
  unfold exit_code, count_passed. rewrite <- filter_all.
  change (fun r : string * bool => snd r) with (@snd string bool).
  destruct (Z.of_nat (List.length (filter snd rs))
            =? Z.of_nat (List.length rs)) eqn:E.
  - apply Z.eqb_eq in E. split; [now left|]. split; [lia | reflexivity].
  - apply Z.eqb_neq in E. split; [now right|]. split; [discriminate | lia].
Qed.

Lemma report_tail rs :
  always (Ok (exit_code rs))
    (for_each rs
       (fun r => print ("  " ++ (if snd r then "✓ PASS" else "✗ FAIL") ++ ": "
                        ++ fst r)) ;;
     print (nl ++ "总计: " ++ str (count_passed rs) ++ "/"
            ++ str (Z.of_nat (List.length rs)) ++ " 通过") ;;
     print (times "=" 50) ;;
     ret (exit_code rs)).
Proof.
  apply always_after;
    [apply returns_for_each; intros x; apply returns_print | intros _].
  apply always_after; [apply returns_print | intros _].
  apply always_after; [apply returns_print | intros _].
  intros w. reflexivity.
Qed.

Lemma report_result w : fst (report w) = Ok (exit_code (results w)).
Proof.
  unfold report.
  do 3 (rewrite bind_fst; cbn [print fst snd]).
  rewrite bind_fst. cbn [gets fst snd results]. cbv zeta.
  apply report_tail.
Qed.

(** The run is the summary from the state the session leaves, unless an
    exception leaves the session. *)
Lemma run_unfold e :
  run e
  = match escapes e with
    | None => report (snd (session e (snd (set_results [] initial))))
    | Some ex => (Raise ex, snd (session e (snd (set_results [] initial))))
    end.
Proof.
  unfold run, test_frontend. unfold bind at 1. cbn [set_results].
  unfold bind.
  pose proof (session_result e (snd (set_results [] initial))) as H.
  cbn [set_results snd] in H.
  destruct (session e _) as [r w1]. cbn [fst snd] in *. subst r.
  now destruct (escapes e).
Qed.

Lemma run_result e :
  fst (run e)
  = match escapes e with
    | None => Ok (exit_code (results (snd (run e))))
    | Some ex => Raise ex
    end
  /\ results (snd (run e))
     = results (snd (session e (snd (set_results [] initial))))
  /\ closes (snd (run e))
     = match startup_failure e with
       | None => 1%nat
       | Some _ => 0%nat
       end
  /\ stops (snd (run e)) = 1%nat.
Proof.
  rewrite run_unfold.
  destruct (session_closes e (snd (set_results [] initial))) as (Ec & Es).
  set (w1 := snd (session e (snd (set_results [] initial)))) in *.
  assert (R : results (snd (report w1)) = results w1)
    by (apply report_keeps; reflexivity).
  assert (C : closes (snd (report w1)) = closes w1)
    by (apply report_keeps; reflexivity).
  assert (S : stops (snd (report w1)) = stops w1)
    by (apply report_keeps; reflexivity).
  destruct (escapes e); cbn [fst snd].
  - rewrite Ec, Es. repeat split.
  - rewrite report_result, R, C, S, Ec, Es. repeat split.
Qed.

(** ** Following the lists and handlers through the script *)

Lemma triple_bind {A B} v (m : M A) (k : A -> M B) post :
  triple v m
    (fun r v' =>
       match r with
       | Ok a => triple v' (k a) post
       | Raise ex => post (Raise ex) v'
       end) ->
  triple v (bind m k) post.
Proof.
  intros H w Hw. specialize (H w Hw). unfold bind.
  destruct (m w) as [[a|ex] w1]; cbn [fst snd] in *; [now apply H | exact H].
Qed.

Lemma triple_try_except {A} v (m : M A) h post :
  triple v m
    (fun r v' =>
       match r with
       | Ok a => post (Ok a) v'
       | Raise ex => triple v' (h ex) post
       end) ->
  triple v (try_except m h) post.
Proof.
  intros H w Hw. specialize (H w Hw). unfold try_except.
  destruct (m w) as [[a|ex] w1]; cbn [fst snd] in *; [exact H | now apply H].
Qed.

Lemma triple_try_finally_close {A} v (m : M A) o post :
  triple v m
    (fun r v' =>
       post (match o with Ok _ => r | Raise ex => Raise ex end) v') ->
  triple v (try_finally m (browser_close o)) post.
Proof.
  intros H w Hw. specialize (H w Hw). unfold try_finally, browser_close.
  destruct (m w) as [r w1]. cbn [fst snd] in H. now destruct o.
Qed.

Lemma triple_raw {A} v (o : outcome A) (post : outcome A -> View -> Prop) :
  post o v -> triple v (raw o) post.
Proof. intros P w Hw. cbn [raw fst snd]. now rewrite Hw. Qed.

Lemma triple_with_sync_playwright {A} v (m : M A) post :
  triple v m post -> triple v (with_sync_playwright m) post.
Proof.
  intros H w Hw. specialize (H w Hw). rewrite with_sync_playwright_run.
  exact H.
Qed.

(** A computation that returns [a] and leaves the view alone. *)
Lemma triple_silent {A} v (m : M A) a (post : outcome A -> View -> Prop) :
  (forall w, fst (m w) = Ok a /\ view (snd (m w)) = view w) ->
  post (Ok a) v -> triple v m post.
Proof. intros H P w Hw. destruct (H w) as (-> & ->). now rewrite Hw. Qed.

Lemma triple_print v s (post : outcome unit -> View -> Prop) :
  post (Ok tt) v -> triple v (print s) post.
Proof. apply triple_silent. intros w. now split. Qed.

Lemma triple_ret {A} v (a : A) (post : outcome A -> View -> Prop) :
  post (Ok a) v -> triple v (ret a) post.
Proof. apply triple_silent. intros w. now split. Qed.

Lemma triple_for_each_print {A} v (l : list A) f
    (post : outcome unit -> View -> Prop) :
  post (Ok tt) v -> triple v (for_each l (fun x => print (f x))) post.
Proof.
  apply triple_silent. intros w. revert w.
  induction l as [|x l IH]; intros w; simpl; [now split|].
  rewrite bind_fst, bind_snd.
  replace (fst (print (f x) w)) with (@Ok unit tt) by reflexivity.
  cbv iota beta.
  destruct (IH (snd (print (f x) w))) as (E1 & E2). now rewrite E1, E2.
Qed.

Lemma triple_results_append rs ce fr h q l b
    (post : outcome unit -> View -> Prop) :
  post (Ok tt) ((rs ++ [(l, b)])%list, ce, fr, h, q) ->
  triple (rs, ce, fr, h, q) (results_append l b) post.
Proof.
  intros P w Hw. unfold view in Hw. injection Hw as <- <- <- <- <-.
  exact P.
Qed.

Lemma triple_set_failed_requests rs ce fr h q l
    (post : outcome unit -> View -> Prop) :
  post (Ok tt) (rs, ce, l, h, q) ->
  triple (rs, ce, fr, h, q) (set_failed_requests l) post.
Proof.
  intros P w Hw. unfold view in Hw. injection Hw as <- <- <- <- <-.
  exact P.
Qed.

Lemma triple_set_console_errors rs ce fr h q l
    (post : outcome unit -> View -> Prop) :
  post (Ok tt) (rs, l, fr, h, q) ->
  triple (rs, ce, fr, h, q) (set_console_errors l) post.
Proof.
  intros P w Hw. unfold view in Hw. injection Hw as <- <- <- <- <-.
  exact P.
Qed.

Lemma triple_hook_response rs ce fr h q
    (post : outcome unit -> View -> Prop) :
  post (Ok tt) (rs, ce, fr, h, true) ->
  triple (rs, ce, fr, h, q) hook_response post.
Proof.
  intros P w Hw. unfold view in Hw. injection Hw as <- <- <- <- <-.
  exact P.
Qed.

Lemma triple_hook_console rs ce fr h q
    (post : outcome unit -> View -> Prop) :
  post (Ok tt) (rs, ce, fr, true, q) ->
  triple (rs, ce, fr, h, q) hook_console post.
Proof.
  intros P w Hw. unfold view in Hw. injection Hw as <- <- <- <- <-.
  exact P.
Qed.

Lemma triple_gets_failed_requests rs ce fr h q
    (post : outcome (list string) -> View -> Prop) :
  post (Ok fr) (rs, ce, fr, h, q) ->
  triple (rs, ce, fr, h, q) (gets failed_requests) post.
Proof.
  intros P w Hw. unfold view in Hw. injection Hw as <- <- <- <- <-.
  exact P.
Qed.

Lemma triple_gets_console_errors rs ce fr h q
    (post : outcome (list string) -> View -> Prop) :
  post (Ok ce) (rs, ce, fr, h, q) ->
  triple (rs, ce, fr, h, q) (gets console_errors) post.
Proof.
  intros P w Hw. unfold view in Hw. injection Hw as <- <- <- <- <-.
  exact P.
Qed.

(** The handlers append what the events carry, each when it is
    registered. *)
Lemma view_hear evs w :
  view (hear evs w)
  = (results w,
     (console_errors w
      ++ if console_hooked w then error_texts evs else [])%list,
     (failed_requests w
      ++ if response_hooked w then failed_lines evs else [])%list,
     console_hooked w, response_hooked w).
Proof.
  unfold hear. revert w. induction evs as [|ev evs IH]; intros w.
  - simpl. unfold view.
    destruct (console_hooked w), (response_hooked w);
      now rewrite !app_nil_r.
  - simpl for_each. rewrite bind_snd.
    destruct (returns_deliver ev w) as ([] & ->). rewrite IH.
    unfold deliver, on_console, log_response.
    destruct ev as [ty tx|u st]; simpl error_texts; simpl failed_lines.
    + destruct (console_hooked w) eqn:H; cbn [snd].
      * destruct (ty =? "error")%string; cbn; rewrite ?H;
          now rewrite <- ?app_assoc.
      * now rewrite H.
    + destruct (response_hooked w) eqn:H; cbn [snd].
      * destruct (st >=? 400); cbn; rewrite ?H; now rewrite <- ?app_assoc.
      * now rewrite H.
Qed.

Lemma triple_call {A} rs (ce fr : list string) (h q : bool) (s : step A)
    (post : outcome A -> View -> Prop) :
  post (answer s)
    (rs, (ce ++ if h then error_texts (events s) else [])%list,
     (fr ++ if q then failed_lines (events s) else [])%list, h, q) ->
  triple (rs, ce, fr, h, q) (call s) post.
Proof.
  intros P w Hw. unfold call. rewrite bind_fst, bind_snd.
  destruct (returns_hear (events s) w) as ([] & ->). cbn [raw fst snd].
  fold (hear (events s) w). rewrite view_hear.
  unfold view in Hw. injection Hw as <- <- <- <- <-. exact P.
Qed.

Lemma triple_call_screenshot rs (ce fr : list string) (h q : bool) path
    (s : step unit)
    (post : outcome unit -> View -> Prop) :
  post (answer s)
    (rs, (ce ++ if h then error_texts (events s) else [])%list,
     (fr ++ if q then failed_lines (events s) else [])%list, h, q) ->
  triple (rs, ce, fr, h, q) (call_screenshot path s) post.
Proof.
  intros P w Hw. unfold call_screenshot. rewrite bind_fst, bind_snd.
  destruct (returns_hear (events s) w) as ([] & ->).
  fold (hear (events s) w).
  assert (V : view (snd (screenshot path (answer s) (hear (events s) w)))
              = view (hear (events s) w)).
  { unfold screenshot. now destruct (answer s) as [[]|ex]. }
  assert (F : fst (screenshot path (answer s) (hear (events s) w))
              = answer s).
  { unfold screenshot. now destruct (answer s) as [[]|ex]. }
  rewrite V, F, view_hear.
  unfold view in Hw. injection Hw as <- <- <- <- <-. exact P.
Qed.

Lemma error_texts_app a b :
  error_texts (a ++ b) = (error_texts a ++ error_texts b)%list.
Proof. unfold error_texts. apply flat_map_app. Qed.

Lemma no_error_texts evs :
  negb (existsb is_console_error evs)
  = match error_texts evs with [] => true | _ :: _ => false end.
Proof.
  induction evs as [|ev evs IH]; [reflexivity|].
  simpl. destruct ev as [ty tx|u st]; simpl.
  - destruct (ty =? "error")%string; [reflexivity | exact IH].
  - exact IH.
Qed.

(** Works backwards through a computation, one rule per construct; a
    driver call is split on its answer. *)
Ltac wp :=
  repeat
    (cbv beta iota zeta; cbn [app];
     match goal with
     | |- triple _ (bind _ _) _ => apply triple_bind
     | |- triple _ (try_except _ _) _ => apply triple_try_except
     | |- triple _ (try_finally _ (browser_close _)) _ =>
         apply triple_try_finally_close
     | |- triple _ (with_sync_playwright _) _ =>
         apply triple_with_sync_playwright
     | |- triple _ (print _) _ => apply triple_print
     | |- triple _ (ret _) _ => apply triple_ret
     | |- triple _ (for_each _ (fun _ => print _)) _ =>
         apply triple_for_each_print
     | |- triple _ (results_append _ _) _ => apply triple_results_append
     | |- triple _ (set_failed_requests _) _ =>
         apply triple_set_failed_requests
     | |- triple _ (set_console_errors _) _ =>
         apply triple_set_console_errors
     | |- triple _ hook_response _ => apply triple_hook_response
     | |- triple _ hook_console _ => apply triple_hook_console
     | |- triple _ (gets failed_requests) _ =>
         apply triple_gets_failed_requests
     | |- triple _ (gets console_errors) _ =>
         apply triple_gets_console_errors
     | |- triple _ (match ?x with [] => _ | _ :: _ => _ end) _ =>
         let H := fresh "H" in destruct x eqn:H
     | |- triple _ (call ?s) _ =>
         apply triple_call; destruct (answer s) as [?|?]
     | |- triple _ (call_screenshot _ ?s) _ =>
         apply triple_call_screenshot; destruct (answer s) as [?|?]
     end).

Lemma guarded_view e rs0 ce0 fr0 h0 q0 :
  triple (rs0, ce0, fr0, h0, q0) (guarded e)
    (fun r v =>
       fst (fst (fst (fst v))) = (rs0 ++ recorded e ++ handler_entry e)%list).
Proof.
  unfold guarded, checks, test_1_home, test_2_elements, test_3_api,
    test_4_responsive, test_5_resources, test_6_javascript.
  unfold recorded, handler_entry, try_failure, failure, home_entry,
    api_entry, resource_entry.
  set (js := js_entry e).
  wp.
  all: cbv beta iota zeta; cbn [fst].
  all: rewrite <- ?app_assoc; cbn [app].
  all: try reflexivity.
  all: destruct (page_url e =? "http://localhost:3000/")%string;
    try reflexivity.
  all: subst js; unfold js_entry; rewrite no_error_texts; unfold all_events;
    rewrite !error_texts_app;
    match goal with
    | H : (_ ++ error_texts _)%list = _ |- _ =>
        rewrite <- !app_assoc in H; rewrite H
    end;
    reflexivity.
Qed.

(** The entries a run records: none when the browser or the page could
    not be had, else those of the [try] statement. *)
Lemma session_results e w :
  results (snd (session e w))
  = match startup_failure e with
    | None => (results w ++ recorded e ++ handler_entry e)%list
    | Some _ => results w
    end.
Proof.
  destruct (startup_failure e) as [ex|] eqn:S.
  - now rewrite (session_not_started e ex w S).
  - rewrite (session_started e w S), with_sync_playwright_run. cbn [snd].
    cbn [exit_playwright snd results].
    exact (guarded_view e (results w) (console_errors w) (failed_requests w)
             (console_hooked w) (response_hooked w) w eq_refl).
Qed.

(** The result list of a run, in closed form. *)
Lemma run_results e :
  results (snd (run e))
  = match startup_failure e with
    | None => (recorded e ++ handler_entry e)%list
    | Some _ => []
    end.
Proof.
  destruct (run_result e) as (_ & -> & _). apply session_results.
Qed.

Lemma run_results_started e :
  startup_failure e = None ->
  results (snd (run e)) = (recorded e ++ handler_entry e)%list.
Proof. intros S. now rewrite run_results, S. Qed.

Lemma exit_status_run e :
  exit_status e
  = match escapes e with
    | None => exit_code (results (snd (run e)))
    | Some _ => 1
    end.
Proof.
  unfold exit_status. destruct (run_result e) as (-> & _).
  now destruct (escapes e).
Qed.

Lemma handler_entry_failed e ex :
  try_failure e = Some ex -> handler_entry e = [("测试执行", false)].
Proof. intros H. unfold handler_entry. now rewrite H. Qed.

Lemma escapes_None e :
  escapes e = None
  <-> launch e = Ok tt /\ new_page e = Ok tt /\ close e = Ok tt.
Proof.
  unfold escapes, startup_failure.
  destruct (launch e) as [[]|], (new_page e) as [[]|], (close e) as [[]|];
    cbn [or_else]; split; try discriminate;
    try (intros (? & ? & ?); discriminate); auto.
Qed.

(** C2 (amended).  The exit status of the script is 0 or 1.  It is 0
    exactly when no exception leaves [test_frontend], that is when the
    launch of the browser, the creation of the page and
    [browser.close()] answer, and every entry of the result list passed;
    it is 1 otherwise.  When no exception leaves the function the status
    is the value returned, and else the exception ends the process.  A
    status of 0 implies that no driver call up to the end of the [try]
    block raised. *)
Theorem exit_status_is_zero_iff_all_passed e :
  (exit_status e = 0 \/ exit_status e = 1)
  /\ (exit_status e = 0
      <-> escapes e = None
          /\ forall label passed,
               In (label, passed) (results (snd (run e))) -> passed = true)
  /\ (escapes e = None
      <-> launch e = Ok tt /\ new_page e = Ok tt /\ close e = Ok tt)
  /\ (escapes e = None -> fst (run e) = Ok (exit_status e))
  /\ (forall ex, escapes e = Some ex -> fst (run e) = Raise ex)
  /\ (exit_status e = 0 -> first_failure e = None).
Proof.
  assert (A : forall rs : list (string * bool),
             forallb snd rs = true
             <-> forall label passed, In (label, passed) rs -> passed = true).
  { intros rs. rewrite forallb_forall. split.
    - intros H label passed Hin. exact (H _ Hin).
    - intros H [label passed] Hin. exact (H _ _ Hin). }
  assert (Z : exit_status e = 0
              <-> escapes e = None
                  /\ forall label passed,
                       In (label, passed) (results (snd (run e))) ->
                       passed = true).
  { rewrite exit_status_run, <- A. destruct (escapes e).
    - split; [discriminate | now intros (? & _)].
    - rewrite (proj2 (exit_code_spec _)). split; [now split | now intros (_ & ?)]. }
  split; [| split; [exact Z | split; [apply escapes_None | split; [| split]]]].
  - rewrite exit_status_run. destruct (escapes e); [now right|].
    apply exit_code_spec.
  - intros E. rewrite exit_status_run.
    destruct (run_result e) as (-> & _). now rewrite E.
  - intros ex E. destruct (run_result e) as (-> & _). now rewrite E.
  - intros H. apply Z in H. destruct H as (E & H).
    assert (S : startup_failure e = None).
    { unfold escapes in E. now destruct (startup_failure e). }
    apply first_failure_None. split; [exact S|].
    destruct (try_failure e) as [ex|] eqn:F; [|reflexivity].
    specialize (H "测试执行" false).
    rewrite (run_results_started e S), (handler_entry_failed e ex F) in H.
    discriminate H. apply in_or_app. right. now left.
Qed.

(** C2 as stated fails: when every check passes and [browser.close()]
    raises in the [finally] clause, the seven entries recorded are all
    true, and yet the exception leaves the script, whose exit status is
    1; so it is when the page cannot be created, with no entry
    recorded. *)
Lemma all_checks_passed_and_status_one :
  results (snd (run close_fails))
  = [("首页访问", true); ("导航栏", true); ("认证按钮", true);
     ("API 代理", true); ("响应式设计", true); ("资源加载", true);
     ("JavaScript 无错误", true)]
  /\ fst (run close_fails) = Raise (Error "Connection closed")
  /\ exit_status close_fails = 1
  /\ results (snd (run no_page)) = []
  /\ fst (run no_page) = Raise (Error "Target closed")
  /\ exit_status no_page = 1.
Proof. repeat split; vm_compute; reflexivity. Qed.

(** C7 (amended).  When the browser is launched and the page created,
    and a driver call of the [try] block raises (the server is
    unreachable, a navigation times out), the exception is caught by the
    handler of the [try] statement: the result list ends with the failed
    entry of the handler, the browser is closed once, and the exit
    status is 1; the run returns 1 rather than raising, unless
    [browser.close()] raises in its turn. *)
Theorem infrastructure_error_fails_the_run e ex :
  startup_failure e = None ->
  try_failure e = Some ex ->
  results (snd (run e)) = (recorded e ++ [("测试执行", false)])%list
  /\ exit_status e = 1
  /\ closes (snd (run e)) = 1%nat
  /\ stops (snd (run e)) = 1%nat
  /\ (close e = Ok tt -> fst (run e) = Ok 1).
Proof.
  intros S F.
  assert (R : results (snd (run e)) = (recorded e ++ [("测试执行", false)])%list)
    by now rewrite (run_results_started e S), (handler_entry_failed e ex F).
  assert (C : exit_code (results (snd (run e))) = 1).
  { destruct (exit_code_spec (results (snd (run e)))) as ([H|H] & Z);
      [|exact H].
    exfalso. rewrite Z, R, forallb_app in H. simpl in H.
    rewrite andb_false_r in H. discriminate. }
  assert (X : exit_status e = 1).
  { rewrite exit_status_run. now destruct (escapes e). }
  destruct (run_result e) as (H1 & _ & H3 & H4). rewrite S in H3.
  split; [exact R|]. split; [exact X|]. split; [exact H3|].
  split; [exact H4|]. intros Hc.
  assert (E : escapes e = None).
  { apply escapes_None. apply startup_None in S. tauto. }
  rewrite H1, E, C. reflexivity.
Qed.

Lemma infrastructure_error_fails_the_run_witness :
  startup_failure server_unreachable = None
  /\ try_failure server_unreachable
     = Some (Error "net::ERR_CONNECTION_REFUSED")
  /\ fst (run server_unreachable) = Ok 1.
Proof.
  split; [reflexivity|]. split; [reflexivity|].
  exact (proj2 (proj2 (proj2 (proj2
    (infrastructure_error_fails_the_run server_unreachable
       (Error "net::ERR_CONNECTION_REFUSED") eq_refl eq_refl)))) eq_refl).
Defined.

(** C7 as stated fails: when the browser is launched and the page
    cannot be created, the exception is raised before the [try]
    statement and leaves the script; no entry is recorded, nothing is
    printed, and [browser.close()] is not called.  It is the same when
    the browser cannot be launched. *)
Lemma startup_error_is_not_caught :
  launch no_page = Ok tt
  /\ new_page no_page = Raise (Error "Target closed")
  /\ fst (run no_page) = Raise (Error "Target closed")
  /\ results (snd (run no_page)) = []
  /\ stdout (snd (run no_page)) = []
  /\ closes (snd (run no_page)) = 0%nat
  /\ fst (run no_browser) = Raise (Error "Executable doesn't exist")
  /\ results (snd (run no_browser)) = [].
Proof. repeat split; vm_compute; reflexivity. Qed.

(** The result list of a run in which no driver call of the [try] block
    raised: the seven checks, in order. *)
Lemma recorded_complete e :
  first_failure e = None ->
  handler_entry e = []
  /\ exists nav login_btn,
      answer (nav_count e) = Ok nav
      /\ answer (login_btn_count e) = Ok login_btn
      /\ recorded e
         = [home_entry e; ("导航栏", nav >? 0); ("认证按钮", login_btn >? 0);
            api_entry e; ("响应式设计", true); resource_entry e; js_entry e].
Proof.
  intros F. apply first_failure_None in F. destruct F as (_ & F).
  split; [unfold handler_entry; now rewrite F|].
  unfold try_failure, failure, recorded in *.
  destruct (answer (goto_home e)); [|discriminate].
  destruct (answer (title e)); [|discriminate].
  destruct (answer (shot_home e)); [|discriminate].
  destruct (answer (nav_count e)) as [nav|]; [|discriminate].
  destruct (answer (login_btn_count e)) as [login_btn|]; [|discriminate].
  destruct (answer (set_mobile e)); [|discriminate].
  destruct (answer (wait_networkidle e)); [|discriminate].
  destruct (answer (shot_mobile e)); [|discriminate].
  destruct (answer (set_desktop e)); [|discriminate].
  destruct (answer (reload e)); [|discriminate].
  now exists nav, login_btn.
Qed.

Lemma console_error_exists evs :
  existsb is_console_error evs = true
  <-> exists text, In (Console "error" text) evs.
Proof.
  rewrite existsb_exists. split.
  - intros ([ty tx|u st] & Hin & H); [|discriminate].
    apply String.eqb_eq in H. subst ty. now exists tx.
  - intros (tx & Hin). now exists (Console "error" tx).
Qed.

(** C10.  In a run in which no driver call up to the end of the [try]
    block raises (the GET of the health endpoint apart), the last entry
    of the result list is the JavaScript check, and it is
    false exactly when some driver call of the whole run, from the first
    navigation to the reload, delivered a console message of type
    "error"; no other entry carries its label. *)
Theorem javascript_check_sees_the_whole_run e :
  first_failure e = None ->
  (exists pre,
      results (snd (run e))
      = (pre ++ [("JavaScript 无错误",
                  negb (existsb is_console_error (all_events e)))])%list
      /\ Forall (fun r => fst r <> "JavaScript 无错误") pre)
  /\ (In ("JavaScript 无错误", false) (results (snd (run e)))
      <-> exists text, In (Console "error" text) (all_events e))
  /\ (In ("JavaScript 无错误", true) (results (snd (run e)))
      <-> forall text, ~ In (Console "error" text) (all_events e)).
Proof.
  intros F.
  rewrite (run_results_started e (proj1 (proj1 (first_failure_None e) F))).
  destruct (recorded_complete e F) as (-> & nav & login_btn & _ & _ & ->).
  rewrite app_nil_r.
  assert (P : Forall (fun r : string * bool => fst r <> "JavaScript 无错误")
                [home_entry e; ("导航栏", nav >? 0);
                 ("认证按钮", login_btn >? 0); api_entry e;
                 ("响应式设计", true); resource_entry e]).
  { repeat constructor; simpl; discriminate. }
  assert (I : forall b,
             In ("JavaScript 无错误", b)
               [home_entry e; ("导航栏", nav >? 0);
                ("认证按钮", login_btn >? 0); api_entry e;
                ("响应式设计", true); resource_entry e; js_entry e]
             <-> negb (existsb is_console_error (all_events e)) = b).
  { intros b. split.
    - intros H. change (In ("JavaScript 无错误", b)
                          ([home_entry e; ("导航栏", nav >? 0);
                            ("认证按钮", login_btn >? 0); api_entry e;
                            ("响应式设计", true); resource_entry e]
                           ++ [js_entry e])%list) in H.
      apply in_app_or in H. destruct H as [H|[H|[]]].
      + rewrite Forall_forall in P. now destruct (P _ H).
      + unfold js_entry in H. now injection H.
    - intros <-. do 6 right. now left. }
  split; [| split].
  - eexists. split; [|exact P]. reflexivity.
  - rewrite I, negb_false_iff. apply console_error_exists.
  - rewrite I, negb_true_iff, <- not_true_iff_false, console_error_exists.
    split.
    + intros H text Hin. apply H. now exists text.
    + intros H (text & Hin). exact (H text Hin).
Qed.

Lemma javascript_check_sees_the_whole_run_witness :
  first_failure early_console_error = None
  /\ In ("JavaScript 无错误", false) (results (snd (run early_console_error))).
Proof.
  split; [reflexivity|].
  apply (proj1 (proj2 (javascript_check_sees_the_whole_run
                         early_console_error eq_refl))).
  exists "Uncaught TypeError: x is undefined". simpl. tauto.
Defined.

(** ** The API check *)

Lemma others_app a b : others (a ++ b) = (others a ++ others b)%list.
Proof. unfold others. apply filter_app. Qed.

(** Changing the status of the health endpoint changes the API entry
    and nothing else of what the [try] block records. *)
Lemma recorded_with_health_status e status :
  others (recorded (with_health_status e status)) = others (recorded e)
  /\ handler_entry (with_health_status e status) = handler_entry e.
Proof.
  split; [|reflexivity].
  unfold recorded. cbn [with_health_status goto_home title shot_home
    nav_count login_btn_count set_mobile wait_networkidle shot_mobile
    set_desktop reload].
  change (js_entry (with_health_status e status)) with (js_entry e).
  change (resource_entry (with_health_status e status))
    with (resource_entry e).
  change (home_entry (with_health_status e status)) with (home_entry e).
  destruct (answer (goto_home e)), (answer (title e)); try reflexivity.
  destruct (answer (shot_home e)), (answer (nav_count e)); try reflexivity.
  destruct (answer (login_btn_count e)); reflexivity.
Qed.

Lemma api_entries_of_recorded e passed :
  In ("API 代理", passed) (recorded e ++ handler_entry e) ->
  passed = snd (api_entry e).
Proof.
  intros H. apply in_app_or in H. destruct H as [H|H].
  - unfold recorded, home_entry, resource_entry, js_entry in H.
    repeat match type of H with
           | In _ (match ?x with _ => _ end) => destruct x
           | In _ (_ :: _) => destruct H as [H|H]; [try discriminate H|]
           | In _ [] => destruct H
           end.
    all: unfold api_entry in *; now injection H.
  - unfold handler_entry in H. destruct (try_failure e); [|destruct H].
    destruct H as [H|[]]. discriminate H.
Qed.

Lemma api_entry_reached e :
  reaches_api e -> In (api_entry e) (recorded e).
Proof.
  unfold reaches_api, failure, recorded.
  intros (_ & H1 & H2 & H3 & H4 & H5).
  destruct (answer (goto_home e)); [|discriminate].
  destruct (answer (title e)); [|discriminate].
  destruct (answer (shot_home e)); [|discriminate].
  destruct (answer (nav_count e)); [|discriminate].
  destruct (answer (login_btn_count e)); [|discriminate].
  do 3 right. now left.
Qed.

(** C5.  When the health endpoint answers with a status other than 200
    (503, say), every API entry of the result list is false, there is
    one as soon as the driver calls before the GET have answered, and
    the other entries are those of the run in which the endpoint
    answers any other status. *)
Theorem api_proxy_failure_is_isolated e status :
  status <> 200 ->
  answer (health e) = Ok status ->
  (forall passed,
      In ("API 代理", passed) (results (snd (run e))) -> passed = false)
  /\ (reaches_api e -> In ("API 代理", false) (results (snd (run e))))
  /\ (forall status',
        others (results (snd (run (with_health_status e status'))))
        = others (results (snd (run e)))).
Proof.
  intros Hs Hh.
  assert (A : api_entry e = ("API 代理", false)).
  { unfold api_entry. rewrite Hh. f_equal. now apply Z.eqb_neq. }
  split; [| split].
  - intros passed H. rewrite run_results in H.
    destruct (startup_failure e); [destruct H|].
    apply api_entries_of_recorded in H. now rewrite A in H.
  - intros R. rewrite (run_results_started e (proj1 R)), <- A.
    apply in_or_app. left. now apply api_entry_reached.
  - intros status'. rewrite !run_results.
    change (startup_failure (with_health_status e status'))
      with (startup_failure e).
    destruct (startup_failure e); [reflexivity|].
    rewrite !others_app.
    destruct (recorded_with_health_status e status') as (-> & ->).
    reflexivity.
Qed.

Lemma api_proxy_failure_is_isolated_witness :
  answer (health backend_down) = Ok 503
  /\ In ("API 代理", false) (results (snd (run backend_down)))
  /\ others (results (snd (run healthy)))
     = others (results (snd (run backend_down))).
Proof.
  split; [reflexivity|].
  pose proof (api_proxy_failure_is_isolated backend_down 503
                ltac:(discriminate) eq_refl) as (_ & H2 & H3).
  split.
  - apply H2. repeat split.
  - exact (H3 200).
Defined.
End FrontendFacts.

(* ================================================================== *)
(** * Closing the browser *)
(* ================================================================== *)

Lemma stops_with_sync_playwright {A} (body : M A) :
  steps (keeps stops) body ->
  stops (snd (with_sync_playwright body initial)) = 1%nat.
Proof.
  intros H. rewrite with_sync_playwright_run. cbn [snd exit_playwright stops].
  now rewrite (H initial).
Qed.

Ltac keeps_basic f :=
  repeat
    (cbv beta zeta;
     match goal with
     | |- steps _ (screenshot _ _) =>
         apply keeps_screenshot; intros ?; reflexivity
     | |- steps _ (print _) => intros ?; reflexivity
     | |- steps _ (browser_close _) => intros ?; reflexivity
     | |- steps _ _ => progress split_steps (keeps_refl f) (keeps_trans f)
     end).

Module CloseFacts.

Lemma responsive_stops e : stops (snd (Responsive.run e)) = 1%nat.
Proof.
  unfold Responsive.run, Responsive.test_responsive_design.
  apply stops_with_sync_playwright.
  unfold Responsive.login, Responsive.matrix, Responsive.summary,
    Responsive.check_device.
  keeps_basic stops.
  unfold Responsive.check_page, Responsive.check_layout,
    Responsive.check_scroll, Responsive.check_sidebar,
    Responsive.check_main, Responsive.check_cards,
    Responsive.check_buttons, Responsive.take_screenshot.
  keeps_basic stops.
  apply (ResponsiveFacts.steps_count_small _ (keeps_refl stops)).
Qed.

Ltac unfold_ui :=
  unfold UIDesign.test_login_page, UIDesign.login, UIDesign.after_login,
    UIDesign.test_home, UIDesign.test_profile, UIDesign.test_market,
    UIDesign.test_subscription, UIDesign.test_hot_products,
    UIDesign.test_favorites, UIDesign.test_global,
    UIDesign.save_screenshots, UIDesign.summary.

Lemma ui_summary_returns : returns UIDesign.summary.
Proof.
  unfold UIDesign.summary.
  repeat (apply returns_bind; [apply returns_print | intros _]).
  apply returns_print.
Qed.

Lemma ui_design_stops e : stops (snd (UIDesign.run e)) = 1%nat.
Proof.
  unfold UIDesign.run, UIDesign.test_ui_design.
  apply stops_with_sync_playwright. unfold_ui. keeps_basic stops.
Qed.

End CloseFacts.

(* ================================================================== *)
(** * The login timeout *)
(* ================================================================== *)

Module LoginFacts.

Lemma responsive_login_timeout e ex w :
  Responsive.login_goto e = Ok tt ->
  Responsive.login_networkidle e = Ok tt ->
  Responsive.fill_phone e = Ok tt ->
  Responsive.fill_code e = Ok tt ->
  Responsive.click_login e = Ok tt ->
  Responsive.wait_for_url e = Raise ex ->
  Responsive.login e w
  = (Ok tt,
     snd (print "  ⚠️  登录可能失败，继续测试..."
            (snd (print (nl ++ "🔐 执行登录...") w)))).
Proof.
  intros H1 H2 H3 H4 H5 H6.
  unfold Responsive.login, bind, raw, try_except.
  now rewrite H1, H2, H3, H4, H5, H6.
Qed.

Lemma ui_login_timeout e ex w :
  UIDesign.fill_phone e = Ok tt ->
  UIDesign.fill_code e = Ok tt ->
  UIDesign.click_login e = Ok tt ->
  UIDesign.wait_for_url e = Raise ex ->
  UIDesign.login e w
  = (Ok tt,
     snd (print "  ⚠️  登录可能失败，继续测试..."
            (snd (print (nl ++ "🔐 执行登录...") w)))).
Proof.
  intros H1 H2 H3 H4.
  unfold UIDesign.login, bind, raw, try_except.
  now rewrite H1, H2, H3, H4.
Qed.

Lemma bind_print {B} s (k : unit -> M B) w :
  bind (print s) k w = k tt (snd (print s w)).
Proof. reflexivity. Qed.

Lemma bind_raw_Ok {A B} (o : outcome A) a (k : A -> M B) w :
  o = Ok a -> bind (raw o) k w = k a w.
Proof. intros ->. reflexivity. Qed.

Lemma with_sync_playwright_from {A} (body rest : M A) w w' :
  body w = rest w' ->
  with_sync_playwright body w = with_sync_playwright rest w'.
Proof. intros E. rewrite !with_sync_playwright_run. now rewrite E. Qed.

(** ** What has been printed stays printed *)

Lemma grows_keeps_stdout {A} (m : M A) :
  (forall w, stdout (snd (m w)) = stdout w) ->
  steps (grows stdout any_line) m.
Proof.
  intros H w. exists []. split; [now rewrite H, app_nil_r | constructor].
Qed.

Ltac prints_more :=
  repeat
    (cbv beta zeta;
     match goal with
     | |- steps _ (Responsive.count_small _ _) =>
         apply (ResponsiveFacts.steps_count_small _
                  (grows_refl stdout any_line))
     | |- steps _ (screenshot _ _) =>
         apply ResponsiveFacts.grows_stdout_screenshot
     | |- steps _ (print _) => apply ResponsiveFacts.grows_print; exact I
     | |- steps _ (browser_close _) =>
         apply grows_keeps_stdout; reflexivity
     | |- steps _ exit_playwright => apply grows_keeps_stdout; reflexivity
     | |- steps _ _ =>
         progress split_steps (grows_refl stdout any_line)
                    (grows_trans stdout any_line)
     end).

Lemma still_printed {A} (m : M A) l w :
  steps (grows stdout any_line) m ->
  In l (stdout w) -> In l (stdout (snd (m w))).
Proof.
  intros H Hin. destruct (H w) as (more & -> & _).
  apply in_or_app. now left.
Qed.

Lemma responsive_rest_prints_more e :
  steps (grows stdout any_line)
    (with_sync_playwright
       (Responsive.matrix e ;; browser_close (Responsive.close e) ;;
        Responsive.summary)).
Proof.
  unfold with_sync_playwright, Responsive.matrix, Responsive.check_device,
    Responsive.summary.
  prints_more.
  unfold Responsive.check_page, Responsive.check_layout,
    Responsive.check_scroll, Responsive.check_sidebar,
    Responsive.check_main, Responsive.check_cards,
    Responsive.check_buttons, Responsive.take_screenshot.
  prints_more.
Qed.

Lemma ui_rest_prints_more e :
  steps (grows stdout any_line)
    (with_sync_playwright
       (UIDesign.after_login e ;; browser_close (UIDesign.close e) ;;
        UIDesign.summary)).
Proof.
  unfold with_sync_playwright. CloseFacts.unfold_ui. prints_more.
Qed.

(** C3.  When the wait for the landing route raises (the 5000 ms
    timeout), the login step of either script catches the exception,
    prints the warning line and returns normally, and the run is what
    the rest of the script does from there: the device matrix, the
    close and the summary in the responsive script; the page checks,
    the screenshots, the close and the summary in the UI-design script.
    The warning is in the output of the run however it goes on. *)
Theorem login_timeout_is_not_fatal
    (re : Responsive.env) (ue : UIDesign.env) (ex1 ex2 : exn) (w1 : world) :
  Responsive.launch re = Ok tt ->
  Responsive.new_page re = Ok tt ->
  Responsive.login_goto re = Ok tt ->
  Responsive.login_networkidle re = Ok tt ->
  Responsive.fill_phone re = Ok tt ->
  Responsive.fill_code re = Ok tt ->
  Responsive.click_login re = Ok tt ->
  Responsive.wait_for_url re = Raise ex1 ->
  UIDesign.launch ue = Ok tt ->
  UIDesign.new_page ue = Ok tt ->
  UIDesign.test_login_page ue
    (snd (print (times "=" 60)
            (snd (print (nl ++ "🎨 开始测试 FlashSell 新 UI 设计...") initial))))
  = (Ok tt, w1) ->
  UIDesign.fill_phone ue = Ok tt ->
  UIDesign.fill_code ue = Ok tt ->
  UIDesign.click_login ue = Ok tt ->
  UIDesign.wait_for_url ue = Raise ex2 ->
  let warning := "  ⚠️  登录可能失败，继续测试..." in
  (forall w,
      Responsive.login re w
      = (Ok tt, snd (print warning (snd (print (nl ++ "🔐 执行登录...") w)))))
  /\ Responsive.run re
     = with_sync_playwright
         (Responsive.matrix re ;; browser_close (Responsive.close re) ;;
          Responsive.summary)
         (snd (print warning
                 (snd (print (nl ++ "🔐 执行登录...")
                         (snd (print (times "=" 70)
                                 (snd (print (nl ++ "📱 开始测试响应式设计...")
                                         initial))))))))
  /\ In warning (stdout (snd (Responsive.run re)))
  /\ (forall w,
        UIDesign.login ue w
        = (Ok tt,
           snd (print warning (snd (print (nl ++ "🔐 执行登录...") w)))))
  /\ UIDesign.run ue
     = with_sync_playwright
         (UIDesign.after_login ue ;; browser_close (UIDesign.close ue) ;;
          UIDesign.summary)
         (snd (print warning (snd (print (nl ++ "🔐 执行登录...") w1))))
  /\ In warning (stdout (snd (UIDesign.run ue))).
Proof.
  intros R01 R02 R1 R2 R3 R4 R5 R6 U01 U02 U0 U1 U2 U3 U4 warning.
  assert (RR : Responsive.run re
               = with_sync_playwright
                   (Responsive.matrix re ;;
                    browser_close (Responsive.close re) ;;
                    Responsive.summary)
                   (snd (print warning
                           (snd (print (nl ++ "🔐 执行登录...")
                                   (snd (print (times "=" 70)
                                           (snd (print (nl ++ "📱 开始测试响应式设计...")
                                                   initial))))))))).
  { unfold Responsive.run, Responsive.test_responsive_design.
    apply with_sync_playwright_from.
    rewrite (bind_raw_Ok _ tt _ _ R01), (bind_raw_Ok _ tt _ _ R02).
    rewrite !bind_print.
    now rewrite (bind_Ok _ _ _ tt _
                   (responsive_login_timeout re ex1 _ R1 R2 R3 R4 R5 R6)). }
  assert (UR : UIDesign.run ue
               = with_sync_playwright
                   (UIDesign.after_login ue ;;
                    browser_close (UIDesign.close ue) ;;
                    UIDesign.summary)
                   (snd (print warning
                           (snd (print (nl ++ "🔐 执行登录...") w1))))).
  { unfold UIDesign.run, UIDesign.test_ui_design.
    apply with_sync_playwright_from.
    rewrite (bind_raw_Ok _ tt _ _ U01), (bind_raw_Ok _ tt _ _ U02).
    rewrite !bind_print.
    rewrite (bind_Ok _ _ _ tt _ U0).
    now rewrite (bind_Ok _ _ _ tt _ (ui_login_timeout ue ex2 _ U1 U2 U3 U4)). }
  split; [| split; [exact RR | split; [| split; [| split; [exact UR|]]]]].
  - intros w. now apply responsive_login_timeout with (ex := ex1).
  - rewrite RR. apply still_printed; [apply responsive_rest_prints_more|].
    cbn [print snd stdout]. apply in_or_app. right. now left.
  - intros w. now apply ui_login_timeout with (ex := ex2).
  - rewrite UR. apply still_printed; [apply ui_rest_prints_more|].
    cbn [print snd stdout]. apply in_or_app. right. now left.
Qed.

Lemma login_timeout_is_not_fatal_witness :
  Responsive.wait_for_url Responsive.login_times_out
  = Raise (TimeoutError "Timeout 5000ms exceeded.")
  /\ UIDesign.wait_for_url UIDesign.login_times_out
     = Raise (TimeoutError "Timeout 5000ms exceeded.")
  /\ In "  ⚠️  登录可能失败，继续测试..."
       (stdout (snd (Responsive.run Responsive.login_times_out)))
  /\ In "  ⚠️  登录可能失败，继续测试..."
       (stdout (snd (UIDesign.run UIDesign.login_times_out))).
Proof.
  split; [reflexivity | split; [reflexivity|]].
  pose proof
    (login_timeout_is_not_fatal Responsive.login_times_out
       UIDesign.login_times_out
       (TimeoutError "Timeout 5000ms exceeded.")
       (TimeoutError "Timeout 5000ms exceeded.")
       (snd (UIDesign.test_login_page UIDesign.login_times_out
               (snd (print (times "=" 60)
                       (snd (print (nl ++ "🎨 开始测试 FlashSell 新 UI 设计...")
                               initial))))))
       eq_refl eq_refl eq_refl eq_refl eq_refl eq_refl eq_refl eq_refl
       eq_refl eq_refl
       ltac:(vm_compute; reflexivity)
       eq_refl eq_refl eq_refl eq_refl) as H.
  split; [exact (proj1 (proj2 (proj2 H)))|].
  exact (proj2 (proj2 (proj2 (proj2 (proj2 H))))).
Defined.

(** The runs of the two sample environments with a login timeout do end
    normally, with every screenshot taken. *)
Lemma timed_out_runs_complete :
  fst (Responsive.run Responsive.login_times_out) = Ok tt
  /\ List.length (files (snd (Responsive.run Responsive.login_times_out)))
     = 36%nat
  /\ fst (UIDesign.run UIDesign.login_times_out) = Ok tt
  /\ List.length (files (snd (UIDesign.run UIDesign.login_times_out)))
     = 2%nat.
Proof. repeat split; vm_compute; reflexivity. Qed.

End LoginFacts.

(* ================================================================== *)
(** * Following one reading of the state *)
(* ================================================================== *)

Section Watching.

Context {X : Type} (obs : world -> X).

Lemma watch_bind {A B} v (m : M A) (k : A -> M B) post :
  watch obs v m
    (fun r v' =>
       match r with
       | Ok a => watch obs v' (k a) post
       | Raise ex => post (Raise ex) v'
       end) ->
  watch obs v (bind m k) post.
Proof.
  intros H w Hw. specialize (H w Hw). unfold bind.
  destruct (m w) as [[a|ex] w1]; cbn [fst snd] in *; [now apply H | exact H].
Qed.

Lemma watch_try_except {A} v (m : M A) h post :
  watch obs v m
    (fun r v' =>
       match r with
       | Ok a => post (Ok a) v'
       | Raise ex => watch obs v' (h ex) post
       end) ->
  watch obs v (try_except m h) post.
Proof.
  intros H w Hw. specialize (H w Hw). unfold try_except.
  destruct (m w) as [[a|ex] w1]; cbn [fst snd] in *; [exact H | now apply H].
Qed.

Lemma watch_try_finally {A} v (m : M A) (f : M unit) post :
  always (Ok tt) f -> steps (keeps obs) f ->
  watch obs v m post -> watch obs v (try_finally m f) post.
Proof.
  intros Hf Kf H w Hw. specialize (H w Hw). unfold try_finally.
  destruct (m w) as [r w1]. specialize (Hf w1). specialize (Kf w1).
  destruct (f w1) as [[u|ex] w2]; cbn [fst snd] in *; [|discriminate].
  unfold keeps in Kf. now rewrite Kf.
Qed.

(** The same for a cleanup that may raise, when only the reading
    matters. *)
Lemma watch_try_finally_reading {A} v (m : M A) (f : M unit)
    (post : X -> Prop) :
  steps (keeps obs) f ->
  watch obs v m (fun _ v' => post v') ->
  watch obs v (try_finally m f) (fun _ v' => post v').
Proof.
  intros Kf H w Hw. specialize (H w Hw). unfold try_finally.
  destruct (m w) as [r w1]. specialize (Kf w1).
  destruct (f w1) as [[u|ex] w2]; cbn [fst snd] in *;
    unfold keeps in Kf; now rewrite Kf.
Qed.

(** A computation that returns [a] whatever the state and leaves the
    reading alone. *)
Lemma watch_quiet {A} v (m : M A) a (post : outcome A -> X -> Prop) :
  always (Ok a) m -> steps (keeps obs) m ->
  post (Ok a) v -> watch obs v m post.
Proof.
  intros Ha Hk P w Hw. rewrite (Ha w).
  specialize (Hk w). unfold keeps in Hk. now rewrite Hk, Hw.
Qed.

(** A computation that returns [r] whatever the state and leaves the
    reading alone. *)
Lemma watch_known {A} v (m : M A) r (post : outcome A -> X -> Prop) :
  always r m -> steps (keeps obs) m ->
  post r v -> watch obs v m post.
Proof.
  intros Ha Hk P w Hw. rewrite (Ha w).
  specialize (Hk w). unfold keeps in Hk. now rewrite Hk, Hw.
Qed.

(** A computation that leaves the reading alone, whatever it returns. *)
Lemma watch_any {A} v (m : M A) (post : outcome A -> X -> Prop) :
  steps (keeps obs) m -> (forall r, post r v) -> watch obs v m post.
Proof.
  intros Hk P w Hw. specialize (Hk w). unfold keeps in Hk.
  rewrite Hk, Hw. apply P.
Qed.

End Watching.

(* ================================================================== *)
(** * More on the aggregate script *)
(* ================================================================== *)

Module FrontendMore.
Import Frontend.

Lemma complete_run_results e :
  first_failure e = None ->
  exists nav login_btn,
    answer (nav_count e) = Ok nav
    /\ answer (login_btn_count e) = Ok login_btn
    /\ results (snd (run e))
       = [("首页访问", (page_url e =? "http://localhost:3000/")%string);
          ("导航栏", nav >? 0);
          ("认证按钮", login_btn >? 0);
          ("API 代理",
           match answer (health e) with
           | Ok status => status =? 200
           | Raise _ => false
           end);
          ("响应式设计", true);
          ("资源加载",
           match failed_lines (events (reload e)) with
           | [] => true
           | _ :: _ => false
           end);
          ("JavaScript 无错误",
           negb (existsb is_console_error (all_events e)))].
Proof.
  intros F.
  rewrite (FrontendFacts.run_results_started e
             (proj1 (proj1 (FrontendFacts.first_failure_None e) F))).
  destruct (FrontendFacts.recorded_complete e F)
    as (-> & nav & login_btn & H1 & H2 & ->).
  exists nav, login_btn. rewrite app_nil_r. now repeat split.
Qed.

(** A run of [test_frontend] in which no driver call up to the end of
    the [try] block raises (the GET of the health endpoint apart)
    records exactly the seven checks, in source order: the home
    entry is true exactly when [page.url] is the root URL with its
    slash, the two element checks when the counts are positive, the API
    entry when the GET answered 200, the responsive entry always, the
    resource entry when the reload delivered no response with status
    400 or more, the JavaScript entry when no console error was
    delivered. *)
Theorem complete_run_records_seven_checks e :
  first_failure e = None ->
  exists nav login_btn,
    answer (nav_count e) = Ok nav
    /\ answer (login_btn_count e) = Ok login_btn
    /\ results (snd (run e))
       = [("首页访问", (page_url e =? "http://localhost:3000/")%string);
          ("导航栏", nav >? 0);
          ("认证按钮", login_btn >? 0);
          ("API 代理",
           match answer (health e) with
           | Ok status => status =? 200
           | Raise _ => false
           end);
          ("响应式设计", true);
          ("资源加载",
           match failed_lines (events (reload e)) with
           | [] => true
           | _ :: _ => false
           end);
          ("JavaScript 无错误",
           negb (existsb is_console_error (all_events e)))].
Proof. exact (complete_run_results e). Qed.

Lemma complete_run_records_seven_checks_witness :
  first_failure backend_down = None
  /\ List.length (results (snd (run backend_down))) = 7%nat.
Proof.
  split; [reflexivity|].
  destruct (complete_run_records_seven_checks backend_down eq_refl)
    as (nav & login_btn & _ & _ & ->).
  reflexivity.
Defined.

Lemma failed_lines_nil evs :
  failed_lines evs = []
  <-> forall u st, In (Response u st) evs -> st < 400.
Proof.
  induction evs as [|ev evs IH]; simpl.
  - split; [intros _ u st [] | reflexivity].
  - destruct ev as [ty tx|u st]; simpl.
    + rewrite IH. split.
      * intros H u st [E|Hin]; [discriminate | eauto].
      * intros H u st Hin. apply (H u st). now right.
    + destruct (st >=? 400) eqn:E.
      * split; [discriminate|]. intros H.
        specialize (H u st (or_introl eq_refl)). lia.
      * simpl. rewrite IH. split.
        -- intros H u' st' [E'|Hin]; [injection E' as <- <-; lia | eauto].
        -- intros H u' st' Hin. apply (H u' st'). now right.
Qed.

Lemma failed_lines_some evs :
  (exists u st, In (Response u st) evs /\ st >= 400)
  <-> failed_lines evs <> [].
Proof.
  induction evs as [|ev evs IH]; simpl.
  - split; [intros (u & st & [] & _) | congruence].
  - destruct ev as [ty tx|u st]; simpl.
    + rewrite <- IH. split.
      * intros (u & st & [E|Hin] & G); [discriminate | eauto].
      * intros (u & st & Hin & G). eauto.
    + destruct (st >=? 400) eqn:E.
      * split; [discriminate|]. intros _. exists u, st. split; [now left | lia].
      * simpl. rewrite <- IH. split.
        -- intros (u' & st' & [E'|Hin] & G);
             [injection E' as <- <-; lia | eauto].
        -- intros (u' & st' & Hin & G). eauto.
Qed.

(** In such a run the resource check fails exactly when a response with
    status 400 or more arrived during the reload: the handler is
    registered just before it, so responses of the earlier calls are
    not counted. *)
Theorem resource_check_watches_the_reload_only e :
  first_failure e = None ->
  (In ("资源加载", false) (results (snd (run e)))
   <-> exists u st, In (Response u st) (events (reload e)) /\ st >= 400)
  /\ (In ("资源加载", true) (results (snd (run e)))
      <-> forall u st, In (Response u st) (events (reload e)) -> st < 400).
Proof.
  intros F.
  destruct (complete_run_results e F)
    as (nav & login_btn & _ & _ & ->).
  assert (I : forall b,
             In ("资源加载", b)
               [("首页访问", (page_url e =? "http://localhost:3000/")%string);
                ("导航栏", nav >? 0); ("认证按钮", login_btn >? 0);
                ("API 代理",
                 match answer (health e) with
                 | Ok status => status =? 200
                 | Raise _ => false
                 end);
                ("响应式设计", true);
                ("资源加载",
                 match failed_lines (events (reload e)) with
                 | [] => true
                 | _ :: _ => false
                 end);
                ("JavaScript 无错误",
                 negb (existsb is_console_error (all_events e)))]
             <-> match failed_lines (events (reload e)) with
                 | [] => true
                 | _ :: _ => false
                 end = b).
  { intros b. split.
    - intros H. simpl in H.
      repeat (destruct H as [H|H]; [try discriminate H|]);
        [now injection H | destruct H].
    - intros <-. do 5 right. now left. }
  rewrite !I. rewrite <- failed_lines_nil, failed_lines_some.
  destruct (failed_lines (events (reload e))); split; split;
    congruence.
Qed.

Lemma resource_check_watches_the_reload_only_witness :
  first_failure healthy = None
  /\ In ("资源加载", true) (results (snd (run healthy))).
Proof.
  split; [reflexivity|].
  apply (proj2 (resource_check_watches_the_reload_only healthy eq_refl)).
  intros u st [].
Defined.

(** An exception of the GET of the health endpoint is caught by the
    handler of the API check: the entry is false, the later checks
    still run, the handler of the [try] block adds nothing, and the
    exit status is 1. *)
Theorem health_exception_fails_the_api_check_only e ex :
  answer (health e) = Raise ex ->
  first_failure e = None ->
  In ("API 代理", false) (results (snd (run e)))
  /\ ~ In ("测试执行", false) (results (snd (run e)))
  /\ List.length (results (snd (run e))) = 7%nat
  /\ exit_status e = 1.
Proof.
  intros H F.
  destruct (complete_run_results e F)
    as (nav & login_btn & _ & _ & R).
  rewrite H in R.
  assert (I : In ("API 代理", false) (results (snd (run e))))
    by (rewrite R; do 3 right; now left).
  split; [exact I|]. split; [| split].
  - rewrite R. simpl. intros X.
    repeat (destruct X as [X|X]; [discriminate X|]). destruct X.
  - now rewrite R.
  - rewrite FrontendFacts.exit_status_run.
    destruct (escapes e); [reflexivity|].
    destruct (FrontendFacts.exit_code_spec (results (snd (run e))))
      as ([Z|Z] & Y); [|exact Z].
    exfalso. rewrite Y, forallb_forall in Z.
    specialize (Z _ I). discriminate.
Qed.

(** ** The screenshots *)

Lemma keeps_files_call {A} (s : step A) : steps (keeps files) (call s).
Proof. FrontendFacts.keeps_front files. Qed.

Lemma watch_files_call {A} v (s : step A)
    (post : outcome A -> list string -> Prop) :
  post (answer s) v -> watch files v (call s) post.
Proof.
  intros P w Hw. rewrite (FrontendFacts.always_call s w).
  rewrite (keeps_files_call s w), Hw. exact P.
Qed.

Lemma watch_files_call_screenshot v path (s : step unit)
    (post : outcome unit -> list string -> Prop) :
  post (answer s)
    (match answer s with Ok _ => (v ++ [path])%list | Raise _ => v end) ->
  watch files v (call_screenshot path s) post.
Proof.
  intros P w Hw. rewrite (FrontendFacts.always_call_screenshot path s w).
  unfold call_screenshot. rewrite bind_snd.
  destruct (FrontendFacts.returns_hear (events s) w) as ([] & ->).
  assert (K : files (snd (for_each (events s) deliver w)) = files w).
  { apply (steps_for_each (keeps files) (keeps_refl files) (keeps_trans files)).
    intros ev. apply FrontendFacts.keeps_deliver; intros ? ?; reflexivity. }
  unfold screenshot. destruct (answer s) as [[]|ex]; cbn [snd files];
    now rewrite K, Hw.
Qed.

Lemma watch_gets {X Y} (obs : world -> X) v (f : world -> Y)
    (post : outcome Y -> X -> Prop) :
  (forall y, post (Ok y) v) -> watch obs v (gets f) post.
Proof. intros P w Hw. cbn [gets fst snd]. rewrite Hw. apply P. Qed.

Ltac quiet_files :=
  apply (watch_quiet files) with (a := tt);
  [ intros ?; reflexivity | intros ?; reflexivity | ].

Ltac follow_files :=
  repeat
    (cbv beta iota zeta;
     match goal with
     | |- watch _ _ (bind _ _) _ => apply watch_bind
     | |- watch _ _ (try_except _ _) _ => apply watch_try_except
     | |- watch _ _ (try_finally _ _) _ =>
         apply watch_try_finally_reading; [intros ?; reflexivity |]
     | |- watch _ _ (call ?s) _ =>
         apply watch_files_call; destruct (answer s) as [?|?]
     | |- watch _ _ (call_screenshot _ ?s) _ =>
         apply watch_files_call_screenshot; destruct (answer s) as [[]|?]
     | |- watch _ _ (gets _) _ => apply watch_gets; intros ?
     | |- watch _ _ (for_each _ (fun _ => print _)) _ =>
         apply (watch_quiet files) with (a := tt);
         [ apply returns_unit, returns_for_each; intros ?;
           apply returns_print
         | apply (steps_for_each _ (keeps_refl files) (keeps_trans files));
           intros ? ?; reflexivity
         | ]
     | |- watch _ _ (match ?x with [] => _ | _ :: _ => _ end) _ =>
         destruct x
     | |- watch _ _ (print _) _ => quiet_files
     | |- watch _ _ (results_append _ _) _ => quiet_files
     | |- watch _ _ (set_failed_requests _) _ => quiet_files
     | |- watch _ _ (set_console_errors _) _ => quiet_files
     | |- watch _ _ hook_response _ => quiet_files
     | |- watch _ _ hook_console _ => quiet_files
     end).

Lemma guarded_files e fs :
  watch files fs (guarded e) (fun _ fs' => fs' = (fs ++ written e)%list).
Proof.
  unfold guarded, checks, test_1_home,
    test_2_elements, test_3_api, test_4_responsive, test_5_resources,
    test_6_javascript, written.
  follow_files.
  all: cbv beta iota zeta; rewrite <- ?app_assoc, ?app_nil_r; reflexivity.
Qed.

Lemma session_files e w :
  files (snd (session e w))
  = match startup_failure e with
    | None => (files w ++ written e)%list
    | Some _ => files w
    end.
Proof.
  destruct (startup_failure e) as [ex|] eqn:S.
  - now rewrite (FrontendFacts.session_not_started e ex w S).
  - rewrite (FrontendFacts.session_started e w S), with_sync_playwright_run.
    cbn [exit_playwright snd files].
    exact (guarded_files e (files w) w eq_refl).
Qed.

Lemma run_files e :
  files (snd (run e))
  = match startup_failure e with
    | None => written e
    | Some _ => []
    end.
Proof.
  rewrite FrontendFacts.run_unfold.
  assert (F : files (snd (session e (snd (set_results [] initial))))
              = match startup_failure e with
                | None => written e
                | Some _ => []
                end)
    by (rewrite session_files; now destruct (startup_failure e)).
  destruct (escapes e); cbn [snd]; [exact F|].
  now rewrite (FrontendFacts.report_keeps files (fun _ _ => eq_refl) _).
Qed.

(** Whatever happens, the run writes its screenshots under two fixed
    paths of [/tmp], the home page first: none, the first, or both; and
    both when no driver call up to the end of the [try] block raises.
    The names do not vary from run to run. *)
Theorem screenshots_go_to_two_fixed_paths e :
  (exists n,
      files (snd (run e))
      = firstn n ["/tmp/flashsell-home.png"; "/tmp/flashsell-mobile.png"])
  /\ (first_failure e = None ->
      files (snd (run e))
      = ["/tmp/flashsell-home.png"; "/tmp/flashsell-mobile.png"])
  /\ (forall ex, failure (goto_home e) = Some ex -> files (snd (run e)) = []).
Proof.
  rewrite run_files.
  unfold written, first_failure, try_failure, startup_failure, failure.
  destruct (launch e), (new_page e);
    [| cbn [or_else];
       (split; [now exists 0%nat | split; [discriminate | reflexivity]]) ..].
  destruct (answer (goto_home e)), (answer (title e)),
    (answer (shot_home e)), (answer (nav_count e)),
    (answer (login_btn_count e)), (answer (set_mobile e)),
    (answer (wait_networkidle e)), (answer (shot_mobile e)),
    (answer (set_desktop e)), (answer (reload e)); cbn [or_else];
    (split; [| split; [try discriminate; try reflexivity
                      | intros ? ?; try discriminate; try reflexivity]]);
    first [ now exists 2%nat | now exists 1%nat | now exists 0%nat ].
Qed.

(** ** The summary *)






Lemma health_exception_fails_the_api_check_only_witness :
  answer (health backend_unreachable) = Raise (Error "connect ECONNREFUSED")
  /\ first_failure backend_unreachable = None
  /\ exit_status backend_unreachable = 1.
Proof.
  split; [reflexivity | split; [reflexivity|]].
  exact (proj2 (proj2 (proj2
    (health_exception_fails_the_api_check_only backend_unreachable
       (Error "connect ECONNREFUSED") eq_refl eq_refl)))).
Defined.

End FrontendMore.

(* ================================================================== *)
(** * More on the responsive script *)
(* ================================================================== *)

Module ResponsiveMore.
Import Responsive.

(** ** Files are written in matrix order *)

Lemma writes_nothing {A} (m : M A) :
  steps (keeps files) m -> writes_in_order [] m.
Proof.
  intros H w. specialize (H w). unfold keeps in H. split.
  - exists 0%nat. simpl. now rewrite app_nil_r.
  - intros a _. now rewrite app_nil_r.
Qed.

Lemma writes_screenshot path o : writes_in_order [path] (screenshot path o).
Proof.
  intros w. unfold screenshot. destruct o as [[]|ex]; cbn [fst snd files].
  - split; [now exists 1%nat | reflexivity].
  - split; [exists 0%nat; simpl; now rewrite app_nil_r | discriminate].
Qed.

Lemma writes_bind {A B} g1 g2 (m : M A) (k : A -> M B) :
  writes_in_order g1 m -> (forall a, writes_in_order g2 (k a)) ->
  writes_in_order (g1 ++ g2)%list (bind m k).
Proof.
  intros Hm Hk w. rewrite bind_fst, bind_snd.
  destruct (Hm w) as ((n & En) & Hok).
  destruct (fst (m w)) as [a|ex].
  - specialize (Hok a eq_refl).
    destruct (Hk a (snd (m w))) as ((n2 & E2) & Hok2). split.
    + exists (List.length g1 + n2)%nat.
      rewrite E2, Hok, firstn_app_2. now rewrite app_assoc.
    + intros b Hb. rewrite (Hok2 b Hb), Hok. now rewrite app_assoc.
  - split; [|discriminate].
    exists (Nat.min n (List.length g1)). rewrite En. f_equal.
    rewrite firstn_app.
    replace (Nat.min n (List.length g1) - List.length g1)%nat with 0%nat
      by lia.
    simpl. rewrite app_nil_r.
    rewrite <- (firstn_firstn g1 n (List.length g1)), firstn_all.
    reflexivity.
Qed.

Lemma writes_for_each {A} (g : A -> list string) (body : A -> M unit) l :
  (forall x, writes_in_order (g x) (body x)) ->
  writes_in_order (flat_map g l) (for_each l body).
Proof.
  intros H. induction l as [|x l IH]; simpl.
  - apply writes_nothing. intros w. reflexivity.
  - apply writes_bind; [apply H | intros _; exact IH].
Qed.

Lemma writes_check_page e ts dev p :
  writes_in_order [screenshot_name (fst dev) (name p) ts]
    (check_page e ts dev p).
Proof.
  unfold check_page. cbv zeta.
  apply (writes_bind [] [_]);
    [apply writes_nothing, ResponsiveFacts.check_layout_keeps; reflexivity
    | intros _].
  apply (writes_bind [] [_]);
    [apply writes_nothing, ResponsiveFacts.check_buttons_keeps; reflexivity
    | intros _].
  unfold take_screenshot. cbv zeta.
  apply (writes_bind [_] []); [apply writes_screenshot | intros _].
  apply writes_nothing. intros w. reflexivity.
Qed.

Lemma writes_check_device e ts dev :
  writes_in_order
    (map (fun p => screenshot_name (fst dev) (name p) ts) PAGES_TO_TEST)
    (check_device e ts dev).
Proof.
  rewrite <- flat_map_singleton.
  set (g := flat_map (fun p => [screenshot_name (fst dev) (name p) ts])
              PAGES_TO_TEST).
  unfold check_device. cbv zeta.
  do 5 (apply (writes_bind [] g);
        [apply writes_nothing; intros w; reflexivity | intros _]).
  apply writes_for_each. intros p. apply writes_check_page.
Qed.

Lemma writes_test_responsive_design e :
  writes_in_order (matrix_names (strftime_Ymd_HMS (localtime e)))
    (test_responsive_design e).
Proof.
  assert (B : writes_in_order
                ([] ++ [] ++ [] ++ [] ++ [] ++
                 matrix_names (strftime_Ymd_HMS (localtime e)) ++ [] ++ [])%list
                (raw (launch e) ;;
                 raw (new_page e) ;;
                 print (nl ++ "📱 开始测试响应式设计...") ;;
                 print (times "=" 70) ;;
                 login e ;; matrix e ;; browser_close (close e) ;; summary)).
  { apply writes_bind; [apply writes_nothing; intros w; reflexivity | intros _].
    apply writes_bind; [apply writes_nothing; intros w; reflexivity | intros _].
    apply writes_bind; [apply writes_nothing; intros w; reflexivity | intros _].
    apply writes_bind; [apply writes_nothing; intros w; reflexivity | intros _].
    apply writes_bind;
      [apply writes_nothing, ResponsiveFacts.login_keeps; reflexivity
      | intros _].
    apply writes_bind.
    - unfold matrix, matrix_names. cbv zeta. apply writes_for_each.
      intros dev. apply writes_check_device.
    - intros _.
      apply writes_bind; [apply writes_nothing; intros w; reflexivity | intros _].
      apply writes_nothing. unfold summary. ResponsiveFacts.keeps_field files. }
  cbn [app] in B. rewrite app_nil_r in B.
  intros w. unfold test_responsive_design.
  rewrite with_sync_playwright_run. cbn [fst snd exit_playwright files].
  apply B.
Qed.

Lemma run_files_prefix_of_matrix e :
  exists n,
    files (snd (run e))
    = firstn n (matrix_names (strftime_Ymd_HMS (localtime e))).
Proof.
  destruct (writes_test_responsive_design e initial) as ((n & E) & _).
  exists n. unfold run. now rewrite E.
Qed.

(** Screenshots are taken in matrix order without gaps: whatever
    happens, the files of a run are the names of the first [n] pairs of
    the matrix, for some [n]; a run stopped by an exception has written
    the screenshots of exactly the pairs checked before it. *)
Theorem screenshots_follow_the_matrix e :
  exists n,
    files (snd (run e))
    = firstn n (matrix_names (strftime_Ymd_HMS (localtime e)))
    /\ (n <= 36)%nat.
Proof.
  destruct (writes_test_responsive_design e initial) as ((n & E) & _).
  exists (Nat.min n 36). split; [|lia]. unfold run. rewrite E. simpl files.
  cbn [app].
  replace 36%nat
    with (List.length (matrix_names (strftime_Ymd_HMS (localtime e))))
    by reflexivity.
  rewrite <- firstn_firstn, firstn_all. reflexivity.
Qed.

(** ** Names within a run *)

Lemma distinct_NoDup l : distinct l = true -> NoDup l.
Proof.
  induction l as [|x l IH]; simpl; [constructor|].
  rewrite andb_true_iff, negb_true_iff. intros (H & D).
  constructor; [|auto].
  intros Hin. rewrite <- not_true_iff_false in H. apply H.
  apply existsb_exists. exists x. split; [exact Hin | apply String.eqb_refl].
Qed.

Lemma matrix_names_stems ts :
  matrix_names ts = map (fun stem => stem ++ ts ++ ".png") matrix_stems.
Proof. vm_compute. reflexivity. Qed.

Lemma NoDup_map_injective {A B} (f : A -> B) l :
  (forall x y, f x = f y -> x = y) -> NoDup l -> NoDup (map f l).
Proof.
  intros I N. induction N as [|x l Hx N IH]; simpl; constructor; [|exact IH].
  intros Hin. apply in_map_iff in Hin. destruct Hin as (y & E & Hy).
  apply I in E. now subst y.
Qed.

Lemma NoDup_firstn {A} (l : list A) n : NoDup l -> NoDup (firstn n l).
Proof.
  intros H. rewrite <- (firstn_skipn n l) in H.
  now apply NoDup_app_remove_r in H.
Qed.

(** No screenshot of a run overwrites another one of the same run: the
    36 names of the matrix are pairwise different at every timestamp,
    and so are the files of any run. *)
Theorem screenshots_of_a_run_do_not_collide e :
  (forall ts, NoDup (matrix_names ts))
  /\ NoDup (files (snd (run e))).
Proof.
  assert (N : forall ts, NoDup (matrix_names ts)).
  { intros ts. rewrite matrix_names_stems.
    apply NoDup_map_injective.
    - intros s t E. now apply append_inv_tail in E.
    - apply distinct_NoDup. vm_compute. reflexivity. }
  split; [exact N|].
  destruct (run_files_prefix_of_matrix e) as (n & ->).
  apply NoDup_firstn, N.
Qed.

(** ** The failure lines of a run *)

Lemma filter_none {A} (f : A -> bool) l :
  Forall (fun x => f x = false) l -> filter f l = [].
Proof.
  induction 1 as [|x l Hx _ IH]; simpl; [reflexivity | now rewrite Hx].
Qed.

Lemma quiet_growth w w' :
  grows stdout (fun l => is_failure_line l = false) w w' ->
  filter is_failure_line (stdout w') = filter is_failure_line (stdout w).
Proof.
  intros (l & -> & F). rewrite filter_app, (filter_none _ _ F).
  apply app_nil_r.
Qed.

Lemma plain_growth w w' :
  grows stdout plain_line w w' ->
  filter is_failure_line (stdout w') = filter is_failure_line (stdout w).
Proof.
  intros (l & E & F). apply quiet_growth. exists l. split; [exact E|].
  eapply Forall_impl; [|exact F]. now intros a (_ & H).
Qed.

Lemma check_layout_inv o sz p w u w1 :
  check_layout o sz p w = (Ok u, w1) ->
  goto o = Ok tt /\ wait_networkidle o = Ok tt /\ wait_settle o = Ok tt
  /\ exists sw, scroll_width o = Ok sw.
Proof.
  unfold check_layout, check_scroll. intros H.
  apply bind_inv_Ok in H. destruct H as (? & ? & _ & H).
  apply bind_inv_Ok in H. destruct H as ([] & ? & E1 & H).
  apply bind_inv_Ok in H. destruct H as ([] & ? & E2 & H).
  apply bind_inv_Ok in H. destruct H as ([] & ? & E3 & H).
  apply bind_inv_Ok in H. destruct H as (? & ? & H & _).
  apply bind_inv_Ok in H. destruct H as (sw & ? & E4 & _).
  unfold raw in *. injection E1 as E1 _. injection E2 as E2 _.
  injection E3 as E3 _. injection E4 as E4 _. eauto.
Qed.

Lemma check_page_failures e ts dev p w u w' :
  check_page e ts dev p w = (Ok u, w') ->
  filter is_failure_line (stdout w')
  = (filter is_failure_line (stdout w) ++ overflow_line e dev p)%list.
Proof.
  unfold check_page. cbv zeta. intros H.
  apply bind_inv_Ok in H. destruct H as (a & w1 & H1 & H).
  destruct (check_layout_inv _ _ _ _ _ _ H1) as (Hg & Hi & Hs & sw & Hw).
  rewrite (ResponsiveFacts.check_layout_scroll _ _ _ _ _ Hg Hi Hs Hw) in H1.
  apply (steps_run _ _ _ _ _
           (ResponsiveFacts.after_scroll_plain _ _)) in H1.
  apply (steps_run _ _ _ _ _
           (ResponsiveFacts.buttons_and_shot_plain _ _ (fst dev) p ts)) in H.
  rewrite (plain_growth _ _ H), (plain_growth _ _ H1).
  unfold overflow_line. rewrite Hw.
  cbn [print bind fst snd stdout]. rewrite <- app_assoc, filter_app.
  f_equal. destruct (sw >? width (snd dev) + 10); reflexivity.
Qed.

Ltac no_failure :=
  ResponsiveFacts.grows_stdout (fun l => is_failure_line l = false);
  reflexivity.

Lemma check_device_failures e ts dev w u w' :
  check_device e ts dev w = (Ok u, w') ->
  filter is_failure_line (stdout w')
  = (filter is_failure_line (stdout w)
     ++ flat_map (overflow_line e dev) PAGES_TO_TEST)%list.
Proof.
  unfold check_device. cbv zeta. intros H.
  do 5 (apply bind_inv_Ok in H; destruct H as (? & ? & ?E & H)).
  apply (for_each_collect (fun w => filter is_failure_line (stdout w))
           (overflow_line e dev)) in H;
    [| intros; eapply check_page_failures; eauto].
  rewrite H. f_equal.
  repeat match goal with
         | E : print _ _ = _ |- _ => injection E as _ <-
         | E : raw _ _ = _ |- _ => injection E as _ <-
         end.
  cbn [print snd stdout]. rewrite !filter_app. cbn [filter].
  now rewrite !app_nil_r.
Qed.

Lemma run_Ok_states e :
  fst (run e) = Ok tt ->
  exists w1 w2,
    login e (snd (print (times "=" 70)
                    (snd (print (nl ++ "📱 开始测试响应式设计...") initial))))
    = (Ok tt, w1)
    /\ matrix e w1 = (Ok tt, w2)
    /\ snd (run e)
       = snd (exit_playwright
                (snd (summary (snd (browser_close (close e) w2))))).
Proof.
  unfold run, test_responsive_design. rewrite with_sync_playwright_run.
  cbn [fst snd].
  match goal with
  | |- fst (?m initial) = _ -> _ => destruct (m initial) as [r w'] eqn:E
  end.
  cbn [fst snd]. intros ->.
  apply bind_inv_Ok in E. destruct E as (? & wl & El & E).
  apply bind_inv_Ok in E. destruct E as (? & wn & En & E).
  apply (f_equal snd) in El, En. cbn [raw snd] in El, En. subst wl wn.
  rewrite !LoginFacts.bind_print in E.
  apply bind_inv_Ok in E. destruct E as ([] & w1 & E1 & E).
  apply bind_inv_Ok in E. destruct E as ([] & w2 & E2 & E).
  apply bind_inv_Ok in E. destruct E as (? & w3 & E3 & E).
  exists w1, w2. apply (f_equal snd) in E3. cbn [snd] in E3. subst w3.
  repeat split; try assumption. now rewrite E.
Qed.

(** In a run that returns, the failure lines of the output are, in
    order, the failure lines of the scroll check of the pairs whose
    page is wider than the viewport plus 10: one per such pair, and no
    other check of the script ever prints a failure. *)
Theorem failure_lines_are_the_overflowing_pairs e :
  fst (run e) = Ok tt ->
  filter is_failure_line (stdout (snd (run e))) = overflow_lines e.
Proof.
  intros H.
  destruct (run_Ok_states e H) as (w1 & w2 & El & Em & ->).
  set (w3 := snd (browser_close (close e) w2)).
  assert (S : filter is_failure_line
                (stdout (snd (exit_playwright (snd (summary w3)))))
              = filter is_failure_line (stdout w2)).
  { cbn [exit_playwright snd stdout].
    rewrite (quiet_growth w3 (snd (summary w3))); [reflexivity|].
    apply (steps_run _ summary _ (fst (summary w3)));
      [unfold summary; no_failure | now destruct (summary _)]. }
  rewrite S.
  unfold matrix in Em. cbv zeta in Em.
  apply (for_each_collect (fun w => filter is_failure_line (stdout w))
           (fun dev => flat_map (overflow_line e dev) PAGES_TO_TEST)) in Em;
    [| intros; eapply check_device_failures; eauto].
  rewrite Em. fold (overflow_lines e).
  assert (L : filter is_failure_line (stdout w1) = []).
  { rewrite (quiet_growth _ w1
               (steps_run _ (login e) _ (Ok tt) _
                  ltac:(unfold login; no_failure) El)).
    reflexivity. }
  now rewrite L.
Qed.

Lemma failure_lines_are_the_overflowing_pairs_witness :
  fst (run overflowing) = Ok tt
  /\ filter is_failure_line (stdout (snd (run overflowing)))
     = [msg_scroll_fail 500 375].
Proof.
  split; [vm_compute; reflexivity|].
  rewrite (failure_lines_are_the_overflowing_pairs overflowing
             ltac:(vm_compute; reflexivity)).
  vm_compute. reflexivity.
Defined.

End ResponsiveMore.

(* ================================================================== *)
(** * More on the UI-design script *)
(* ================================================================== *)

Module UIDesignMore.
Import UIDesign.

Lemma always_raw {A} (o : outcome A) : always o (raw o).
Proof. intros w. reflexivity. Qed.

Lemma always_screenshot path o :
  always (match o with Ok _ => Ok tt | Raise ex => Raise ex end)
    (screenshot path o).
Proof. intros w. unfold screenshot. now destruct o. Qed.

Lemma always_with_sync_playwright {A} (m : M A) r :
  always r m -> always r (with_sync_playwright m).
Proof. intros H w. rewrite with_sync_playwright_fst. apply H. Qed.

(** Steps through the script: a driver call is split on its answer, an
    assertion on its condition, anything else returns. *)
Ltac through_ui :=
  repeat
    (cbv beta iota zeta;
     match goal with
     | |- always _ (bind (bind _ _) _) => apply always_assoc
     | |- always _ (bind (raw ?o) _) =>
         destruct o as [?|?];
         [ eapply always_bind; [apply always_raw|]
         | apply always_raise, always_raw ]
     | |- always _ (bind (screenshot ?p ?o) _) =>
         let H := fresh "H" in
         pose proof (always_screenshot p o) as H;
         destruct o as [?|?];
         [ eapply always_bind; [exact H|] | apply always_raise; exact H ];
         clear H
     | |- always _ (bind (py_assert ?c _) _) =>
         destruct c;
         [ eapply always_bind; [intros ?; reflexivity|]
         | apply always_raise; intros ?; reflexivity ]
     | |- always _ (bind (print _) _) =>
         apply always_after; [apply returns_print | intros _]
     | |- always _ (bind (browser_close ?o) _) =>
         destruct o as [?|?];
         [ eapply always_bind; [intros ?; reflexivity|]
         | apply always_raise; intros ?; reflexivity ]
     | |- always _ (bind (try_except _ _) _) =>
         apply always_after;
         [ apply returns_try_except; intros ?; apply returns_print
         | intros _ ]
     | |- always _ (bind (if ?b then _ else _) _) => destruct b
     | |- always _ (bind (ret _) _) =>
         eapply always_bind; [intros ?; reflexivity|]
     | |- always _ (if ?b then _ else _) => destruct b
     | |- always _ (print _) => intros ?; reflexivity
     | |- always _ (ret _) => intros ?; reflexivity
     end).

Lemma test_ui_design_result e :
  always (match ui_failure e with
          | Some ex => Raise ex
          | None => Ok tt
          end) (test_ui_design e).
Proof.
  apply always_with_sync_playwright.
  unfold ui_failure, before_close, before_shots, then_, holds.
  unfold test_login_page, login, after_login, test_home, test_profile,
    test_market, test_subscription, test_hot_products, test_favorites,
    test_global, save_screenshots.
  through_ui.
  all: apply returns_unit, CloseFacts.ui_summary_returns.
Qed.

Lemma holds_spec c msg k ex :
  holds c msg k = Some ex
  <-> (c = false /\ ex = AssertionError msg) \/ (c = true /\ k = Some ex).
Proof.
  unfold holds. destruct c.
  - split; [now right | now intros [(? & _)|(_ & ?)]].
  - split.
    + intros H. injection H as <-. now left.
    + intros [(_ & ->)|(? & _)]; [reflexivity | discriminate].
Qed.

(** The run of [test_ui_design] ends with the first driver call that
    raises or assertion that fails, in source order, from the launch of
    the browser to [browser.close()], and returns when there is none.
    The login timeout and the checks that only print (the page header
    of the home, market and hot-products pages, the colour of the
    active tab, the style of the export button) have no part in it:
    whatever they find, the run ends the same way.  When the launch of
    the browser raises, the run ends before anything is printed. *)
Theorem run_ends_with_the_first_failure e :
  fst (run e)
  = match ui_failure e with
    | Some ex => Raise ex
    | None => Ok tt
    end
  /\ (fst (run e) = Ok tt <-> ui_failure e = None)
  /\ (forall bg,
        launch e = Ok tt -> new_page e = Ok tt ->
        goto_login e = Ok tt -> login_networkidle e = Ok tt ->
        bg_color e = Ok bg ->
        contains "rgb(15, 23, 42)" bg = false -> contains "slate" bg = false ->
        fst (run e) = Raise (AssertionError "❌ 背景应为深色 (slate-900)"))
  /\ (forall ex,
        launch e = Raise ex ->
        fst (run e) = Raise ex /\ stdout (snd (run e)) = [])
  /\ (before_close e = None -> fst (run e) = close e).
Proof.
  split; [apply test_ui_design_result|]. split.
  { unfold run. rewrite test_ui_design_result.
    destruct (ui_failure e); split; congruence. }
  split; [| split].
  - intros bg H01 H02 H1 H2 H3 H4 H5. unfold run.
    rewrite test_ui_design_result. unfold ui_failure, before_close,
      before_shots.
    rewrite H01, H02, H1, H2, H3. cbn [then_]. rewrite H4, H5. reflexivity.
  - intros ex H.
    unfold run, test_ui_design, with_sync_playwright, try_finally, bind,
      raw.
    rewrite H. split; reflexivity.
  - intros H. unfold run. rewrite test_ui_design_result.
    unfold ui_failure. rewrite H. now destruct (close e) as [[]|].
Qed.

(** ** The screenshots *)

Lemma watch_raw {X A} (obs : world -> X) v (o : outcome A)
    (post : outcome A -> X -> Prop) :
  post o v -> watch obs v (raw o) post.
Proof. intros P w Hw. cbn [raw fst snd]. now rewrite Hw. Qed.

Lemma watch_py_assert {X} (obs : world -> X) v (c : bool) msg
    (post : outcome unit -> X -> Prop) :
  post (if c then Ok tt else Raise (AssertionError msg)) v ->
  watch obs v (py_assert c msg) post.
Proof. intros P w Hw. unfold py_assert. destruct c; cbn; now rewrite Hw. Qed.

Lemma watch_close fs c o
    (post : outcome unit -> list string * nat -> Prop) :
  post o (fs, S c) -> watch files_and_closes (fs, c) (browser_close o) post.
Proof.
  intros P w Hw. unfold files_and_closes in *. injection Hw as <- <-.
  exact P.
Qed.

Lemma watch_shot fs c path o
    (post : outcome unit -> list string * nat -> Prop) :
  post (match o with Ok _ => Ok tt | Raise ex => Raise ex end)
    (match o with Ok _ => (fs ++ [path])%list | Raise _ => fs end, c) ->
  watch files_and_closes (fs, c) (screenshot path o) post.
Proof.
  intros P w Hw. unfold files_and_closes in *. injection Hw as <- <-.
  unfold screenshot. now destruct o as [[]|ex].
Qed.

Ltac silent :=
  apply (watch_quiet files_and_closes) with (a := tt);
  [ intros ?; reflexivity | intros ?; reflexivity | ].

(** Follows the files and the close through the script: a driver call
    is split on its answer, an assertion on its condition; what only
    prints is passed over. *)
Ltac follow_ui :=
  repeat
    (cbv beta iota zeta;
     match goal with
     | |- watch _ _ (bind _ _) _ => apply watch_bind
     | |- watch _ _ (try_finally _ _) _ =>
         apply watch_try_finally_reading; [intros ?; reflexivity |]
     | |- watch _ _ (try_except _ (fun _ => print _)) _ =>
         apply (watch_quiet files_and_closes) with (a := tt);
         [ apply returns_unit, returns_try_except; intros ?;
           apply returns_print
         | apply (steps_try_except _ (keeps_trans files_and_closes));
           [ keeps_basic files_and_closes
           | intros ?; keeps_basic files_and_closes ]
         | ]
     | |- watch _ _ (raw ?o) _ => apply watch_raw; destruct o as [?|?]
     | |- watch _ _ (screenshot _ ?o) _ =>
         apply watch_shot; destruct o as [[]|?]
     | |- watch _ _ (py_assert ?c _) _ => apply watch_py_assert; destruct c
     | |- watch _ _ (browser_close ?o) _ =>
         apply watch_close; destruct o as [?|?]
     | |- watch _ _ (print _) _ => silent
     | |- watch _ _ (ret _) _ => silent
     | |- watch _ _ (if ?b then print _ else print _) _ =>
         apply (watch_quiet files_and_closes) with (a := tt);
         [ destruct b; intros ?; reflexivity
         | destruct b; intros ?; reflexivity | ]
     | |- watch _ _ (if ?b then print _ else ret _) _ =>
         apply (watch_quiet files_and_closes) with (a := tt);
         [ destruct b; intros ?; reflexivity
         | destruct b; intros ?; reflexivity | ]
     | |- watch _ _ (if ?b then _ else _) _ => destruct b
     end).

(** The files of a run and the calls of [browser.close()], from the
    answers of the browser. *)
Lemma ui_files_and_closes e :
  files_and_closes (snd (run e))
  = (match before_shots e with
     | Some _ => []
     | None =>
         match shot_home e with
         | Raise _ => []
         | Ok _ =>
             ("/tmp/flashsell_home_" ++ strftime_Ymd_HMS (localtime e)
              ++ ".png")
             :: match goto_profile_again e, profile_again_networkidle e,
                      shot_profile e with
                | Ok _, Ok _, Ok _ =>
                    ["/tmp/flashsell_profile_"
                     ++ strftime_Ymd_HMS (localtime e) ++ ".png"]
                | _, _, _ => []
                end
         end
     end,
     match before_close e with
     | Some _ => 0%nat
     | None => 1%nat
     end).
Proof.
  apply (fun W : watch files_and_closes ([], 0%nat) (test_ui_design e)
                   (fun _ v => v = _) => W initial eq_refl).
  unfold test_ui_design, with_sync_playwright.
  unfold before_close, before_shots, then_, holds.
  unfold test_login_page, login, after_login, test_home, test_profile,
    test_market, test_subscription, test_hot_products, test_favorites,
    test_global, save_screenshots, summary.
  follow_ui.
  all: reflexivity.
Qed.

Lemma ui_run_files e :
  files (snd (run e))
  = match before_shots e with
    | Some _ => []
    | None =>
        match shot_home e with
        | Raise _ => []
        | Ok _ =>
            ("/tmp/flashsell_home_" ++ strftime_Ymd_HMS (localtime e)
             ++ ".png")
            :: match goto_profile_again e, profile_again_networkidle e,
                     shot_profile e with
               | Ok _, Ok _, Ok _ =>
                   ["/tmp/flashsell_profile_"
                    ++ strftime_Ymd_HMS (localtime e) ++ ".png"]
               | _, _, _ => []
               end
        end
    end.
Proof. exact (f_equal fst (ui_files_and_closes e)). Qed.

(** [browser.close()] is called exactly when the run gets there. *)
Lemma ui_run_closes e :
  closes (snd (run e))
  = match before_close e with
    | Some _ => 0%nat
    | None => 1%nat
    end.
Proof. exact (f_equal snd (ui_files_and_closes e)). Qed.

(** The UI-design script takes its two screenshots last, the home page
    first, under [/tmp] and named by the timestamp read just before: a
    run has written none, the first, or both.  It has written both
    exactly when every driver call before [browser.close()] answered
    and every assertion held; so a run that returns has written both,
    and a run that has written both and ends with an exception was
    ended by [browser.close()] itself.  The timestamp has the form
    [YYYYMMDD_HHMMSS] when the year prints with four digits. *)
Theorem two_screenshots_close_the_run e :
  let home :=
    "/tmp/flashsell_home_" ++ strftime_Ymd_HMS (localtime e) ++ ".png" in
  let profile :=
    "/tmp/flashsell_profile_" ++ strftime_Ymd_HMS (localtime e) ++ ".png" in
  (files (snd (run e)) = [] \/ files (snd (run e)) = [home]
   \/ files (snd (run e)) = [home; profile])
  /\ (files (snd (run e)) = [home; profile] <-> before_close e = None)
  /\ (fst (run e) = Ok tt -> files (snd (run e)) = [home; profile])
  /\ (forall ex,
        fst (run e) = Raise ex -> files (snd (run e)) = [home; profile] ->
        close e = Raise ex)
  /\ (forall ex, before_shots e = Some ex -> files (snd (run e)) = [])
  /\ (Responsive.valid_time (localtime e) ->
      Responsive.matches_Ymd_HMS (strftime_Ymd_HMS (localtime e)) = true).
Proof.
  intros home profile.
  assert (B : files (snd (run e)) = [home; profile] <-> before_close e = None).
  { rewrite ui_run_files. unfold before_close, then_. fold home. fold profile.
    destruct (before_shots e); [split; discriminate|].
    destruct (shot_home e); [|split; discriminate].
    destruct (goto_profile_again e); [|split; discriminate].
    destruct (profile_again_networkidle e); [|split; discriminate].
    destruct (shot_profile e); [|split; discriminate].
    split; reflexivity. }
  assert (R : fst (run e)
              = match ui_failure e with
                | Some ex => Raise ex
                | None => Ok tt
                end) by apply test_ui_design_result.
  split; [| split; [exact B | split; [| split; [| split]]]].
  - rewrite ui_run_files. fold home. fold profile.
    destruct (before_shots e); [now left|].
    destruct (shot_home e); [|now left].
    destruct (goto_profile_again e), (profile_again_networkidle e),
      (shot_profile e); auto.
  - intros H. apply B. rewrite R in H. unfold ui_failure in H.
    destruct (before_close e); [discriminate | reflexivity].
  - intros ex H F. apply B in F. rewrite R in H. unfold ui_failure in H.
    rewrite F in H. destruct (close e) as [[]|]; [discriminate|].
    cbn [then_] in H. congruence.
  - intros ex H. rewrite ui_run_files. now rewrite H.
  - apply ResponsiveFacts.strftime_matches.
Qed.

End UIDesignMore.

(* ================================================================== *)
(** * Timestamps and names *)
(* ================================================================== *)

Module NameFacts.
Import Responsive.

Lemma digit_injective a b :
  0 <= a < 10 -> 0 <= b < 10 -> digit a = digit b -> a = b.
Proof.
  intros Ha Hb E. unfold digit in E. apply (f_equal nat_of_ascii) in E.
  rewrite !nat_ascii_embedding in E by lia. lia.
Qed.

Lemma pad2_injective a b :
  0 <= a < 100 -> 0 <= b < 100 -> pad2 a = pad2 b -> a = b.
Proof.
  intros Ha Hb E. unfold pad2 in E. injection E as E1 E2.
  apply digit_injective in E1; [| apply Z.mod_pos_bound; lia ..].
  apply digit_injective in E2; [| apply Z.mod_pos_bound; lia ..].
  Z.to_euclidean_division_equations. lia.
Qed.

Lemma four_digits_length s :
  four_digits s = true -> String.length s = 4%nat.
Proof.
  destruct s as [|a [|b [|c [|d [|]]]]]; try discriminate. reflexivity.
Qed.

(** The timestamp tells local times apart: two valid local times with
    one timestamp are the same second of the same day. *)
Lemma strftime_injective t1 t2 :
  valid_time t1 -> valid_time t2 ->
  strftime_Ymd_HMS t1 = strftime_Ymd_HMS t2 -> t1 = t2.
Proof.
  intros (Y1 & M1 & D1 & H1 & N1 & S1) (Y2 & M2 & D2 & H2 & N2 & S2) E.
  unfold strftime_Ymd_HMS in E.
  pose proof (four_digits_length _ (ResponsiveFacts.year_digits _ Y1)) as L1.
  pose proof (four_digits_length _ (ResponsiveFacts.year_digits _ Y2)) as L2.
  apply append_inv_head in E; [| congruence]. destruct E as (Ey & E).
  apply append_inv_head in E; [| reflexivity]. destruct E as (Em & E).
  apply append_inv_head in E; [| reflexivity]. destruct E as (Ed & E).
  apply append_inv_head in E; [| reflexivity]. destruct E as (_ & E).
  apply append_inv_head in E; [| reflexivity]. destruct E as (Eh & E).
  apply append_inv_head in E; [| reflexivity]. destruct E as (En & Es).
  apply str_injective in Ey.
  apply pad2_injective in Em; [| lia ..].
  apply pad2_injective in Ed; [| lia ..].
  apply pad2_injective in Eh; [| lia ..].
  apply pad2_injective in En; [| lia ..].
  apply pad2_injective in Es; [| lia ..].
  destruct t1, t2. simpl in *. congruence.
Qed.

(** Two responsive runs that read the clock at different valid local
    times share no screenshot file: the timestamp has one-second
    resolution and is part of every name, so only runs that read the
    same second can overwrite each other. *)
Theorem runs_at_different_seconds_share_no_file e1 e2 :
  valid_time (localtime e1) -> valid_time (localtime e2) ->
  localtime e1 <> localtime e2 ->
  strftime_Ymd_HMS (localtime e1) <> strftime_Ymd_HMS (localtime e2)
  /\ forall f, In f (files (snd (run e1))) -> ~ In f (files (snd (run e2))).
Proof.
  intros V1 V2 Hne.
  assert (T : strftime_Ymd_HMS (localtime e1)
              <> strftime_Ymd_HMS (localtime e2)).
  { intros E. apply Hne. now apply strftime_injective. }
  split; [exact T|]. intros f H1 H2.
  pose proof (ResponsiveFacts.run_files_named e1) as N1.
  pose proof (ResponsiveFacts.run_files_named e2) as N2.
  rewrite Forall_forall in N1, N2.
  destruct (N1 f H1) as (d & p & ->). destruct (N2 _ H2) as (d' & p' & E).
  apply T. apply ResponsiveFacts.screenshot_name_timestamp in E; [exact E|].
  rewrite (ResponsiveFacts.matches_length _
             (ResponsiveFacts.strftime_matches _ V1)).
  symmetry. apply (ResponsiveFacts.matches_length _
                     (ResponsiveFacts.strftime_matches _ V2)).
Qed.

Lemma runs_at_different_seconds_share_no_file_witness :
  valid_time (localtime calm) /\ valid_time (localtime calm_later)
  /\ strftime_Ymd_HMS (localtime calm)
     <> strftime_Ymd_HMS (localtime calm_later).
Proof.
  assert (V1 : valid_time (localtime calm))
    by (unfold valid_time; simpl; lia).
  assert (V2 : valid_time (localtime calm_later))
    by (unfold valid_time; simpl; lia).
  split; [exact V1 | split; [exact V2|]].
  exact (proj1 (runs_at_different_seconds_share_no_file calm calm_later
                  V1 V2 ltac:(discriminate))).
Defined.

End NameFacts.

(* ================================================================== *)
(** * How a run of the responsive script ends *)
(* ================================================================== *)

Module ResponsiveEnd.
Import Responsive.
Import UIDesignMore.

Lemma ends_for_each {A} (f : A -> option exn) (body : A -> M unit) l :
  (forall x, ends_with (f x) (body x)) ->
  ends_with (first_of f l) (for_each l body).
Proof.
  intros H. induction l as [|x l IH]; simpl.
  - intros w. reflexivity.
  - pose proof (H x) as Hx. unfold ends_with in *.
    destruct (f x) as [ex|]; simpl.
    + now apply always_raise.
    + eapply always_bind; [exact Hx | exact IH].
Qed.

Lemma count_small_result btns n :
  match first_raise btns with
  | Some ex => always (Raise ex) (count_small btns n)
  | None => returns (count_small btns n)
  end.
Proof.
  revert n. induction btns as [|[b|ex] rest IH]; intros n; simpl.
  - apply returns_ret.
  - specialize (IH (if undersized b then n + 1 else n)).
    destruct (first_raise rest).
    + eapply always_bind; [apply always_raw | exact IH].
    + intros w. rewrite bind_fst. cbn [raw fst snd]. apply IH.
  - apply always_raise, always_raw.
Qed.

Ltac through_buttons :=
  match goal with
  | |- always _ (bind (count_small ?l ?n) _) =>
      let H := fresh "H" in
      pose proof (count_small_result l n) as H;
      destruct (first_raise l);
      [ apply always_raise; exact H
      | apply always_after; [exact H | intros ?] ]
  end.

Lemma check_page_result e ts device p :
  ends_with (page_failure (obs e (fst device) (name p)) (snd device))
    (check_page e ts device p).
Proof.
  unfold ends_with, check_page. cbv zeta.
  generalize (obs e (fst device) (name p)) as o. intros o.
  generalize (snd device) as sz. intros sz.
  unfold page_failure, after, otherwise.
  unfold check_layout, check_scroll, check_sidebar, check_main, check_cards,
    check_buttons, take_screenshot.
  through_ui.
  all: try through_buttons.
  all: through_ui.
Qed.

Lemma check_device_result e ts device :
  ends_with (device_failure e device) (check_device e ts device).
Proof.
  unfold ends_with, check_device, device_failure, after. cbv zeta.
  through_ui. cbv beta.
  all: apply ends_for_each; intros p; apply check_page_result.
Qed.

Lemma matrix_result e :
  ends_with (first_of (device_failure e) DEVICE_SIZES) (matrix e).
Proof.
  unfold matrix. cbv zeta. apply ends_for_each. intros device.
  apply check_device_result.
Qed.

Lemma test_responsive_design_result e :
  ends_with (run_failure e) (test_responsive_design e).
Proof.
  unfold ends_with, test_responsive_design.
  apply always_with_sync_playwright.
  unfold run_failure, before_close, after, otherwise, login.
  through_ui. cbv beta.
  pose proof (matrix_result e) as H. unfold ends_with in H.
  destruct (first_of (device_failure e) DEVICE_SIZES).
  - now apply always_raise.
  - eapply always_bind; [exact H|].
    through_ui.
    all: apply returns_unit; intros w; exists tt;
      apply ResponsiveFacts.summary_runs.
Qed.

(** The run of [test_responsive_design] ends with the first driver call
    that raises, in source order, from the launch of the browser to
    [browser.close()], and returns when there is none.  No verdict of a
    check has a part in it (a horizontal overflow, a hidden navigation
    bar or main area, no card, undersized buttons), nor has the wait for
    the landing route after the login.  The calls are those the script
    makes: the width of the main area only when it is visible, the
    width of the first card only when there is one, the buttons only on
    viewports of at most 480px, and the boxes of the first five buttons
    only.  When the launch of the browser raises, the run ends before
    anything is printed. *)
Theorem responsive_run_ends_with_the_first_driver_error e :
  fst (run e)
  = match run_failure e with
    | Some ex => Raise ex
    | None => Ok tt
    end
  /\ (fst (run e) = Ok tt <-> run_failure e = None)
  /\ (forall ex,
        launch e = Raise ex ->
        fst (run e) = Raise ex /\ stdout (snd (run e)) = [])
  /\ (before_close e = None -> fst (run e) = close e).
Proof.
  pose proof (test_responsive_design_result e initial) as H.
  fold (run e) in H. split; [exact H|]. split; [| split].
  - rewrite H. destruct (run_failure e); split; congruence.
  - intros ex L.
    unfold run, test_responsive_design, with_sync_playwright, try_finally,
      bind, raw.
    rewrite L. split; reflexivity.
  - intros B. rewrite H. unfold run_failure. rewrite B.
    now destruct (close e) as [[]|].
Qed.

(** ** Reaching [browser.close()] *)

Lemma watch_closes_close c o (post : outcome unit -> nat -> Prop) :
  post o (S c) -> watch closes c (browser_close o) post.
Proof. intros P w Hw. cbn [browser_close fst snd closes]. now rewrite Hw. Qed.

(** [browser.close()] is called exactly when the run gets there. *)
Lemma responsive_run_closes e :
  closes (snd (run e))
  = match before_close e with
    | Some _ => 0%nat
    | None => 1%nat
    end.
Proof.
  apply (fun W : watch closes 0%nat (test_responsive_design e)
                   (fun _ c => c = _) => W initial eq_refl).
  unfold test_responsive_design, with_sync_playwright, before_close, after,
    login.
  repeat
    (cbv beta iota zeta;
     match goal with
     | |- watch _ _ (bind _ _) _ => apply watch_bind
     | |- watch _ _ (try_finally _ _) _ =>
         apply watch_try_finally_reading; [intros ?; reflexivity |]
     | |- watch _ _ (try_except _ (fun _ => print _)) _ =>
         apply (watch_quiet closes) with (a := tt);
         [ apply returns_unit, returns_try_except; intros ?;
           apply returns_print
         | apply (steps_try_except _ (keeps_trans closes));
           [keeps_basic closes | intros ?; keeps_basic closes]
         | ]
     | |- watch _ _ (raw ?o) _ => apply watch_raw; destruct o as [?|?]
     | |- watch _ _ (print _) _ =>
         apply (watch_quiet closes) with (a := tt);
         [ intros ?; reflexivity | intros ?; reflexivity | ]
     | |- watch _ _ (matrix e) _ =>
         apply (watch_known closes _ _ _ _ (matrix_result e)
                  (ResponsiveFacts.matrix_keeps_closes e));
         destruct (first_of (device_failure e) DEVICE_SIZES)
     | |- watch _ _ (browser_close ?o) _ =>
         apply watch_closes_close; destruct o as [?|?]
     | |- watch _ _ summary _ =>
         apply (watch_quiet closes) with (a := tt);
         [ intros ?; apply ResponsiveFacts.summary_runs
         | apply ResponsiveFacts.summary_keeps_closes | ]
     end).
  all: reflexivity.
Qed.

End ResponsiveEnd.

(* ================================================================== *)
(** * The line of the outer handler of [test-frontend.py] *)
(* ================================================================== *)

Module FrontendOutput.
Import Frontend.
Import FrontendFacts.

Lemma keeps_grows {A} (P : string -> Prop) (m : M A) :
  steps (keeps stdout) m -> steps (grows stdout P) m.
Proof.
  intros H w. exists []. split; [|constructor].
  rewrite app_nil_r. apply H.
Qed.

Ltac grows_front P :=
  repeat
    (cbv beta zeta;
     match goal with
     | |- steps _ (call _) => unfold call
     | |- steps _ (call_screenshot _ _) => unfold call_screenshot
     | |- steps _ (deliver _) =>
         apply keeps_grows, keeps_deliver; intros ? ?; reflexivity
     | |- steps _ (screenshot _ _) =>
         apply ResponsiveFacts.grows_stdout_screenshot
     | |- steps _ (print _) => apply ResponsiveFacts.grows_print
     | |- steps _ (results_append _ _) =>
         apply keeps_grows; intros ?; reflexivity
     | |- steps _ (set_failed_requests _) =>
         apply keeps_grows; intros ?; reflexivity
     | |- steps _ hook_response => apply keeps_grows; intros ?; reflexivity
     | |- steps _ (gets _) => apply keeps_grows; intros ?; reflexivity
     | |- steps _ _ =>
         progress split_steps (grows_refl stdout P) (grows_trans stdout P)
     end).

Lemma checks_calm e : steps (grows stdout calm_line) (checks e).
Proof.
  unfold_checks. grows_front calm_line.
  all: try reflexivity.
Qed.

Lemma report_calm : steps (grows stdout calm_line) report.
Proof.
  unfold report. grows_front calm_line.
  all: try reflexivity.
Qed.

Lemma calm_growth w w' :
  grows stdout calm_line w w' ->
  filter is_abort_line (stdout w') = filter is_abort_line (stdout w).
Proof.
  intros (l & -> & F). rewrite filter_app.
  assert (N : filter is_abort_line l = []).
  { induction F as [|x l Hx _ IH]; [reflexivity|].
    simpl. now rewrite Hx. }
  rewrite N. apply app_nil_r.
Qed.

Lemma guarded_aborts e w :
  filter is_abort_line (stdout (snd (guarded e w)))
  = (filter is_abort_line (stdout w)
     ++ match try_failure e with
        | Some ex => [(nl ++ "❌ 测试失败: " ++ exn_str ex)%string]
        | None => []
        end)%list.
Proof.
  unfold guarded.
  rewrite !bind_snd. cbn [set_console_errors hook_console fst snd].
  set (w0 := mkWorld _ _ _ _ _ _ _ _ _).
  assert (S0 : stdout w0 = stdout w) by reflexivity.
  rewrite <- S0. clearbody w0. clear S0.
  rewrite try_finally_close_snd. cbn [browser_close snd stdout].
  unfold try_except.
  pose proof (checks_result e w0) as R.
  pose proof (checks_calm e w0) as G. apply calm_growth in G.
  destruct (checks e w0) as [r w1]. cbn [fst snd] in R, G. subst r.
  destruct (try_failure e) as [ex|].
  - cbn. rewrite filter_app, G. reflexivity.
  - cbn. rewrite G. now rewrite app_nil_r.
Qed.

Lemma session_aborts e w :
  filter is_abort_line (stdout (snd (session e w)))
  = (filter is_abort_line (stdout w)
     ++ match startup_failure e, try_failure e with
        | None, Some ex => [(nl ++ "❌ 测试失败: " ++ exn_str ex)%string]
        | _, _ => []
        end)%list.
Proof.
  destruct (startup_failure e) as [ex|] eqn:S.
  - rewrite (session_not_started e ex w S). cbn [exit_playwright snd stdout].
    now rewrite app_nil_r.
  - rewrite (session_started e w S), with_sync_playwright_run.
    cbn [exit_playwright snd stdout]. apply guarded_aborts.
Qed.

(** Of the texts the script passes to [print], the one of the outer
    handler, made of a line feed, the mark and the text of the
    exception, occurs exactly once when the browser was launched, the
    page created, and a driver call of the [try] block raises, the GET
    of the health endpoint apart; otherwise no text passed to [print]
    starts like it, whatever the page title, the URL, the failed
    requests or the console errors are.  (The statement is about the
    calls of [print]: a text supplied by the page that holds line feeds
    is printed as it is.) *)
Theorem outer_failure_is_printed_once e :
  filter is_abort_line (stdout (snd (run e)))
  = match startup_failure e, try_failure e with
    | None, Some ex => [nl ++ "❌ 测试失败: " ++ exn_str ex]
    | _, _ => []
    end.
Proof.
  rewrite run_unfold.
  assert (S : filter is_abort_line
                (stdout (snd (session e (snd (set_results [] initial)))))
              = match startup_failure e, try_failure e with
                | None, Some ex => [nl ++ "❌ 测试失败: " ++ exn_str ex]
                | _, _ => []
                end) by (rewrite session_aborts; reflexivity).
  destruct (escapes e); cbn [snd]; [exact S|].
  now rewrite (calm_growth _ _ (report_calm _)).
Qed.

End FrontendOutput.


(* ================================================================== *)
(** * Closing the browser *)
(* ================================================================== *)

Module Closing.

(** C8 (amended).  In the aggregate script [browser.close()] is in the
    [finally] clause of the [try] statement: once the browser is
    launched and the page created, it is called exactly once on every
    path, whatever the checks do; when the launch or the creation of
    the page raises, before the [try] statement, it is not called.  In
    the responsive and the UI-design scripts it is a call of its own
    after the checks: it is made exactly once when every driver call
    before it answered and every assertion held, and not at all when
    one of them ends the run, whose exception then leaves the script.
    Every script leaves the context manager of the driver exactly
    once. *)
Theorem browser_is_closed_when_the_run_gets_there :
  (forall e,
      closes (snd (Frontend.run e))
      = match Frontend.startup_failure e with
        | None => 1%nat
        | Some _ => 0%nat
        end
      /\ stops (snd (Frontend.run e)) = 1%nat)
  /\ (forall e,
        closes (snd (Responsive.run e))
        = match Responsive.before_close e with
          | None => 1%nat
          | Some _ => 0%nat
          end
        /\ (forall ex,
              Responsive.before_close e = Some ex ->
              fst (Responsive.run e) = Raise ex)
        /\ stops (snd (Responsive.run e)) = 1%nat)
  /\ (forall e,
        closes (snd (UIDesign.run e))
        = match UIDesign.before_close e with
          | None => 1%nat
          | Some _ => 0%nat
          end
        /\ (forall ex,
              UIDesign.before_close e = Some ex ->
              fst (UIDesign.run e) = Raise ex)
        /\ stops (snd (UIDesign.run e)) = 1%nat).
Proof.
  split; [| split].
  - intros e. destruct (FrontendFacts.run_result e) as (_ & _ & H & H').
    now split.
  - intros e. split; [| split].
    + rewrite ResponsiveEnd.responsive_run_closes.
      now destruct (Responsive.before_close e).
    + intros ex B.
      pose proof (ResponsiveEnd.test_responsive_design_result e initial)
        as R.
      fold (Responsive.run e) in R. rewrite R.
      unfold Responsive.run_failure. now rewrite B.
    + apply CloseFacts.responsive_stops.
  - intros e. split; [| split].
    + rewrite UIDesignMore.ui_run_closes.
      now destruct (UIDesign.before_close e).
    + intros ex B.
      pose proof (UIDesignMore.test_ui_design_result e initial) as R.
      fold (UIDesign.run e) in R. rewrite R.
      unfold UIDesign.ui_failure. now rewrite B.
    + apply CloseFacts.ui_design_stops.
Qed.

(** C8 as stated fails: when the login page has a white background the
    first assertion of the UI-design script fails and the run ends
    without a call of [browser.close()]; so does the responsive run in
    which a navigation is refused, and the aggregate run in which the
    browser is launched and the page cannot be created. *)
Lemma failed_assertion_skips_the_close :
  fst (UIDesign.run UIDesign.white_background)
  = Raise (AssertionError "❌ 背景应为深色 (slate-900)")
  /\ closes (snd (UIDesign.run UIDesign.white_background)) = 0%nat
  /\ fst (Responsive.run Responsive.market_down)
     = Raise (Error "net::ERR_CONNECTION_REFUSED")
  /\ closes (snd (Responsive.run Responsive.market_down)) = 0%nat
  /\ Frontend.launch Frontend.no_page = Ok tt
  /\ fst (Frontend.run Frontend.no_page) = Raise (Error "Target closed")
  /\ closes (snd (Frontend.run Frontend.no_page)) = 0%nat.
Proof. repeat split; vm_compute; reflexivity. Qed.

End Closing.
